(** * Ductsoup_Python_TSL2561: a shallow embedding of the TSL2561 driver

    The driver (src/Ductsoup_Python_TSL2561.py) is a Python class that talks
    to a light sensor through an injected bus object.  The embedding keeps

    - the module constants and the two lookup tables as they are written;
    - the instance attributes as a record, [None] being Python's [None];
    - the bus as a log of events together with an oracle that answers every
      register read from the history so far, so that a statement quantified
      over the oracle speaks about every device;
    - Python exceptions as an outcome, in a state-and-error monad (the bus
      object itself never raises: a transport failure is outside the model);
    - the numbers of [_lux] behind an interface: the file starts with
      [from __future__ import division], so [/] is true division and the
      values are Python floats.  The interface is instantiated with binary64
      floats (what the interpreter computes with) and with exact rationals. *)

From Stdlib Require Import ZArith List Bool Lia QArith RelationClasses.
From Stdlib Require Import Floats.PrimFloat.
From Stdlib Require Numbers.Cyclic.Int63.Uint63.
From Stdlib Require Floats.FloatAxioms Floats.FloatOps Floats.SpecFloat.
Import ListNotations.
Open Scope Z_scope.

(** ** Module constants *)

Definition _COMMAND_BIT : Z := 0x80.
Definition _WORD_BIT : Z := 0x20.
Definition _CLEAR_BIT : Z := 0x40.

Definition _REGISTER_CONTROL : Z := 0x00.
Definition _REGISTER_TIMING : Z := 0x01.
Definition _REGISTER_THRESHHOLD_MIN : Z := 0x02.
Definition _REGISTER_THRESHHOLD_MAX : Z := 0x04.
Definition _REGISTER_INTERRUPT : Z := 0x06.
Definition _REGISTER_ID : Z := 0x0A.
Definition _REGISTER_CHANNEL0 : Z := 0x0C.
Definition _REGISTER_CHANNEL1 : Z := 0x0E.

Definition _CONTROL_POWERON : Z := 0x03.
Definition _CONTROL_POWEROFF : Z := 0x00.

Definition _INTERRUPT_NONE : Z := 0x00.
Definition _INTERRUPT_LEVEL : Z := 0x10.

Definition TSL2561_ADDR_LOW : Z := 0x29.
Definition TSL2561_ADDR_FLOAT : Z := 0x39.
Definition TSL2561_ADDR_HIGH : Z := 0x49.

Definition TSL2561_LOWPOWER : Z := 0.
Definition TSL2561_STANDARD : Z := 1.

(** ** Python dictionaries with integer keys *)

Fixpoint dict_get {V : Type} (d : list (Z * V)) (key : Z) : option V :=
  match d with
  | [] => None
  | (k, v) :: rest => if k =? key then Some v else dict_get rest key
  end.

(** A row of [_INTEGRATION_TIME]; the fields are the columns named in the
    comment above the table: hex, wait, clip, min, max, scale (indices 0..5). *)
Record profile : Type := mkProfile {
  p_hex : Z;
  p_wait : Z;
  p_clip : Z;
  p_min : Z;
  p_max : Z;
  p_scale : Z
}.

Definition _INTEGRATION_TIME : list (Z * profile) :=
  [ (13,  mkProfile 0x00 15  4900  100 4850  0x7517);
    (101, mkProfile 0x01 120 37000 200 36000 0x0FE7);
    (402, mkProfile 0x02 450 65000 500 63000 (Z.shiftl 1 10));
    (0,   mkProfile 0x03 0   0     0   0     0) ].

(** A row of [_HDR]: the keys 'gain', 'time', 'min', 'max'. *)
Record tier : Type := mkTier {
  tier_gain : Z;
  tier_time : Z;
  tier_min : option Z;
  tier_max : option Z
}.

Definition _HDR : list (Z * tier) :=
  [ (0, mkTier 16 402 None        (Some 62258));
    (1, mkTier 16 101 (Some 1859) (Some 35318));
    (2, mkTier 1  402 (Some 3277) (Some 62258));
    (3, mkTier 16 13  (Some 252)  (Some 4876));
    (4, mkTier 1  101 (Some 1859) (Some 35318));
    (5, mkTier 1  13  (Some 252)  None) ].

(** The class attribute [_LUX_SCALE] of [TSL2561] (rows K, B, M) and the one
    that the subclass [TSL2561CS] overrides it with. *)
Definition lux_table : Type := list (Z * Z * Z).

Definition TSL2561_LUX_SCALE : lux_table :=
  [ (0x0040, 0x01f2, 0x01be);
    (0x0080, 0x0214, 0x02d1);
    (0x00c0, 0x023f, 0x037b);
    (0x0100, 0x0270, 0x03fe);
    (0x0138, 0x016f, 0x01fc);
    (0x019a, 0x00d2, 0x00fb);
    (0x029a, 0x0018, 0x0012) ].

Definition TSL2561CS_LUX_SCALE : lux_table :=
  [ (0x0043, 0x0204, 0x01ad);
    (0x0085, 0x0228, 0x02c1);
    (0x00c8, 0x0253, 0x0363);
    (0x010a, 0x0282, 0x03df);
    (0x014d, 0x0177, 0x01dd);
    (0x019a, 0x0101, 0x0127);
    (0x029a, 0x0037, 0x002b) ].

(** ** The driver object, the bus and the monad *)

(** What the driver does to the outside world, in order.  The register of a
    bus event is the address that goes on the wire (command bits included);
    [Sleep] carries milliseconds (the source passes [ms / 1000] seconds to
    [time.sleep]). *)
Inductive event : Type :=
| ReadU8 (register value : Z)
| Write8 (register value : Z)
| ReadU16 (register value : Z)
| WriteU16 (register value : Z)
| Sleep (ms : Z)
| WritetoMem (address register : Z) (data : list Z).

(** The device: the value it answers to a read of [register], given everything
    that happened on the bus before. *)
Definition Device : Type := list event -> Z -> Z.

(** The instance attributes.  [_LUX_SCALE] is the class attribute, which
    differs between [TSL2561] and [TSL2561CS].  [i2c] is the attribute that
    [interrupt] looks up: [None] stands for an instance that has no such
    attribute. *)
Record TSL2561 : Type := mkTSL2561 {
  _LUX_SCALE : lux_table;
  address : Z;
  i2c : option Z;
  part_no : Z;
  rev_no : Z;
  _powermode : Z;
  _active : option bool;
  _hdr : option Z;
  _gain : option Z;
  _integration_time : option Z;
  last_vnir : option Z;
  last_ir : option Z
}.

Definition set_sensor_id (p r : Z) (s : TSL2561) : TSL2561 :=
  mkTSL2561 (_LUX_SCALE s) (address s) (i2c s) p r (_powermode s) (_active s)
    (_hdr s) (_gain s) (_integration_time s) (last_vnir s) (last_ir s).

Definition set_powermode (v : Z) (s : TSL2561) : TSL2561 :=
  mkTSL2561 (_LUX_SCALE s) (address s) (i2c s) (part_no s) (rev_no s) v (_active s)
    (_hdr s) (_gain s) (_integration_time s) (last_vnir s) (last_ir s).

Definition set_active (v : option bool) (s : TSL2561) : TSL2561 :=
  mkTSL2561 (_LUX_SCALE s) (address s) (i2c s) (part_no s) (rev_no s) (_powermode s) v
    (_hdr s) (_gain s) (_integration_time s) (last_vnir s) (last_ir s).

Definition set_hdr (v : option Z) (s : TSL2561) : TSL2561 :=
  mkTSL2561 (_LUX_SCALE s) (address s) (i2c s) (part_no s) (rev_no s) (_powermode s)
    (_active s) v (_gain s) (_integration_time s) (last_vnir s) (last_ir s).

Definition set_gain (v : option Z) (s : TSL2561) : TSL2561 :=
  mkTSL2561 (_LUX_SCALE s) (address s) (i2c s) (part_no s) (rev_no s) (_powermode s)
    (_active s) (_hdr s) v (_integration_time s) (last_vnir s) (last_ir s).

Definition set_integration_time (v : option Z) (s : TSL2561) : TSL2561 :=
  mkTSL2561 (_LUX_SCALE s) (address s) (i2c s) (part_no s) (rev_no s) (_powermode s)
    (_active s) (_hdr s) (_gain s) v (last_vnir s) (last_ir s).

Definition set_last (v i : option Z) (s : TSL2561) : TSL2561 :=
  mkTSL2561 (_LUX_SCALE s) (address s) (i2c s) (part_no s) (rev_no s) (_powermode s)
    (_active s) (_hdr s) (_gain s) (_integration_time s) v i.

(** The exceptions the driver can end with. *)
Inductive exn : Type :=
| ValueError
| RuntimeError
| KeyError
| TypeError
| AttributeError
| ZeroDivisionError.

(** How a call ends: with a value, with an exception, or (for the unbounded
    [while True] of [read]) with the iteration budget of the model used up. *)
Inductive outcome (A : Type) : Type :=
| Ok (a : A)
| Raise (e : exn)
| OutOfFuel.

Arguments Ok {A} a.
Arguments Raise {A} e.
Arguments OutOfFuel {A}.

Record World : Type := mkWorld {
  self : TSL2561;
  bus : list event
}.

Definition M (A : Type) : Type := World -> outcome A * World.

Definition ret {A : Type} (a : A) : M A := fun w => (Ok a, w).

Definition bind {A B : Type} (c : M A) (k : A -> M B) : M B :=
  fun w =>
    match c w with
    | (Ok a, w') => k a w'
    | (Raise e, w') => (Raise e, w')
    | (OutOfFuel, w') => (OutOfFuel, w')
    end.

Definition raise {A : Type} (e : exn) : M A := fun w => (Raise e, w).

Definition out_of_fuel {A : Type} : M A := fun w => (OutOfFuel, w).

Definition get_self : M TSL2561 := fun w => (Ok (self w), w).

Definition modify (f : TSL2561 -> TSL2561) : M unit :=
  fun w => (Ok tt, mkWorld (f (self w)) (bus w)).

Definition emit (e : event) : M unit :=
  fun w => (Ok tt, mkWorld (self w) (bus w ++ [e])).

Declare Scope py_scope.
Delimit Scope py_scope with py.

Notation "x <- c ;; k" := (bind c (fun x => k))
  (at level 61, c at next level, right associativity) : py_scope.
Notation "' p <- c ;; k" := (bind c (fun x => match x with p => k end))
  (at level 61, p pattern, c at next level, right associativity) : py_scope.
Notation "c ;; k" := (bind c (fun _ => k))
  (at level 61, right associativity) : py_scope.

Open Scope py_scope.

(** [d[key]], raising [KeyError] when the key is absent; a key that is [None]
    is in none of the tables. *)
Definition getitem {V : Type} (d : list (Z * V)) (key : option Z) : M V :=
  match key with
  | Some k => match dict_get d k with
              | Some v => ret v
              | None => raise KeyError
              end
  | None => raise KeyError
  end.

(** An operand of integer arithmetic: [None & 0x03] is a [TypeError]. *)
Definition as_int (v : option Z) : M Z :=
  match v with
  | Some z => ret z
  | None => raise TypeError
  end.

(** Truth value of an object that is [None] or a [bool]. *)
Definition truthy (v : option bool) : bool :=
  match v with
  | Some b => b
  | None => false
  end.

Definition is_none {A : Type} (v : option A) : bool :=
  match v with
  | Some _ => false
  | None => true
  end.

(** [o == z] for an attribute [o] that holds [None] or an integer. *)
Definition attr_eqb (o : option Z) (z : Z) : bool :=
  match o with
  | Some x => x =? z
  | None => false
  end.

(** [a == b] for two attributes that hold [None] or an integer, and for two
    that hold [None] or a boolean. *)
Definition opt_Z_eqb (a b : option Z) : bool :=
  match a, b with
  | Some x, Some y => x =? y
  | None, None => true
  | _, _ => false
  end.

Definition opt_bool_eqb (a b : option bool) : bool :=
  match a, b with
  | Some x, Some y => Bool.eqb x y
  | None, None => true
  | _, _ => false
  end.

(** ** The numbers of [_lux]

    With true division in force every intermediate value of [_lux] is a
    Python number that may be a float.  The operations [_lux] uses: *)
Class PyNum (num : Type) : Type := {
  of_int : Z -> num;
  num_add : num -> num -> num;
  num_sub : num -> num -> num;
  num_mul : num -> num -> num;
  num_div : num -> num -> num;
  num_le : num -> num -> bool;
  num_gt : num -> num -> bool;
  num_bool : num -> bool
}.

(** Binary64, the interpreter's [float].  The conversion is exact for the
    integers the driver converts (16-bit counts and table constants). *)
Definition float_of_int (z : Z) : PrimFloat.float :=
  if z <? 0
  then PrimFloat.opp (PrimFloat.of_uint63 (Uint63.of_Z (- z)))
  else PrimFloat.of_uint63 (Uint63.of_Z z).

#[export] Instance float_num : PyNum PrimFloat.float := {
  of_int := float_of_int;
  num_add := PrimFloat.add;
  num_sub := PrimFloat.sub;
  num_mul := PrimFloat.mul;
  num_div := PrimFloat.div;
  num_le := PrimFloat.leb;
  num_gt := fun x y => PrimFloat.ltb y x;
  num_bool := fun x => negb (PrimFloat.eqb x PrimFloat.zero)
}.

(** Exact rationals, the arithmetic of a computation by hand. *)
Definition Q_num : PyNum Q := {|
  of_int := inject_Z;
  num_add := Qplus;
  num_sub := Qminus;
  num_mul := Qmult;
  num_div := Qdiv;
  num_le := Qle_bool;
  num_gt := fun x y => negb (Qle_bool x y);
  num_bool := fun x => negb (Qeq_bool x (inject_Z 0))
|}.

(** ** The methods of the driver *)

Section Driver.

Variable device : Device.
Context {num : Type} {PN : PyNum num}.

(** The four methods of the bus object [self._device] that the driver calls,
    and [time.sleep]. *)
Definition readU8 (register : Z) : M Z :=
  fun w =>
    let value := device (bus w) register in
    (Ok value, mkWorld (self w) (bus w ++ [ReadU8 register value])).

Definition write8 (register value : Z) : M unit :=
  emit (Write8 register value).

Definition readU16 (register : Z) : M Z :=
  fun w =>
    let value := device (bus w) register in
    (Ok value, mkWorld (self w) (bus w ++ [ReadU16 register value])).

Definition writeU16 (register value : Z) : M unit :=
  emit (WriteU16 register value).

Definition time_sleep (ms : Z) : M unit :=
  emit (Sleep ms).

(** [_register8(register)] and [_register8(register, value)]: the two arms
    of the method, which every call site selects by leaving [value] out or by
    passing an integer. *)
Definition _register8_read (register : Z) : M Z :=
  readU8 (Z.lor register _COMMAND_BIT).

Definition _register8_write (register value : Z) : M unit :=
  write8 (Z.lor register _COMMAND_BIT) value.

(** The two arms of [_register16]. *)
Definition _register16_read (register : Z) : M Z :=
  readU16 (Z.lor register (Z.lor _COMMAND_BIT _WORD_BIT)).

Definition _register16_write (register value : Z) : M unit :=
  writeU16 (Z.lor register (Z.lor _COMMAND_BIT _WORD_BIT)) value.

(** [max(0, x)]: [x] when [x > 0], else the first argument. *)
Definition max0 (x : num) : num :=
  if num_gt x (of_int 0) then x else of_int 0.

(** The [for k, b, m in self._LUX_SCALE] loop of [_lux] with its [break] and
    its [else] clause; the result is the pair (b, m) the loop leaves. *)
Fixpoint lux_scale_loop (ratio : num) (table : lux_table) : Z * Z :=
  match table with
  | [] => (0, 0)
  | (k, b, m) :: rest =>
      if num_le ratio (of_int k) then (b, m) else lux_scale_loop ratio rest
  end.

(** [_lux(channels)]: [Ok None] is the saturated result, [Ok (Some lux)] a
    numeric one. *)
Definition _lux (channels : Z * Z) : M (option num) :=
  s <- get_self ;;
  if attr_eqb (_integration_time s) 0 then raise ValueError else
  let '(vnir, ir) := channels in
  p <- getitem _INTEGRATION_TIME (_integration_time s) ;;
  let clip := p_clip p in
  if (vnir >? clip) || (ir >? clip) then ret None else
  g <- as_int (_gain s) ;;
  if g =? 0 then raise ZeroDivisionError else
  let scale := num_div (of_int (16 * p_scale p)) (of_int g) in
  let channel0 := num_div (num_mul (of_int vnir) scale) (of_int 1024) in
  let channel1 := num_div (num_mul (of_int ir) scale) (of_int 1024) in
  let ratio :=
    num_div
      (num_add
         (if num_bool channel0
          then num_div (num_mul channel1 (of_int 1024)) channel0
          else of_int 0)
         (of_int 1))
      (of_int 2) in
  let '(b, m) := lux_scale_loop ratio (_LUX_SCALE s) in
  ret (Some (num_div
               (num_add
                  (max0 (num_sub (num_mul channel0 (of_int b))
                                 (num_mul channel1 (of_int m))))
                  (of_int 8192))
               (of_int 16384))).

(** [active(value)]: the getter when [value] is [None]; otherwise
    [value != self._active] decides, and [None] differs from both booleans. *)
Definition active (value : option bool) : M (option bool) :=
  match value with
  | None => s <- get_self ;; ret (_active s)
  | Some value =>
      s <- get_self ;;
      if opt_bool_eqb (Some value) (_active s) then ret None
      else
        modify (set_active (Some value)) ;;
        _register8_write _REGISTER_CONTROL
          (if value then _CONTROL_POWERON else _CONTROL_POWEROFF) ;;
        ret None
  end.

Definition _read : M (Z * Z) :=
  s <- get_self ;;
  if is_none (_gain s) || is_none (_integration_time s) then raise ValueError else
  was_active <- active None ;;
  (if negb (truthy was_active) then
     active (Some true) ;;
     p <- getitem _INTEGRATION_TIME (_integration_time s) ;;
     time_sleep (p_wait p)
   else ret tt) ;;
  vnir <- _register16_read _REGISTER_CHANNEL0 ;;
  ir <- _register16_read _REGISTER_CHANNEL1 ;;
  active was_active ;;
  ret (vnir, ir).

Definition sensor_id : M (Z * Z) :=
  data <- _register8_read _REGISTER_ID ;;
  ret (Z.shiftr data 4, Z.land data 0x0f).

Definition _update_range (gain integration_time : option Z) : M unit :=
  was_active <- active None ;;
  s <- get_self ;;
  (match gain with
   | Some gain =>
       if attr_eqb (_gain s) gain then ret tt
       else
         (if truthy was_active then active (Some false) ;; ret tt else ret tt) ;;
         value <- _register8_read _REGISTER_TIMING ;;
         let value := Z.land value 0x03 in
         bits <- getitem [(1, 0x00); (16, 0x10)] (Some gain) ;;
         _register8_write _REGISTER_TIMING (Z.lor value bits) ;;
         modify (set_gain (Some gain)) ;;
         _register8_read _REGISTER_TIMING ;;
         ret tt
   | None => ret tt
   end) ;;
  s <- get_self ;;
  (match integration_time with
   | Some integration_time =>
       if attr_eqb (_integration_time s) integration_time then ret tt
       else
         value <- _register8_read _REGISTER_TIMING ;;
         let value := Z.land value 0x10 in
         new <- getitem _INTEGRATION_TIME (Some integration_time) ;;
         _register8_write _REGISTER_TIMING (Z.lor value (p_hex new)) ;;
         _register8_read _REGISTER_TIMING ;;
         old <- getitem _INTEGRATION_TIME (_integration_time s) ;;
         time_sleep (Z.max (p_wait old) (p_wait new)) ;;
         modify (set_integration_time (Some integration_time))
   | None => ret tt
   end) ;;
  active was_active ;;
  ret tt.

(** [gain(value)]: the getter when [value] is [None]. *)
Definition gain (value : option Z) : M (option Z) :=
  match value with
  | None => s <- get_self ;; ret (_gain s)
  | Some value =>
      if (value =? 1) || (value =? 16)
      then _update_range (Some value) None ;; ret None
      else raise ValueError
  end.

(** [integration_time(value)]: the getter when [value] is [None]. *)
Definition integration_time (value : option Z) : M (option Z) :=
  match value with
  | None => s <- get_self ;; ret (_integration_time s)
  | Some value =>
      if is_none (dict_get _INTEGRATION_TIME value) then raise ValueError
      else _update_range None (Some value) ;; ret None
  end.

(** What [read] returns: the raw pair, or the value of [_lux]. *)
Inductive reading : Type :=
| Counts (vnir ir : Z)
| Lux (value : option num).

(** The call [self._update_range(gain=_HDR[self._hdr]['gain'],
    integration_time=_HDR[self._hdr]['time'])] that ends every iteration of
    the HDR loop which does not [break]. *)
Definition hdr_update_range : M unit :=
  s <- get_self ;;
  t <- getitem _HDR (_hdr s) ;;
  _update_range (Some (tier_gain t)) (Some (tier_time t)).

(** One iteration of the [while True] of [read(hdr=True)]: [Some (vnir, ir)]
    when the iteration ends in [break], [None] when the loop goes round. *)
Definition hdr_body : M (option (Z * Z)) :=
  '(vnir, ir) <- _read ;;
  s <- get_self ;;
  match _hdr s with
  | None =>
      modify (set_hdr (Some 0)) ;;
      hdr_update_range ;;
      ret None
  | Some h =>
      if (vnir =? 0) && (ir =? 0) && negb (h =? 0) then
        time_sleep 1000 ;;
        hdr_update_range ;;
        ret None
      else
        t <- getitem _HDR (Some h) ;;
        if match tier_max t with
           | Some hi => Z.max vnir ir >? hi
           | None => false
           end
        then
          modify (set_hdr (Some (h + 1))) ;;
          hdr_update_range ;;
          ret None
        else if match tier_min t with
                | Some lo => vnir <? lo
                | None => false
                end
        then
          modify (set_hdr (Some (h - 1))) ;;
          hdr_update_range ;;
          ret None
        else ret (Some (vnir, ir))
  end.

(** The loop itself, with a budget of iterations. *)
Fixpoint hdr_loop (fuel : nat) : M (Z * Z) :=
  match fuel with
  | O => out_of_fuel
  | S fuel' =>
      r <- hdr_body ;;
      match r with
      | Some channels => ret channels
      | None => hdr_loop fuel'
      end
  end.

Definition read (fuel : nat) (autogain hdr raw : bool) : M reading :=
  if hdr then
    '(vnir, ir) <- hdr_loop fuel ;;
    modify (set_last (Some vnir) (Some ir)) ;;
    lux <- _lux (vnir, ir) ;;
    ret (Lux lux)
  else
    modify (set_hdr None) ;;
    '(vnir, ir) <- _read ;;
    '(vnir, ir) <-
      (if autogain then
         s <- get_self ;;
         if attr_eqb (_integration_time s) 0 then raise ValueError else
         p <- getitem _INTEGRATION_TIME (_integration_time s) ;;
         let new_gain :=
           if vnir <? p_min p then Some 16
           else if vnir >? p_max p then Some 1
           else _gain s in
         if opt_Z_eqb new_gain (_gain s) then ret (vnir, ir)
         else gain new_gain ;; _read
       else ret (vnir, ir)) ;;
    if raw then ret (Counts vnir ir)
    else lux <- _lux (vnir, ir) ;; ret (Lux lux).

(** [threshold]: [Some (cycles, min, max)] in get mode, [None] in set mode. *)
Definition threshold (cycles min_value max_value : option Z)
  : M (option (Z * Z * Z)) :=
  if is_none min_value && is_none max_value && is_none cycles then
    min_value <- _register16_read _REGISTER_THRESHHOLD_MIN ;;
    max_value <- _register16_read _REGISTER_THRESHHOLD_MAX ;;
    cycles <- _register8_read _REGISTER_INTERRUPT ;;
    let cycles :=
      if Z.land cycles _INTERRUPT_LEVEL =? 0 then -1 else Z.land cycles 0x0f in
    ret (Some (cycles, min_value, max_value))
  else
    was_active <- active None ;;
    active (Some true) ;;
    (match min_value with
     | Some v => _register16_write _REGISTER_THRESHHOLD_MIN v
     | None => ret tt
     end) ;;
    (match max_value with
     | Some v => _register16_write _REGISTER_THRESHHOLD_MAX v
     | None => ret tt
     end) ;;
    (match cycles with
     | Some c =>
         if c =? -1 then _register8_write _REGISTER_INTERRUPT _INTERRUPT_NONE
         else _register8_write _REGISTER_INTERRUPT
                (Z.lor (Z.min 15 (Z.max 0 c)) _INTERRUPT_LEVEL)
     | None => ret tt
     end) ;;
    active was_active ;;
    ret None.

(** [interrupt(value)]; [value] is [None], a true value or a false one.  The
    write goes through the attribute [i2c] of the instance. *)
Definition interrupt (value : option bool) : M unit :=
  if truthy value || is_none value then raise ValueError else
  s <- get_self ;;
  match i2c s with
  | None => raise AttributeError
  | Some _ =>
      emit (WritetoMem (address s) (Z.lor _CLEAR_BIT _REGISTER_CONTROL) [0x00])
  end.

(** [__init__], after [self.address = address] and the creation of
    [self._device]. *)
Definition __init__ (powermode : Z) : M unit :=
  '(part, rev) <- sensor_id ;;
  modify (set_sensor_id part rev) ;;
  if Z.land part 0x01 =? 0 then raise RuntimeError else
  if negb ((powermode =? TSL2561_LOWPOWER) || (powermode =? TSL2561_STANDARD))
  then raise ValueError else
  modify (set_powermode powermode) ;;
  modify (set_active None) ;;
  active (Some (powermode =? TSL2561_STANDARD)) ;;
  modify (set_hdr None) ;;
  modify (set_gain (Some 1)) ;;
  modify (set_integration_time (Some 402)) ;;
  _update_range (Some 16) (Some 13) ;;
  modify (set_last None None).

(** A fresh instance: only [address] is assigned; no statement of the class
    assigns [i2c]. *)
Definition blank (table : lux_table) (address : Z) : TSL2561 :=
  mkTSL2561 table address None 0 0 0 None None None None None None.

(** [cls(powermode, address)]: the constructed driver together with the bus
    traffic of its construction, or the exception that ended [__init__]. *)
Definition construct (table : lux_table) (powermode address : Z)
  : outcome World :=
  match __init__ powermode (mkWorld (blank table address) []) with
  | (Ok _, w) => Ok w
  | (Raise e, _) => Raise e
  | (OutOfFuel, _) => OutOfFuel
  end.

End Driver.

(** ** The lux formula of the specification

    The second definition of the conversion, written from the words of the
    specification (section 4.6) rather than from the code: the coefficients
    come from the first triple, in ascending order of ratio ceiling, whose
    ceiling is at least the ratio. *)

Section Formula.

Context {num : Type} {PN : PyNum num}.

Definition ratio_ceiling (row : Z * Z * Z) : Z := fst (fst row).
Definition B_coefficient (row : Z * Z * Z) : Z := snd (fst row).
Definition M_coefficient (row : Z * Z * Z) : Z := snd row.

(** The triples by ascending ratio ceiling (a stable insertion sort). *)
Fixpoint insert_row (row : Z * Z * Z) (table : lux_table) : lux_table :=
  match table with
  | [] => [row]
  | r :: rest =>
      if ratio_ceiling row <=? ratio_ceiling r then row :: r :: rest
      else r :: insert_row row rest
  end.

Fixpoint ascending_order (table : lux_table) : lux_table :=
  match table with
  | [] => []
  | row :: rest => insert_row row (ascending_order rest)
  end.

Definition lux_formula (table : lux_table)
  (lux_scale_divisor gain vnir ir : Z) : num :=
  let scale := num_div (of_int (16 * lux_scale_divisor)) (of_int gain) in
  let ch0 := num_div (num_mul (of_int vnir) scale) (of_int 1024) in
  let ch1 := num_div (num_mul (of_int ir) scale) (of_int 1024) in
  let ratio :=
    num_div
      (num_add
         (if num_bool ch0 then num_div (num_mul ch1 (of_int 1024)) ch0
          else of_int 0)
         (of_int 1))
      (of_int 2) in
  let row :=
    match find (fun r => num_le ratio (of_int (ratio_ceiling r)))
               (ascending_order table) with
    | Some r => r
    | None => (0, 0, 0)
    end in
  num_div
    (num_add
       (max0 (num_sub (num_mul ch0 (of_int (B_coefficient row)))
                      (num_mul ch1 (of_int (M_coefficient row)))))
       (of_int 8192))
    (of_int 16384).

End Formula.

(** Whether a calibration table is written in ascending order of ceiling, as
    both tables of the source are. *)
Fixpoint is_ascending (table : lux_table) : bool :=
  match table with
  | r :: ((r' :: _) as rest) =>
      (ratio_ceiling r <=? ratio_ceiling r') && is_ascending rest
  | _ => true
  end.

(** ** Observations on the bus log and on the driver state *)

(** The number of raw reads in a log: every [_read] fetches channel 0 once. *)
Definition is_raw_read (e : event) : bool :=
  match e with
  | ReadU16 register _ =>
      register =? Z.lor _REGISTER_CHANNEL0 (Z.lor _COMMAND_BIT _WORD_BIT)
  | _ => false
  end.

Definition raw_reads (log : list event) : nat :=
  length (filter is_raw_read log).

(** The power state the device was last put in: the last value written to the
    control register, if any. *)
Definition power_command (e : event) : option bool :=
  match e with
  | Write8 register value =>
      if register =? Z.lor _REGISTER_CONTROL _COMMAND_BIT
      then Some (value =? _CONTROL_POWERON)
      else None
  | _ => None
  end.

Definition device_power (log : list event) : option bool :=
  fold_left
    (fun acc e => match power_command e with Some b => Some b | None => acc end)
    log None.

(** The driver's [_active] agrees with what the device was last told. *)
Definition in_sync (w : World) : Prop :=
  device_power (bus w) = _active (self w).

(** The tier index is unset or one of the keys of [_HDR]. *)
Definition hdr_in_range (w : World) : Prop :=
  match _hdr (self w) with
  | None => True
  | Some h => 0 <= h <= 5
  end.

(** The operating point is one the setters accept, and the power state is
    known: what [__init__] establishes and every method keeps. *)
Definition operating (w : World) : Prop :=
  (_gain (self w) = Some 1 \/ _gain (self w) = Some 16) /\
  (exists t p, _integration_time (self w) = Some t /\
               dict_get _INTEGRATION_TIME t = Some p) /\
  (exists b, _active (self w) = Some b).

(** [reset_hdr w] is [w] with the HDR state uninitialized. *)
Definition reset_hdr (w : World) : World :=
  mkWorld (set_hdr None (self w)) (bus w).

(** A computation relates the world it starts in to the world it ends in,
    however it ends. *)
Definition stable {A : Type} (R : World -> World -> Prop) (c : M A) : Prop :=
  forall w, R w (snd (c w)).

(** A computation started in [w] ends normally with a value and a world that
    satisfy [Q], or otherwise (exception, budget used up) in a world that
    satisfies [E]. *)
Definition hoare {A : Type} (c : M A) (w : World)
  (Q : A -> World -> Prop) (E : World -> Prop) : Prop :=
  match c w with
  | (Ok a, w') => Q a w'
  | (Raise _, w') => E w'
  | (OutOfFuel, w') => E w'
  end.

(** An attribute of the driver has the same value in both worlds. *)
Definition attribute_kept {A : Type} (f : TSL2561 -> A) (w w' : World) : Prop :=
  f (self w) = f (self w').

Definition keeps (I : World -> Prop) (w w' : World) : Prop := I w -> I w'.

(** What a raw read leaves alone in the driver object. *)
Definition settings (s : TSL2561) : option Z * option Z * option Z * lux_table :=
  (_hdr s, _gain s, _integration_time s, _LUX_SCALE s).

(** The addresses of the two channel registers on the wire. *)
Definition CHANNEL0_WORD : Z :=
  Z.lor _REGISTER_CHANNEL0 (Z.lor _COMMAND_BIT _WORD_BIT).

Definition CHANNEL1_WORD : Z :=
  Z.lor _REGISTER_CHANNEL1 (Z.lor _COMMAND_BIT _WORD_BIT).

(** The two logs hold the same number of raw reads. *)
Definition same_raw_reads (w w' : World) : Prop :=
  raw_reads (bus w) = raw_reads (bus w').

(** The driver object after [_update_range(gain, integration_time)] has
    returned: the arguments that are not [None] are recorded. *)
Definition with_range (gain integration_time : option Z) (s : TSL2561) : TSL2561 :=
  set_integration_time
    (match integration_time with
     | Some t => Some t
     | None => _integration_time s
     end)
    (set_gain (match gain with
               | Some g => Some g
               | None => _gain s
               end) s).

(** The gain that an auto-gain read settles on, from the gain [g] it starts
    with and the first vnir count: the [new_gain] of [read]. *)
Definition autogain_target (p : profile) (g vnir : Z) : Z :=
  if vnir <? p_min p then 16 else if vnir >? p_max p then 1 else g.

(** What an auto-gain read has done when it ends in [w']. *)
Definition autogain_done (p : profile) (g vnir : Z) (w w' : World) : Prop :=
  _gain (self w') = Some (autogain_target p g vnir) /\
  raw_reads (bus w') =
  (raw_reads (bus w) + (if (autogain_target p g vnir =? g)%Z then 1 else 2))%nat.

(** The public methods, as calls that can follow one another on a driver. *)
Inductive call : Type :=
| call_read (fuel : nat) (autogain hdr raw : bool)
| call_gain (value : option Z)
| call_integration_time (value : option Z)
| call_active (value : option bool)
| call_threshold (cycles min_value max_value : option Z)
| call_interrupt (value : option bool)
| call_sensor_id.

(** The world a call leaves behind, however it ends. *)
Definition after_call {num : Type} {PN : PyNum num} (dev : Device) (c : call)
  (w : World) : World :=
  match c with
  | call_read fuel autogain hdr raw => snd (read dev fuel autogain hdr raw w)
  | call_gain value => snd (gain dev value w)
  | call_integration_time value => snd (integration_time dev value w)
  | call_active value => snd (active value w)
  | call_threshold cycles lo hi => snd (threshold dev cycles lo hi w)
  | call_interrupt value => snd (interrupt value w)
  | call_sensor_id => snd (sensor_id dev w)
  end.

Definition after_calls {num : Type} {PN : PyNum num} (dev : Device)
  (calls : list call) (w : World) : World :=
  fold_left (fun w c => after_call dev c w) calls w.

(** The state of a driver in use. *)
Definition sound (w : World) : Prop :=
  operating w /\ in_sync w /\ hdr_in_range w /\ i2c (self w) = None.

(** ** Devices and drivers used as concrete instances *)

(** The same driver with the device switched off. *)
Definition standby (w : World) : World :=
  mkWorld (set_active (Some false) (self w)) (bus w).


(** A device whose ID register reads 0x50 (part number 5) and whose two
    channels read fixed counts; every other register reads 0. *)
Definition fixed_device (vnir ir : Z) : Device :=
  fun _ register =>
    if register =? 0x8A then 0x50
    else if register =? 0xAC then vnir
    else if register =? 0xAE then ir
    else 0.

(** A driver object with a given operating point, power on, nothing on the
    bus yet. *)
Definition driver_at (table : lux_table) (hdr : option Z) (gain time : Z)
  : World :=
  mkWorld
    (mkTSL2561 table TSL2561_ADDR_FLOAT None 5 0 TSL2561_STANDARD (Some true)
       hdr (Some gain) (Some time) None None)
    [].

(** ** Notions used by the properties of the bus traffic and of HDR *)

(** The byte [threshold] writes to the interrupt register for a persistence
    of [cycles], and the persistence it reads out of such a byte. *)
Definition interrupt_byte (cycles : Z) : Z :=
  if cycles =? -1 then _INTERRUPT_NONE
  else Z.lor (Z.min 15 (Z.max 0 cycles)) _INTERRUPT_LEVEL.

Definition persistence (byte : Z) : Z :=
  if Z.land byte _INTERRUPT_LEVEL =? 0 then -1 else Z.land byte 0x0f.

(** The bus writes of [threshold] in set mode, in order. *)
Definition threshold_writes (cycles min_value max_value : option Z) : list event :=
  (match min_value with
   | Some v => [WriteU16 (Z.lor _REGISTER_THRESHHOLD_MIN (Z.lor _COMMAND_BIT _WORD_BIT)) v]
   | None => []
   end) ++
  (match max_value with
   | Some v => [WriteU16 (Z.lor _REGISTER_THRESHHOLD_MAX (Z.lor _COMMAND_BIT _WORD_BIT)) v]
   | None => []
   end) ++
  (match cycles with
   | Some c => [Write8 (Z.lor _REGISTER_INTERRUPT _COMMAND_BIT) (interrupt_byte c)]
   | None => []
   end).

(** The value last written to a bus address, if any. *)
Definition written (register : Z) (e : event) : option Z :=
  match e with
  | Write8 r v | WriteU16 r v => if r =? register then Some v else None
  | _ => None
  end.

Fixpoint last_written (register : Z) (log : list event) : option Z :=
  match log with
  | [] => None
  | e :: rest =>
      match last_written register rest with
      | Some v => Some v
      | None => written register e
      end
  end.

(** A device that reads back, at every address, the value last written
    there. *)
Definition echoes (dev : Device) : Prop :=
  forall log register v, last_written register log = Some v -> dev log register = v.

(** A register file: reads return the last value written to the address; the
    ID register reads 0x50 and every other untouched register 0. *)
Definition register_file : Device :=
  fun log register =>
    match last_written register log with
    | Some v => v
    | None => if register =? 0x8A then 0x50 else 0
    end.

(** The HDR index names a tier and the operating point is that tier's. *)
Definition at_tier (w : World) : Prop :=
  exists h t,
    _hdr (self w) = Some h /\ dict_get _HDR h = Some t /\
    _gain (self w) = Some (tier_gain t) /\
    _integration_time (self w) = Some (tier_time t).

(** The register map as the driver uses it: byte reads of the ID, timing and
    interrupt registers; byte writes to the control register (power on and
    power off only), the timing register and the interrupt register; word
    reads of the two channels and the two thresholds; word writes to the two
    thresholds; the interrupt-clear command. *)
Definition register_access (e : event) : bool :=
  match e with
  | ReadU8 r _ =>
      (r =? Z.lor _REGISTER_ID _COMMAND_BIT) ||
      (r =? Z.lor _REGISTER_TIMING _COMMAND_BIT) ||
      (r =? Z.lor _REGISTER_INTERRUPT _COMMAND_BIT)
  | Write8 r v =>
      ((r =? Z.lor _REGISTER_CONTROL _COMMAND_BIT) &&
       ((v =? _CONTROL_POWERON) || (v =? _CONTROL_POWEROFF))) ||
      (r =? Z.lor _REGISTER_TIMING _COMMAND_BIT) ||
      (r =? Z.lor _REGISTER_INTERRUPT _COMMAND_BIT)
  | ReadU16 r _ =>
      (r =? Z.lor _REGISTER_CHANNEL0 (Z.lor _COMMAND_BIT _WORD_BIT)) ||
      (r =? Z.lor _REGISTER_CHANNEL1 (Z.lor _COMMAND_BIT _WORD_BIT)) ||
      (r =? Z.lor _REGISTER_THRESHHOLD_MIN (Z.lor _COMMAND_BIT _WORD_BIT)) ||
      (r =? Z.lor _REGISTER_THRESHHOLD_MAX (Z.lor _COMMAND_BIT _WORD_BIT))
  | WriteU16 r _ =>
      (r =? Z.lor _REGISTER_THRESHHOLD_MIN (Z.lor _COMMAND_BIT _WORD_BIT)) ||
      (r =? Z.lor _REGISTER_THRESHHOLD_MAX (Z.lor _COMMAND_BIT _WORD_BIT))
  | Sleep _ => true
  | WritetoMem _ r _ => r =? Z.lor _CLEAR_BIT _REGISTER_CONTROL
  end.

Definition on_register_map (w : World) : Prop :=
  forallb register_access (bus w) = true.

(** The timing byte that encodes a gain and an integration time: the gain
    bit of [_update_range]'s table or-ed with the code of the profile. *)
Definition timing_byte (g t : Z) : option Z :=
  match dict_get [(1, 0x00); (16, 0x10)] g, dict_get _INTEGRATION_TIME t with
  | Some bits, Some p => Some (Z.lor bits (p_hex p))
  | _, _ => None
  end.

(** The gain and the integration time the driver records are the ones last
    written to the timing register. *)
Definition timing_in_sync (w : World) : Prop :=
  exists g t v,
    _gain (self w) = Some g /\ _integration_time (self w) = Some t /\
    timing_byte g t = Some v /\
    last_written (Z.lor _REGISTER_TIMING _COMMAND_BIT) (bus w) = Some v.

(** The rule that one iteration of the HDR loop applies at tier [h], row [t]
    of [_HDR], to the counts it has read: [Some h'] when the loop goes round
    at tier [h'] (waiting at [h], one tier up, one tier down), [None] when
    the counts are accepted. *)
Definition hdr_rule (h : Z) (t : tier) (vnir ir : Z) : option Z :=
  if (vnir =? 0) && (ir =? 0) && negb (h =? 0) then Some h
  else if match tier_max t with
          | Some hi => Z.max vnir ir >? hi
          | None => false
          end
  then Some (h + 1)
  else if match tier_min t with
          | Some lo => vnir <? lo
          | None => false
          end
  then Some (h - 1)
  else None.

(** A computation that runs no loop: it ends by returning or by raising. *)
Definition returns_or_raises {A : Type} (c : M A) : Prop :=
  forall w, fst (c w) <> OutOfFuel.

(** The integers that [float_of_int] converts as the interpreter does: those
    of 63 bits.  A table is in range when all its entries are. *)
Definition in_int63_range (z : Z) : bool :=
  (- 2 ^ 63 <? z) && (z <? 2 ^ 63).

Definition table_in_range (table : lux_table) : bool :=
  forallb
    (fun row =>
       in_int63_range (fst (fst row)) && in_int63_range (snd (fst row)) &&
       in_int63_range (snd row))
    table.

(** * Properties *)

(** ** The illuminance converter *)

Section ConverterFacts.

Context {num : Type} {PN : PyNum num}.

Lemma insert_row_head (row : Z * Z * Z) (table : lux_table) :
  is_ascending (row :: table) = true -> insert_row row table = row :: table.
Proof.
  destruct table as [|r rest]; simpl; [reflexivity|].
  intros H. apply andb_prop in H. destruct H as [H _].
  rewrite H. reflexivity.
Qed.

Lemma is_ascending_tail (row : Z * Z * Z) (table : lux_table) :
  is_ascending (row :: table) = true -> is_ascending table = true.
Proof.
  destruct table as [|r rest]; [reflexivity|].
  intros H. change (is_ascending (row :: r :: rest))
    with ((ratio_ceiling row <=? ratio_ceiling r) && is_ascending (r :: rest)) in H.
  apply andb_prop in H. exact (proj2 H).
Qed.

(** A table written in ascending order is its own ascending order. *)
Lemma ascending_order_sorted (table : lux_table) :
  is_ascending table = true -> ascending_order table = table.
Proof.
  induction table as [|row rest IH]; intros H; [reflexivity|].
  simpl. rewrite IH by exact (is_ascending_tail _ _ H).
  exact (insert_row_head _ _ H).
Qed.

(** The loop with [break] leaves the coefficients of the first row, in table
    order, whose ceiling is at least the ratio, and zeros when there is none. *)
Lemma lux_scale_loop_first (ratio : num) (table : lux_table) :
  lux_scale_loop ratio table =
  match find (fun r => num_le ratio (of_int (ratio_ceiling r))) table with
  | Some r => (B_coefficient r, M_coefficient r)
  | None => (0, 0)
  end.
Proof.
  induction table as [|[[k b] m] rest IH]; simpl; [reflexivity|].
  unfold ratio_ceiling at 1; simpl.
  destruct (num_le ratio (of_int k)); [reflexivity | exact IH].
Qed.

(** Above the clip of the active profile [_lux] answers "no reading", before
    it looks at the gain or at the calibration table. *)
Lemma lux_saturated (w : World) (t : Z) (p : profile) (vnir ir : Z) :
  _integration_time (self w) = Some t -> t <> 0 ->
  dict_get _INTEGRATION_TIME t = Some p ->
  vnir > p_clip p \/ ir > p_clip p ->
  _lux (vnir, ir) w = (Ok None, w).
Proof.
  intros Ht Hnz Hp Hsat.
  assert (Hc : (vnir >? p_clip p) || (ir >? p_clip p) = true).
  { apply orb_true_iff.
    destruct Hsat; [left | right]; apply Z.gtb_lt; lia. }
  unfold _lux, bind, get_self, getitem, ret, attr_eqb.
  rewrite Ht. apply Z.eqb_neq in Hnz. rewrite Hnz, Hp, Hc. reflexivity.
Qed.

(** At or below the clip, with the gain set and not zero, [_lux] computes the
    number that the loop over the table selects. *)
Lemma lux_unsaturated (w : World) (g t : Z) (p : profile) (vnir ir : Z) :
  _gain (self w) = Some g -> g <> 0 ->
  _integration_time (self w) = Some t -> t <> 0 ->
  dict_get _INTEGRATION_TIME t = Some p ->
  vnir <= p_clip p -> ir <= p_clip p ->
  is_ascending (_LUX_SCALE (self w)) = true ->
  _lux (vnir, ir) w =
  (Ok (Some (lux_formula (_LUX_SCALE (self w)) (p_scale p) g vnir ir)), w).
Proof.
  intros Hg Hgz Ht Hnz Hp Hv Hi Hasc.
  assert (Hc : (vnir >? p_clip p) || (ir >? p_clip p) = false).
  { apply orb_false_iff. split; rewrite Z.gtb_ltb; apply Z.ltb_ge; assumption. }
  unfold _lux, bind, get_self, getitem, as_int, ret, attr_eqb.
  rewrite Ht. apply Z.eqb_neq in Hnz. rewrite Hnz, Hp, Hc, Hg.
  apply Z.eqb_neq in Hgz. rewrite Hgz.
  unfold lux_formula.
  rewrite lux_scale_loop_first, (ascending_order_sorted _ Hasc).
  destruct (find _ (_LUX_SCALE (self w))) as [[[k b] m]|]; reflexivity.
Qed.

End ConverterFacts.

(** Both calibration tables of the source are written in ascending order. *)
Lemma lux_tables_ascending :
  is_ascending TSL2561_LUX_SCALE = true /\
  is_ascending TSL2561CS_LUX_SCALE = true.
Proof. split; reflexivity. Qed.

Lemma preset_not_manual (t : Z) : In t [13; 101; 402] -> t <> 0.
Proof. simpl. intros [H | [H | [H | []]]]; subst; discriminate. Qed.

(** C1: for an unsaturated raw pair, a gain of 1 or 16 and a preset
    integration time of 13, 101 or 402 ms, [_lux] returns the value of the
    formula of section 4.6 (coefficients of the first triple, in ascending
    order of ceiling, whose ceiling is at least the ratio; zeros when the
    ratio exceeds every ceiling), in whatever arithmetic the numbers are
    computed; and for gain 1, 402 ms, vnir = 1000, ir = 500 and the default
    table the result is 110.8515625, both in binary64 and in exact
    rationals (scale 16384, ch0 16000, ch1 8000, ratio 256.5, row 0x0138,
    (16000 * 367 - 8000 * 508 + 8192) / 16384). *)
Theorem lux_matches_formula :
  (forall (num : Type) (PN : PyNum num) (w : World) (g t : Z) (p : profile)
          (vnir ir : Z),
      _gain (self w) = Some g -> g = 1 \/ g = 16 ->
      _integration_time (self w) = Some t -> In t [13; 101; 402] ->
      dict_get _INTEGRATION_TIME t = Some p ->
      vnir <= p_clip p -> ir <= p_clip p ->
      is_ascending (_LUX_SCALE (self w)) = true ->
      _lux (vnir, ir) w =
      (Ok (Some (lux_formula (_LUX_SCALE (self w)) (p_scale p) g vnir ir)), w))
  /\ _lux (PN := float_num) (1000, 500) (driver_at TSL2561_LUX_SCALE None 1 402) =
     (Ok (Some 110.8515625%float), driver_at TSL2561_LUX_SCALE None 1 402)
  /\ (exists q : Q,
         _lux (PN := Q_num) (1000, 500) (driver_at TSL2561_LUX_SCALE None 1 402) =
         (Ok (Some q), driver_at TSL2561_LUX_SCALE None 1 402)
         /\ Qeq q (14189 # 128)).
Proof.
  split; [|split].
  - intros num PN w g t p vnir ir Hg Hg' Ht Ht' Hp Hv Hi Hasc.
    apply lux_unsaturated with (t := t); auto using preset_not_manual.
    destruct Hg'; subst; discriminate.
  - vm_compute. reflexivity.
  - eexists. split; [vm_compute; reflexivity | reflexivity].
Qed.

Lemma lux_matches_formula_witness :
  _lux (PN := float_num) (1000, 500) (driver_at TSL2561_LUX_SCALE None 1 402) =
  (Ok (Some (lux_formula (PN := float_num) TSL2561_LUX_SCALE 1024 1 1000 500)),
   driver_at TSL2561_LUX_SCALE None 1 402).
Proof.
  apply (proj1 lux_matches_formula PrimFloat.float float_num
           (driver_at TSL2561_LUX_SCALE None 1 402) 1 402
           (mkProfile 0x02 450 65000 500 63000 1024) 1000 500).
  - reflexivity.
  - left; reflexivity.
  - reflexivity.
  - simpl; auto.
  - reflexivity.
  - simpl; lia.
  - simpl; lia.
  - reflexivity.
Defined.

(** C3, as stated, fails: with 13 ms and gain 16 the pair (4900, 0) has its
    first channel at the clip value 4900, and [_lux] returns a number. *)
Lemma lux_at_clip_is_numeric :
  ~ (forall (w : World) (t : Z) (p : profile) (vnir ir : Z),
        _integration_time (self w) = Some t -> In t [13; 101; 402] ->
        dict_get _INTEGRATION_TIME t = Some p ->
        vnir >= p_clip p \/ ir >= p_clip p ->
        fst (_lux (PN := float_num) (vnir, ir) w) = Ok None).
Proof.
  intros H.
  specialize (H (driver_at TSL2561_LUX_SCALE None 16 13) 13
                (mkProfile 0x00 15 4900 100 4850 0x7517) 4900 0
                eq_refl (or_introl eq_refl) eq_refl).
  assert (Hc : 4900 >= 4900 \/ 0 >= 4900) by (left; lia).
  specialize (H Hc). vm_compute in H. discriminate H.
Qed.

(** C3, amended: a raw pair with a channel strictly above the clip of the
    active profile makes [_lux] return "no reading" (no number, no
    exception, the driver untouched), for every gain, every calibration
    table and each of the three preset integration times. *)
Theorem lux_above_clip_no_reading :
  forall (num : Type) (PN : PyNum num) (w : World) (t : Z) (p : profile)
         (vnir ir : Z),
    _integration_time (self w) = Some t -> In t [13; 101; 402] ->
    dict_get _INTEGRATION_TIME t = Some p ->
    vnir > p_clip p \/ ir > p_clip p ->
    _lux (vnir, ir) w = (Ok None, w).
Proof.
  intros num PN w t p vnir ir Ht Ht' Hp Hsat.
  eapply lux_saturated; eauto using preset_not_manual.
Qed.

Lemma lux_above_clip_no_reading_witness :
  _lux (PN := float_num) (4901, 0) (driver_at TSL2561_LUX_SCALE None 16 13) =
  (Ok None, driver_at TSL2561_LUX_SCALE None 16 13).
Proof.
  apply (lux_above_clip_no_reading PrimFloat.float float_num
           (driver_at TSL2561_LUX_SCALE None 16 13) 13
           (mkProfile 0x00 15 4900 100 4850 0x7517) 4901 0).
  - reflexivity.
  - simpl; auto.
  - reflexivity.
  - left; simpl; lia.
Defined.

(** ** Running the monad *)

Lemma bind_ok {A B : Type} (c : M A) (k : A -> M B) (w w' : World) (a : A) :
  c w = (Ok a, w') -> bind c k w = k a w'.
Proof. intros H. unfold bind. rewrite H. reflexivity. Qed.

Lemma opt_bool_eqb_eq (a b : option bool) : opt_bool_eqb a b = true <-> a = b.
Proof.
  destruct a as [[|]|], b as [[|]|]; simpl; split; intros H;
    try reflexivity; try discriminate H.
Qed.

(** The getter, and the setter when the value is the current one: no bus
    traffic, no change. *)
Lemma active_get (w : World) : active None w = (Ok (_active (self w)), w).
Proof. reflexivity. Qed.

Lemma active_unchanged (w : World) (b : bool) :
  _active (self w) = Some b -> active (Some b) w = (Ok None, w).
Proof.
  intros H. unfold active, bind, get_self. rewrite H. simpl.
  rewrite Bool.eqb_reflx. reflexivity.
Qed.

(** The setter when the value differs: the attribute is updated and the
    control register is written once. *)
Lemma active_changed (w : World) (b : bool) :
  _active (self w) <> Some b ->
  active (Some b) w =
  (Ok None,
   mkWorld (set_active (Some b) (self w))
     (bus w ++ [Write8 (Z.lor _REGISTER_CONTROL _COMMAND_BIT)
                  (if b then _CONTROL_POWERON else _CONTROL_POWEROFF)])).
Proof.
  intros H. unfold active, bind, get_self.
  destruct (opt_bool_eqb (Some b) (_active (self w))) eqn:E.
  - apply opt_bool_eqb_eq in E. congruence.
  - reflexivity.
Qed.

(** Passing back what the getter returned, when it is what the driver still
    holds, changes nothing and writes nothing. *)
Lemma active_restore_same (w : World) :
  active (_active (self w)) w = (Ok None, w).
Proof.
  destruct (_active (self w)) as [b|] eqn:E.
  - apply active_unchanged. exact E.
  - unfold active, bind, get_self, ret. rewrite E. reflexivity.
Qed.

(** ** The setters *)

(** [_update_range] with nothing to change leaves the world as it is. *)
Lemma update_range_noop (dev : Device) (w : World) (g t : option Z) :
  (g = None \/ g = _gain (self w)) ->
  (t = None \/ t = _integration_time (self w)) ->
  _update_range dev g t w = (Ok tt, w).
Proof.
  intros Hg Ht.
  assert (Eg : match g with
               | Some x => attr_eqb (_gain (self w)) x = true
               | None => True
               end).
  { destruct g as [x|]; [|exact I].
    destruct Hg as [Hg | Hg]; [discriminate Hg|].
    rewrite <- Hg. simpl. apply Z.eqb_refl. }
  assert (Et : match t with
               | Some x => attr_eqb (_integration_time (self w)) x = true
               | None => True
               end).
  { destruct t as [x|]; [|exact I].
    destruct Ht as [Ht | Ht]; [discriminate Ht|].
    rewrite <- Ht. simpl. apply Z.eqb_refl. }
  unfold _update_range.
  rewrite (bind_ok _ _ w w (_active (self w)) (active_get w)).
  unfold bind at 1, get_self at 1.
  destruct g as [x|], t as [y|];
    try rewrite Eg; unfold bind at 1, ret at 1;
    unfold bind at 1, get_self at 1;
    try rewrite Et; unfold bind at 1, ret at 1;
    rewrite (bind_ok _ _ w w None (active_restore_same w)); reflexivity.
Qed.

(** C6: calling the gain setter with the current gain, or the
    integration-time setter with the current integration time, leaves the
    whole world unchanged: the driver object is the same and the bus log is
    the same, so nothing was written to (or read from) the device.  The call
    ends normally when the value is one the setter accepts, and with
    [ValueError] (raised before any bus traffic) when it is not. *)
Theorem setter_current_value_noop :
  forall (dev : Device) (w : World),
    (forall g, _gain (self w) = Some g ->
       gain dev (Some g) w =
       (if (g =? 1) || (g =? 16) then Ok None else Raise ValueError, w)) /\
    (forall t, _integration_time (self w) = Some t ->
       integration_time dev (Some t) w =
       (if is_none (dict_get _INTEGRATION_TIME t) then Raise ValueError
        else Ok None, w)).
Proof.
  intros dev w. split.
  - intros g Hg. unfold gain.
    destruct ((g =? 1) || (g =? 16)); [|reflexivity].
    rewrite (bind_ok _ _ w w tt); [reflexivity|].
    apply update_range_noop; [right; symmetry; exact Hg | left; reflexivity].
  - intros t Ht. unfold integration_time.
    destruct (is_none (dict_get _INTEGRATION_TIME t)); [reflexivity|].
    rewrite (bind_ok _ _ w w tt); [reflexivity|].
    apply update_range_noop; [left; reflexivity | right; symmetry; exact Ht].
Qed.

Lemma setter_current_value_noop_witness :
  gain (fixed_device 1000 500) (Some 16) (driver_at TSL2561_LUX_SCALE None 16 13) =
  (Ok None, driver_at TSL2561_LUX_SCALE None 16 13) /\
  integration_time (fixed_device 1000 500) (Some 13)
    (driver_at TSL2561_LUX_SCALE None 16 13) =
  (Ok None, driver_at TSL2561_LUX_SCALE None 16 13).
Proof.
  split.
  - exact (proj1 (setter_current_value_noop (fixed_device 1000 500)
                    (driver_at TSL2561_LUX_SCALE None 16 13)) 16 eq_refl).
  - exact (proj2 (setter_current_value_noop (fixed_device 1000 500)
                    (driver_at TSL2561_LUX_SCALE None 16 13)) 13 eq_refl).
Defined.

(** ** What a computation leaves alone

    [stable R c]: the world in which [c] ends, normally or not, is related by
    [R] to the world in which it started.  For a preorder [R] the property
    follows the structure of the computation. *)

Section StableRules.

Context (R : World -> World -> Prop) {HR : PreOrder R}.

Lemma stable_ret {A : Type} (a : A) : stable R (ret a).
Proof. intros w. simpl. reflexivity. Qed.

Lemma stable_raise {A : Type} (e : exn) : stable R (@raise A e).
Proof. intros w. simpl. reflexivity. Qed.

Lemma stable_out_of_fuel {A : Type} : stable R (@out_of_fuel A).
Proof. intros w. simpl. reflexivity. Qed.

Lemma stable_get_self : stable R get_self.
Proof. intros w. simpl. reflexivity. Qed.

Lemma stable_bind {A B : Type} (c : M A) (k : A -> M B) :
  stable R c -> (forall a, stable R (k a)) -> stable R (bind c k).
Proof.
  intros Hc Hk w. unfold bind. specialize (Hc w).
  destruct (c w) as [[a|e|] w']; simpl in *; auto.
  transitivity w'; [exact Hc | apply Hk].
Qed.

Lemma stable_getitem {V : Type} (d : list (Z * V)) (key : option Z) :
  stable R (getitem d key).
Proof.
  unfold getitem. destruct key as [k|]; [|apply stable_raise].
  destruct (dict_get d k); [apply stable_ret | apply stable_raise].
Qed.

Lemma stable_as_int (v : option Z) : stable R (as_int v).
Proof. destruct v; [apply stable_ret | apply stable_raise]. Qed.

End StableRules.

#[export] Instance attribute_kept_preorder {A : Type} (f : TSL2561 -> A) :
  PreOrder (attribute_kept f).
Proof.
  split.
  - intros w. reflexivity.
  - intros a b c Hab Hbc. unfold attribute_kept in *. congruence.
Qed.

#[export] Instance keeps_preorder (I : World -> Prop) : PreOrder (keeps I).
Proof.
  split.
  - intros w H. exact H.
  - intros a b c Hab Hbc H. exact (Hbc (Hab H)).
Qed.

(** Bus traffic and sleeping touch no attribute. *)
Section BusLeaves.

Context {A : Type} (f : TSL2561 -> A).

Lemma kept_emit (e : event) : stable (attribute_kept f) (emit e).
Proof. intros w. reflexivity. Qed.

Lemma kept_readU8 (dev : Device) (r : Z) : stable (attribute_kept f) (readU8 dev r).
Proof. intros w. reflexivity. Qed.

Lemma kept_readU16 (dev : Device) (r : Z) : stable (attribute_kept f) (readU16 dev r).
Proof. intros w. reflexivity. Qed.

Lemma kept_modify (g : TSL2561 -> TSL2561) :
  (forall s, f s = f (g s)) -> stable (attribute_kept f) (modify g).
Proof. intros H w. unfold attribute_kept. simpl. apply H. Qed.

End BusLeaves.

Create HintDb stable discriminated.

Ltac stable_leaf :=
  first
    [ apply stable_ret | apply stable_raise | apply stable_out_of_fuel
    | apply stable_get_self | apply stable_getitem | apply stable_as_int
    | apply kept_emit | apply kept_readU8 | apply kept_readU16
    | apply kept_modify; intros; reflexivity
    | solve [auto with stable] ].

Ltac stable_walk leaf :=
  repeat (intros; cbv zeta;
          lazymatch goal with
          | |- PreOrder _ => typeclasses eauto
          | |- stable _ (bind _ _) => apply stable_bind
          | |- stable _ (if ?b then _ else _) => destruct b
          | |- stable _ (match ?x with _ => _ end) => destruct x
          | |- stable _ _ => leaf
          end).

Ltac stable_go := stable_walk stable_leaf.

Ltac kept_by_body :=
  unfold _register8_read, _register8_write, _register16_read,
    _register16_write, write8, writeU16, time_sleep;
  stable_go.

(** *** The HDR state is touched by [read] alone *)

Lemma active_keeps_hdr (v : option bool) : stable (attribute_kept _hdr) (active v).
Proof. unfold active. kept_by_body. Qed.

#[export] Hint Resolve active_keeps_hdr : stable.

Lemma read_raw_keeps_hdr (dev : Device) : stable (attribute_kept _hdr) (_read dev).
Proof. unfold _read. kept_by_body. Qed.

Lemma update_range_keeps_hdr (dev : Device) (g t : option Z) :
  stable (attribute_kept _hdr) (_update_range dev g t).
Proof. unfold _update_range. kept_by_body. Qed.

#[export] Hint Resolve read_raw_keeps_hdr update_range_keeps_hdr : stable.

Lemma gain_keeps_hdr (dev : Device) (v : option Z) :
  stable (attribute_kept _hdr) (gain dev v).
Proof. unfold gain. kept_by_body. Qed.

Lemma lux_keeps_hdr {num : Type} {PN : PyNum num} (channels : Z * Z) :
  stable (attribute_kept _hdr) (_lux channels).
Proof. unfold _lux. kept_by_body. Qed.

#[export] Hint Resolve gain_keeps_hdr lux_keeps_hdr : stable.

(** *** No method assigns the attribute [i2c] *)

Lemma active_keeps_i2c (v : option bool) : stable (attribute_kept i2c) (active v).
Proof. unfold active. kept_by_body. Qed.

#[export] Hint Resolve active_keeps_i2c : stable.

Lemma read_raw_keeps_i2c (dev : Device) : stable (attribute_kept i2c) (_read dev).
Proof. unfold _read. kept_by_body. Qed.

Lemma update_range_keeps_i2c (dev : Device) (g t : option Z) :
  stable (attribute_kept i2c) (_update_range dev g t).
Proof. unfold _update_range. kept_by_body. Qed.

#[export] Hint Resolve read_raw_keeps_i2c update_range_keeps_i2c : stable.

Lemma gain_keeps_i2c (dev : Device) (v : option Z) :
  stable (attribute_kept i2c) (gain dev v).
Proof. unfold gain. kept_by_body. Qed.

Lemma integration_time_keeps_i2c (dev : Device) (v : option Z) :
  stable (attribute_kept i2c) (integration_time dev v).
Proof. unfold integration_time. kept_by_body. Qed.

Lemma lux_keeps_i2c {num : Type} {PN : PyNum num} (channels : Z * Z) :
  stable (attribute_kept i2c) (_lux channels).
Proof. unfold _lux. kept_by_body. Qed.

#[export] Hint Resolve gain_keeps_i2c integration_time_keeps_i2c lux_keeps_i2c
  : stable.

Lemma hdr_body_keeps_i2c (dev : Device) : stable (attribute_kept i2c) (hdr_body dev).
Proof. unfold hdr_body, hdr_update_range. kept_by_body. Qed.

#[export] Hint Resolve hdr_body_keeps_i2c : stable.

Lemma hdr_loop_keeps_i2c (dev : Device) (fuel : nat) :
  stable (attribute_kept i2c) (hdr_loop dev fuel).
Proof. induction fuel as [|n IH]; simpl; kept_by_body. Qed.

#[export] Hint Resolve hdr_loop_keeps_i2c : stable.

Lemma read_keeps_i2c {num : Type} {PN : PyNum num} (dev : Device) (fuel : nat)
  (autogain hdr raw : bool) :
  stable (attribute_kept i2c) (read dev fuel autogain hdr raw).
Proof. unfold read. kept_by_body. Qed.

Lemma threshold_keeps_i2c (dev : Device) (c lo hi : option Z) :
  stable (attribute_kept i2c) (threshold dev c lo hi).
Proof. unfold threshold. kept_by_body. Qed.

Lemma interrupt_keeps_i2c (v : option bool) :
  stable (attribute_kept i2c) (interrupt v).
Proof. unfold interrupt. kept_by_body. Qed.

Lemma sensor_id_keeps_i2c (dev : Device) : stable (attribute_kept i2c) (sensor_id dev).
Proof. unfold sensor_id. kept_by_body. Qed.

#[export] Hint Resolve sensor_id_keeps_i2c : stable.

Lemma init_keeps_i2c (dev : Device) (powermode : Z) :
  stable (attribute_kept i2c) (__init__ dev powermode).
Proof. unfold __init__. kept_by_body. Qed.

(** A constructed driver has no attribute [i2c]. *)
Lemma constructed_without_i2c (dev : Device) (table : lux_table)
  (powermode address : Z) (w : World) :
  construct dev table powermode address = Ok w -> i2c (self w) = None.
Proof.
  unfold construct. intros H.
  pose proof (init_keeps_i2c dev powermode (mkWorld (blank table address) [])) as K.
  destruct (__init__ dev powermode (mkWorld (blank table address) [])) as [[u|e|] w'];
    try discriminate H.
  injection H as <-. unfold attribute_kept in K. simpl in K. symmetry. exact K.
Qed.

(** ** Rules for [hoare] *)

Section HoareRules.

Context {A : Type}.

Lemma hoare_ret (a : A) (w : World) (Q : A -> World -> Prop) (E : World -> Prop) :
  Q a w -> hoare (ret a) w Q E.
Proof. intros H. exact H. Qed.

Lemma hoare_raise (e : exn) (w : World) (Q : A -> World -> Prop)
  (E : World -> Prop) :
  E w -> hoare (raise e) w Q E.
Proof. intros H. exact H. Qed.

Lemma hoare_out_of_fuel (w : World) (Q : A -> World -> Prop) (E : World -> Prop) :
  E w -> hoare out_of_fuel w Q E.
Proof. intros H. exact H. Qed.

Lemma hoare_bind {B : Type} (c : M B) (k : B -> M A) (w : World)
  (Q : A -> World -> Prop) (E : World -> Prop) :
  hoare c w (fun b w1 => hoare (k b) w1 Q E) E -> hoare (bind c k) w Q E.
Proof.
  unfold hoare, bind. destruct (c w) as [[b|e|] w1]; intros H; exact H.
Qed.

Lemma hoare_conseq (c : M A) (w : World) (Q Q' : A -> World -> Prop)
  (E E' : World -> Prop) :
  hoare c w Q E ->
  (forall a w', Q a w' -> Q' a w') -> (forall w', E w' -> E' w') ->
  hoare c w Q' E'.
Proof.
  unfold hoare. destruct (c w) as [[a|e|] w1]; intros H HQ HE; auto.
Qed.

Lemma hoare_stable (R : World -> World -> Prop) (c : M A) (w : World)
  (Q : A -> World -> Prop) (E : World -> Prop) :
  stable R c ->
  (forall a w', R w w' -> Q a w') -> (forall w', R w w' -> E w') ->
  hoare c w Q E.
Proof.
  intros Hs HQ HE. specialize (Hs w). unfold hoare.
  destruct (c w) as [[a|e|] w1]; simpl in Hs; auto.
Qed.

Lemma hoare_and (c : M A) (w : World) (Q Q' : A -> World -> Prop)
  (E E' : World -> Prop) :
  hoare c w Q E -> hoare c w Q' E' ->
  hoare c w (fun a w' => Q a w' /\ Q' a w') (fun w' => E w' /\ E' w').
Proof.
  unfold hoare. destruct (c w) as [[a|e|] w1]; intros H H'; split; assumption.
Qed.

Lemma hoare_ok (c : M A) (w w' : World) (a : A)
  (Q : A -> World -> Prop) (E : World -> Prop) :
  hoare c w Q E -> c w = (Ok a, w') -> Q a w'.
Proof. unfold hoare. intros H Hc. rewrite Hc in H. exact H. Qed.

Lemma hoare_final (c : M A) (w : World) (I : World -> Prop) :
  hoare c w (fun _ w' => I w') I -> I (snd (c w)).
Proof. unfold hoare. destruct (c w) as [[a|e|] w1]; intros H; exact H. Qed.

(** With no exceptional end allowed, the computation returns. *)
Lemma hoare_total (c : M A) (w : World) (Q : A -> World -> Prop) :
  hoare c w Q (fun _ => False) -> exists a w', c w = (Ok a, w') /\ Q a w'.
Proof.
  unfold hoare. destruct (c w) as [[a|e|] w1]; intros H; try contradiction.
  exists a, w1. split; [reflexivity | exact H].
Qed.

Lemma hoare_getitem (d : list (Z * A)) (key : option Z) (w : World)
  (Q : A -> World -> Prop) (E : World -> Prop) :
  (forall k v, key = Some k -> dict_get d k = Some v -> Q v w) ->
  ((forall k v, key = Some k -> dict_get d k <> Some v) -> E w) ->
  hoare (getitem d key) w Q E.
Proof.
  intros HQ HE. unfold getitem.
  destruct key as [k|].
  - destruct (dict_get d k) as [v|] eqn:Ek.
    + apply hoare_ret. apply (HQ k v); [reflexivity | exact Ek].
    + apply hoare_raise. apply HE. intros k' v' Hk. injection Hk as <-.
      rewrite Ek. discriminate.
  - apply hoare_raise. apply HE. intros k v Hk. discriminate Hk.
Qed.

End HoareRules.

Lemma hoare_get_self (w : World) (Q : TSL2561 -> World -> Prop) (E : World -> Prop) :
  Q (self w) w -> hoare get_self w Q E.
Proof. intros H. exact H. Qed.

Lemma hoare_modify (f : TSL2561 -> TSL2561) (w : World)
  (Q : unit -> World -> Prop) (E : World -> Prop) :
  Q tt (mkWorld (f (self w)) (bus w)) -> hoare (modify f) w Q E.
Proof. intros H. exact H. Qed.

Lemma hoare_emit (e : event) (w : World)
  (Q : unit -> World -> Prop) (E : World -> Prop) :
  Q tt (mkWorld (self w) (bus w ++ [e])) -> hoare (emit e) w Q E.
Proof. intros H. exact H. Qed.

Lemma hoare_readU8 (dev : Device) (r : Z) (w : World)
  (Q : Z -> World -> Prop) (E : World -> Prop) :
  (forall v, v = dev (bus w) r -> Q v (mkWorld (self w) (bus w ++ [ReadU8 r v]))) ->
  hoare (readU8 dev r) w Q E.
Proof. intros H. apply (H _ eq_refl). Qed.

Lemma hoare_readU16 (dev : Device) (r : Z) (w : World)
  (Q : Z -> World -> Prop) (E : World -> Prop) :
  (forall v, v = dev (bus w) r -> Q v (mkWorld (self w) (bus w ++ [ReadU16 r v]))) ->
  hoare (readU16 dev r) w Q E.
Proof. intros H. apply (H _ eq_refl). Qed.

Lemma hoare_active_get (w : World) (Q : option bool -> World -> Prop)
  (E : World -> Prop) :
  Q (_active (self w)) w -> hoare (active None) w Q E.
Proof. intros H. exact H. Qed.

Lemma opt_bool_dec (a b : option bool) : {a = b} + {a <> b}.
Proof. decide equality. apply Bool.bool_dec. Qed.

Lemma hoare_active_set (b : bool) (w : World) (Q : option bool -> World -> Prop)
  (E : World -> Prop) :
  (_active (self w) = Some b -> Q None w) ->
  (_active (self w) <> Some b ->
   Q None (mkWorld (set_active (Some b) (self w))
             (bus w ++ [Write8 (Z.lor _REGISTER_CONTROL _COMMAND_BIT)
                          (if b then _CONTROL_POWERON else _CONTROL_POWEROFF)]))) ->
  hoare (active (Some b)) w Q E.
Proof.
  intros Hsame Hdiff. unfold hoare.
  destruct (opt_bool_dec (_active (self w)) (Some b)) as [H | H].
  - rewrite (active_unchanged w b H). exact (Hsame H).
  - rewrite (active_changed w b H). exact (Hdiff H).
Qed.

(** ** Symbolic execution with the rules *)

Ltac unfold_bus :=
  unfold _register8_read, _register8_write, _register16_read,
    _register16_write, write8, writeU16, time_sleep.

Ltac hoare_step :=
  lazymatch goal with
  | |- hoare (bind _ _) _ _ _ => apply hoare_bind
  | |- hoare (ret _) _ _ _ => apply hoare_ret
  | |- hoare (raise _) _ _ _ => apply hoare_raise
  | |- hoare out_of_fuel _ _ _ => apply hoare_out_of_fuel
  | |- hoare get_self _ _ _ => apply hoare_get_self
  | |- hoare (modify _) _ _ _ => apply hoare_modify
  | |- hoare (emit _) _ _ _ => apply hoare_emit
  | |- hoare (readU8 _ _) _ _ _ => apply hoare_readU8; intros ? ?
  | |- hoare (readU16 _ _) _ _ _ => apply hoare_readU16; intros ? ?
  | |- hoare (active None) _ _ _ => apply hoare_active_get
  | |- hoare (active (Some _)) _ _ _ => apply hoare_active_set; intros ?
  | |- hoare (getitem _ _) _ _ _ => apply hoare_getitem; [intros ? ? ? ? | intros ?]
  | |- hoare (if ?b then _ else _) _ _ _ => destruct b eqn:?
  | |- hoare (match ?x with _ => _ end) _ _ _ => destruct x eqn:?
  end; cbv beta.

Ltac fields :=
  cbn [self bus _LUX_SCALE address i2c part_no rev_no _powermode _active _hdr
       _gain _integration_time last_vnir last_ir set_active set_gain set_hdr
       set_integration_time set_last set_sensor_id set_powermode with_range
       truthy is_none] in *.

Ltac absurd_branch :=
  match goal with
  | H : Some _ = None |- _ => discriminate H
  | H : None = Some _ |- _ => discriminate H
  | H : Some true = Some false |- _ => discriminate H
  | H : Some false = Some true |- _ => discriminate H
  | H : ?x <> ?x |- _ => exact (False_ind _ (H eq_refl))
  | H : true = false |- _ => discriminate H
  | H : false = true |- _ => discriminate H
  | H : _active ?s = Some ?a, H' : _active ?s = Some ?b |- _ =>
      tryif constr_eq a b then fail else (rewrite H in H'; discriminate H')
  | H : _active ?s = None, H' : _active ?s = Some _ |- _ =>
      rewrite H in H'; discriminate H'
  | H : _active ?s = ?a, H' : _active ?s <> ?a |- _ =>
      exact (False_ind _ (H' H))
  end.

Ltac case_active :=
  match goal with
  | H : _active ?s = _ |- context [_active ?s] => rewrite H
  | |- context [_active ?s] => is_var s; destruct (_active s) as [[|]|] eqn:?
  end.

Ltac hoare_run :=
  repeat (first [case_active | hoare_step]; fields; try absurd_branch).

Lemma attr_eqb_eq (o : option Z) (z : Z) : attr_eqb o z = true <-> o = Some z.
Proof.
  destruct o as [x|]; simpl; split; intros H; try discriminate H.
  - apply Z.eqb_eq in H. subst. reflexivity.
  - injection H as ->. apply Z.eqb_refl.
Qed.

Ltac self_eq :=
  repeat match goal with
         | H : attr_eqb _ _ = true |- _ => apply attr_eqb_eq in H
         end;
  match goal with
  | s : TSL2561 |- _ => destruct s
  end;
  fields; subst; reflexivity.

(** ** [_update_range] *)

(** When [_update_range] returns, the driver object differs from the one it
    started with in the recorded gain and integration time only: whatever
    it did to the power state, it undid. *)
Lemma update_range_self (dev : Device) (g t : option Z) (w : World) :
  hoare (_update_range dev g t) w
    (fun _ w' => self w' = with_range g t (self w)) (fun _ => True).
Proof.
  destruct w as [s tr]. unfold _update_range. unfold_bus.
  hoare_run.
  all: try exact I.
  all: self_eq.
Qed.

(** ** Construction *)

Lemma init_operating_point (dev : Device) (powermode : Z) (w : World) :
  hoare (__init__ dev powermode) w
    (fun _ w' => _gain (self w') = Some 16 /\ _integration_time (self w') = Some 13)
    (fun _ => True).
Proof.
  unfold __init__, sensor_id. unfold_bus.
  hoare_run; try exact I.
  eapply hoare_conseq; [apply update_range_self | | intros; exact I].
  intros [] w2 Hself; cbv beta. hoare_step. fields. rewrite Hself.
  split; reflexivity.
Qed.

(** C10: a driver whose construction succeeds has gain 16 and integration
    time 13 ms (not the values 1 and 402 that [__init__] first records as the
    power-up state), and the two getters, called before anything else,
    return 16 and 13 and leave the world as it is. *)
Theorem constructed_operating_point :
  forall (dev : Device) (table : lux_table) (powermode address : Z) (w : World),
    construct dev table powermode address = Ok w ->
    _gain (self w) = Some 16 /\
    _integration_time (self w) = Some 13 /\
    gain dev None w = (Ok (Some 16), w) /\
    integration_time dev None w = (Ok (Some 13), w).
Proof.
  intros dev table powermode address w H.
  assert (K : _gain (self w) = Some 16 /\ _integration_time (self w) = Some 13).
  { unfold construct in H.
    pose proof (init_operating_point dev powermode
                  (mkWorld (blank table address) [])) as K.
    unfold hoare in K.
    destruct (__init__ dev powermode (mkWorld (blank table address) []))
      as [[u|e|] w']; try discriminate H.
    injection H as <-. exact K. }
  destruct K as [Kg Kt]. repeat split; try assumption.
  - unfold gain, bind, get_self, ret. rewrite Kg. reflexivity.
  - unfold integration_time, bind, get_self, ret. rewrite Kt. reflexivity.
Qed.

Lemma constructed_operating_point_witness :
  exists w : World,
    construct (fixed_device 1000 500) TSL2561_LUX_SCALE TSL2561_STANDARD
      TSL2561_ADDR_FLOAT = Ok w /\
    _gain (self w) = Some 16 /\
    _integration_time (self w) = Some 13 /\
    gain (fixed_device 1000 500) None w = (Ok (Some 16), w) /\
    integration_time (fixed_device 1000 500) None w = (Ok (Some 13), w).
Proof.
  eexists. split.
  - vm_compute. reflexivity.
  - apply (constructed_operating_point (fixed_device 1000 500) TSL2561_LUX_SCALE
             TSL2561_STANDARD TSL2561_ADDR_FLOAT).
    vm_compute. reflexivity.
Defined.

(** ** Raw reads and the power state on the bus log *)

Lemma raw_reads_snoc (log : list event) (e : event) :
  raw_reads (log ++ [e]) =
  (raw_reads log + (if is_raw_read e then 1 else 0))%nat.
Proof.
  unfold raw_reads. rewrite filter_app, length_app. simpl.
  destruct (is_raw_read e); reflexivity.
Qed.

Lemma device_power_snoc (log : list event) (e : event) :
  device_power (log ++ [e]) =
  match power_command e with
  | Some b => Some b
  | None => device_power log
  end.
Proof. unfold device_power. rewrite fold_left_app. reflexivity. Qed.

#[export] Instance same_raw_reads_preorder : PreOrder same_raw_reads.
Proof.
  split.
  - intros w. reflexivity.
  - intros a b c Hab Hbc. unfold same_raw_reads in *. congruence.
Qed.

Lemma count_emit (e : event) :
  is_raw_read e = false -> stable same_raw_reads (emit e).
Proof.
  intros H w. unfold same_raw_reads. simpl.
  rewrite raw_reads_snoc, H. symmetry. apply Nat.add_0_r.
Qed.

Lemma count_readU8 (dev : Device) (r : Z) : stable same_raw_reads (readU8 dev r).
Proof.
  intros w. unfold same_raw_reads. simpl.
  rewrite raw_reads_snoc. simpl. symmetry. apply Nat.add_0_r.
Qed.

Lemma count_readU16 (dev : Device) (r : Z) :
  (r =? Z.lor _REGISTER_CHANNEL0 (Z.lor _COMMAND_BIT _WORD_BIT)) = false ->
  stable same_raw_reads (readU16 dev r).
Proof.
  intros H w. unfold same_raw_reads. simpl.
  rewrite raw_reads_snoc. unfold is_raw_read. rewrite H. symmetry.
  apply Nat.add_0_r.
Qed.

Lemma count_modify (f : TSL2561 -> TSL2561) : stable same_raw_reads (modify f).
Proof. intros w. reflexivity. Qed.

Ltac count_leaf :=
  first
    [ apply stable_ret | apply stable_raise | apply stable_out_of_fuel
    | apply stable_get_self | apply stable_getitem | apply stable_as_int
    | apply count_emit; reflexivity | apply count_readU8
    | apply count_readU16; reflexivity | apply count_modify
    | solve [auto with stable] ].

Ltac count_by_body := unfold_bus; stable_walk count_leaf.

Lemma active_same_raw_reads (v : option bool) : stable same_raw_reads (active v).
Proof. unfold active. count_by_body. Qed.

#[export] Hint Resolve active_same_raw_reads : stable.

Lemma update_range_same_raw_reads (dev : Device) (g t : option Z) :
  stable same_raw_reads (_update_range dev g t).
Proof. unfold _update_range. count_by_body. Qed.

#[export] Hint Resolve update_range_same_raw_reads : stable.

Lemma gain_same_raw_reads (dev : Device) (v : option Z) :
  stable same_raw_reads (gain dev v).
Proof. unfold gain. count_by_body. Qed.

Lemma lux_same_raw_reads {num : Type} {PN : PyNum num} (channels : Z * Z) :
  stable same_raw_reads (_lux channels).
Proof. unfold _lux. count_by_body. Qed.

#[export] Hint Resolve gain_same_raw_reads lux_same_raw_reads : stable.

(** The driver and the device stay in agreement about the power state. *)
Lemma sync_emit (e : event) :
  power_command e = None -> stable (keeps in_sync) (emit e).
Proof.
  intros H w. unfold keeps, in_sync. simpl.
  rewrite device_power_snoc, H. auto.
Qed.

Lemma sync_readU8 (dev : Device) (r : Z) : stable (keeps in_sync) (readU8 dev r).
Proof.
  intros w. unfold keeps, in_sync. simpl. rewrite device_power_snoc. auto.
Qed.

Lemma sync_readU16 (dev : Device) (r : Z) : stable (keeps in_sync) (readU16 dev r).
Proof.
  intros w. unfold keeps, in_sync. simpl. rewrite device_power_snoc. auto.
Qed.

Lemma sync_modify (f : TSL2561 -> TSL2561) :
  (forall s, _active (f s) = _active s) -> stable (keeps in_sync) (modify f).
Proof. intros H w. unfold keeps, in_sync. simpl. rewrite H. auto. Qed.

Lemma sync_active (v : option bool) : stable (keeps in_sync) (active v).
Proof.
  intros w. destruct v as [b|]; [|intros H; exact H].
  destruct (opt_bool_dec (_active (self w)) (Some b)) as [E | E].
  - rewrite (active_unchanged w b E). intros H; exact H.
  - rewrite (active_changed w b E). intros _. unfold in_sync. simpl.
    rewrite device_power_snoc. destruct b; reflexivity.
Qed.

#[export] Hint Resolve sync_active : stable.

Ltac sync_leaf :=
  first
    [ apply stable_ret | apply stable_raise | apply stable_out_of_fuel
    | apply stable_get_self | apply stable_getitem | apply stable_as_int
    | apply sync_emit; reflexivity | apply sync_readU8 | apply sync_readU16
    | apply sync_modify; intros; reflexivity
    | solve [auto with stable] ].

Ltac sync_by_body := unfold_bus; stable_walk sync_leaf.

Lemma read_raw_in_sync (dev : Device) : stable (keeps in_sync) (_read dev).
Proof. unfold _read. sync_by_body. Qed.

Lemma update_range_in_sync (dev : Device) (g t : option Z) :
  stable (keeps in_sync) (_update_range dev g t).
Proof. unfold _update_range. sync_by_body. Qed.

#[export] Hint Resolve read_raw_in_sync update_range_in_sync : stable.

Lemma gain_in_sync (dev : Device) (v : option Z) :
  stable (keeps in_sync) (gain dev v).
Proof. unfold gain. sync_by_body. Qed.

Lemma integration_time_in_sync (dev : Device) (v : option Z) :
  stable (keeps in_sync) (integration_time dev v).
Proof. unfold integration_time. sync_by_body. Qed.

Lemma threshold_in_sync (dev : Device) (c lo hi : option Z) :
  stable (keeps in_sync) (threshold dev c lo hi).
Proof. unfold threshold. sync_by_body. Qed.

(** ** Power state around the operations that toggle it *)

Lemma read_raw_self (dev : Device) (w : World) (b : bool) :
  _active (self w) = Some b ->
  hoare (_read dev) w (fun _ w' => self w' = self w) (fun _ => True).
Proof.
  destruct w as [s tr]. fields. intros Hb. destruct b.
  all: unfold _read; unfold_bus; hoare_run.
  all: try exact I.
  all: self_eq.
Qed.

Lemma threshold_self (dev : Device) (c lo hi : option Z) (w : World) (b : bool) :
  _active (self w) = Some b ->
  hoare (threshold dev c lo hi) w (fun _ w' => self w' = self w) (fun _ => True).
Proof.
  destruct w as [s tr]. fields. intros Hb. destruct b.
  all: unfold threshold; unfold_bus; hoare_run.
  all: try exact I.
  all: self_eq.
Qed.


(** C7: the three operations that toggle the power state on the way (the raw
    read, which switches an inactive device on; a change of gain, through
    the setter or through [_update_range], which switches an active device
    off; [threshold] in set mode, which switches the device on), when they
    return, leave [_active] as it was, and the last power command on the bus
    agrees with it if it did before the call. *)
Theorem power_state_restored :
  forall (dev : Device) (w : World) (b : bool),
    _active (self w) = Some b ->
    (forall r w', _read dev w = (Ok r, w') ->
       _active (self w') = Some b /\ (in_sync w -> in_sync w')) /\
    (forall g r w', gain dev (Some g) w = (Ok r, w') ->
       _active (self w') = Some b /\ (in_sync w -> in_sync w')) /\
    (forall g t w', _update_range dev g t w = (Ok tt, w') ->
       _active (self w') = Some b /\ (in_sync w -> in_sync w')) /\
    (forall c lo hi r w', threshold dev c lo hi w = (Ok r, w') ->
       _active (self w') = Some b /\ (in_sync w -> in_sync w')).
Proof.
  intros dev w b Hb. repeat split.
  - rewrite (hoare_ok _ _ _ _ _ _ (read_raw_self dev w b Hb) H). exact Hb.
  - pose proof (read_raw_in_sync dev w) as K. rewrite H in K. exact K.
  - unfold gain in H. destruct ((g =? 1) || (g =? 16)); [|discriminate H].
    unfold bind in H.
    destruct (_update_range dev (Some g) None w) as [[[]|e|] w1] eqn:E;
      try discriminate H.
    injection H as _ <-.
    rewrite (hoare_ok _ _ _ _ _ _ (update_range_self dev (Some g) None w) E).
    exact Hb.
  - pose proof (gain_in_sync dev (Some g) w) as K. rewrite H in K. exact K.
  - rewrite (hoare_ok _ _ _ _ _ _ (update_range_self dev g t w) H). exact Hb.
  - pose proof (update_range_in_sync dev g t w) as K. rewrite H in K. exact K.
  - rewrite (hoare_ok _ _ _ _ _ _ (threshold_self dev c lo hi w b Hb) H). exact Hb.
  - pose proof (threshold_in_sync dev c lo hi w) as K. rewrite H in K. exact K.
Qed.

Lemma power_state_restored_witness :
  exists (r : Z * Z) (w' : World),
    _read (fixed_device 1000 500)
      (standby (driver_at TSL2561_LUX_SCALE None 16 13)) = (Ok r, w') /\
    _active (self w') = Some false.
Proof.
  eexists. eexists.
  assert (E : _read (fixed_device 1000 500)
                (standby (driver_at TSL2561_LUX_SCALE None 16 13)) =
              (Ok (1000, 500),
               mkWorld (self (standby (driver_at TSL2561_LUX_SCALE None 16 13)))
                 [Write8 0x80 0x03; Sleep 15; ReadU16 0xAC 1000;
                  ReadU16 0xAE 500; Write8 0x80 0x00])).
  { vm_compute. reflexivity. }
  split.
  - exact E.
  - exact (proj1 (proj1 (power_state_restored (fixed_device 1000 500)
                           (standby (driver_at TSL2561_LUX_SCALE None 16 13))
                           false eq_refl) _ _ E)).
Defined.

(** ** The raw read and the range update, in full *)

Ltac count_reads :=
  repeat rewrite raw_reads_snoc;
  cbn [is_raw_read]; rewrite ?Z.eqb_refl; repeat rewrite Nat.add_0_r;
  try reflexivity; try lia.

(** With the gain and a known integration time set, [_read] returns: it
    performs one raw read, the pair it returns is what the device answered
    on the two channel registers, and the driver object is as before. *)
Lemma read_raw_spec (dev : Device) (w : World) (t : Z) (p : profile) :
  _gain (self w) <> None ->
  _integration_time (self w) = Some t ->
  dict_get _INTEGRATION_TIME t = Some p ->
  hoare (_read dev) w
    (fun r w' =>
       raw_reads (bus w') = S (raw_reads (bus w)) /\
       (exists log0 log1,
           fst r = dev log0 CHANNEL0_WORD /\ snd r = dev log1 CHANNEL1_WORD) /\
       settings (self w') = settings (self w) /\
       (forall b, _active (self w) = Some b -> self w' = self w))
    (fun _ => False).
Proof.
  destruct w as [s tr]. fields. intros Hg Ht Hp.
  unfold _read; unfold_bus; hoare_run.
  all: try match goal with
           | H : forall k v, _ = Some k -> dict_get _ k <> Some v |- False =>
               exact (H t p Ht Hp)
           end.
  all: try (rewrite Ht in *; destruct (_gain s); [discriminate | contradiction]).
  all: split; [count_reads|].
  all: split; [eexists; eexists; split; eassumption|].
  all: split; [reflexivity|].
  all: intros b Hb; try discriminate Hb; try self_eq.
Qed.


Lemma update_range_spec (dev : Device) (g t : option Z) (w : World) :
  (forall x, g = Some x -> x = 1 \/ x = 16) ->
  (forall y, t = Some y -> dict_get _INTEGRATION_TIME y <> None) ->
  (forall y, t = Some y ->
     exists t0 p0, _integration_time (self w) = Some t0 /\
                   dict_get _INTEGRATION_TIME t0 = Some p0) ->
  hoare (_update_range dev g t) w
    (fun _ w' => self w' = with_range g t (self w) /\ same_raw_reads w w')
    (fun _ => False).
Proof.
  intros Hg Ht Hold.
  apply hoare_conseq with
    (Q := fun _ w' => (self w' = with_range g t (self w) /\ True) /\ same_raw_reads w w')
    (E := fun w' => False /\ same_raw_reads w w').
  - apply hoare_and.
    + destruct w as [s tr]. unfold _update_range. unfold_bus. hoare_run.
      all: try (split; [self_eq | exact I]).
      all: try match goal with
               | H : forall k v, _integration_time _ = Some k -> _ <> Some v |- False =>
                   destruct (Hold _ eq_refl) as (t0 & p0 & A & B); exact (H _ _ A B)
               end.
      all: try match goal with
               | H : forall k v, Some ?z = Some k ->
                                 dict_get _INTEGRATION_TIME k <> Some v |- False =>
                   destruct (dict_get _INTEGRATION_TIME z) eqn:X;
                     [exact (H _ _ eq_refl X) | exact (Ht _ eq_refl X)]
               end.
      all: match goal with
           | H : forall k v, Some ?z = Some k -> dict_get _ k <> Some v |- False =>
               destruct (Hg _ eq_refl); subst;
                 [exact (H 1 0 eq_refl eq_refl) | exact (H 16 16 eq_refl eq_refl)]
           end.
    + apply hoare_stable with (R := same_raw_reads);
        [apply update_range_same_raw_reads | auto | auto].
  - intros a w' [[H _] H']. split; assumption.
  - intros w' [[] _].
Qed.

(** Construction succeeds whenever the two checks of [__init__] pass: the
    part number read from the ID register is odd and the power mode is one
    of the two constants. *)
Lemma construct_succeeds (dev : Device) (table : lux_table) (powermode address : Z) :
  Z.land (Z.shiftr (dev [] (Z.lor _REGISTER_ID _COMMAND_BIT)) 4) 0x01 <> 0 ->
  powermode = TSL2561_LOWPOWER \/ powermode = TSL2561_STANDARD ->
  exists w, construct dev table powermode address = Ok w.
Proof.
  intros Hid Hpm.
  assert (K : hoare (__init__ dev powermode) (mkWorld (blank table address) [])
                (fun _ _ => True) (fun _ => False)).
  { unfold __init__, sensor_id. unfold_bus. hoare_run.
    - subst v. apply Z.eqb_eq in Heqb. contradiction.
    - destruct Hpm; subst powermode; discriminate Heqb0.
    - eapply hoare_conseq;
        [apply (update_range_spec dev (Some 16) (Some 13)) | | auto].
      + intros x Hx. injection Hx as <-. auto.
      + intros y Hy. injection Hy as <-. discriminate.
      + intros y _. exists 402, (mkProfile 0x02 450 65000 500 63000 1024).
        split; reflexivity.
      + intros [] w' _. cbv beta. hoare_step. exact I. }
  destruct (hoare_total _ _ _ K) as (u & w' & E & _).
  exists w'. unfold construct. rewrite E. reflexivity.
Qed.

(** ** The HDR loop *)

(** The keys of [_HDR] are 0..5; a tier with an upper bound is not the last
    one and a tier with a lower bound is not the first; every tier names a
    gain and an integration time that the driver knows. *)
Lemma hdr_lookup (h : Z) (v : tier) :
  dict_get _HDR h = Some v ->
  0 <= h <= 5 /\
  (tier_max v <> None -> h <= 4) /\
  (tier_min v <> None -> 1 <= h) /\
  (tier_gain v = 1 \/ tier_gain v = 16) /\
  dict_get _INTEGRATION_TIME (tier_time v) <> None.
Proof.
  unfold _HDR, dict_get. intros H.
  repeat match type of H with
         | (if ?k =? h then _ else _) = _ =>
             destruct (k =? h) eqn:E;
               [apply Z.eqb_eq in E; subst h; injection H as <-; cbn;
                repeat split; try lia; try congruence; try discriminate;
                auto
               | clear E]
         end.
  discriminate H.
Qed.

Ltac call_keeping_hdr :=
  lazymatch goal with
  | |- hoare (_read _) _ _ _ =>
      apply (hoare_stable (attribute_kept _hdr));
      [apply read_raw_keeps_hdr | intros [? ?] ? ? | intros ? ?]
  | |- hoare (_update_range _ _ _) _ _ _ =>
      apply (hoare_stable (attribute_kept _hdr));
      [apply update_range_keeps_hdr | intros ? ? ? | intros ? ?]
  end;
  match goal with
  | K : attribute_kept _ _ _ |- _ => unfold attribute_kept in K
  end;
  cbv beta.


Ltac hdr_norm :=
  repeat match goal with
         | H : Some _ = _hdr (self _) |- _ => symmetry in H
         | H : None = _hdr (self _) |- _ => symmetry in H
         | H : _hdr (self ?w) = _ |- context [_hdr (self ?w)] => rewrite H
         | H : _hdr (self ?w) = _, H' : context [_hdr (self ?w)] |- _ =>
             rewrite H in H'
         | H : Some ?a = Some ?b |- _ =>
             first [is_var b; injection H as H; subst b
                   | is_var a; injection H as H; subst a]
         end.

Ltac tier_facts :=
  repeat match goal with
         | H : dict_get _HDR ?k = Some ?v |- _ =>
             destruct (hdr_lookup k v H) as (? & ? & ? & ? & ?); clear H
         | H : match tier_max ?v with _ => _ end = true |- _ =>
             assert (tier_max v <> None)
               by (destruct (tier_max v); [discriminate | discriminate H]);
             clear H
         | H : match tier_min ?v with _ => _ end = true |- _ =>
             assert (tier_min v <> None)
               by (destruct (tier_min v); [discriminate | discriminate H]);
             clear H
         end.

Ltac hdr_leaf :=
  unfold hdr_in_range in *; fields; hdr_norm; tier_facts;
  repeat match goal with
         | H : ?P -> _, H' : ?P |- _ => specialize (H H')
         end;
  cbv beta iota in *;
  first [ exact I
        | eexists; split; [reflexivity | lia]
        | lia
        | assumption ].

(** One iteration, however it ends, leaves the index within 0..5. *)
Lemma hdr_body_range (dev : Device) (w : World) :
  hdr_in_range w ->
  hoare (hdr_body dev) w
    (fun _ w' => exists h, _hdr (self w') = Some h /\ 0 <= h <= 5)
    hdr_in_range.
Proof.
  intros Hr. unfold hdr_body, hdr_update_range. unfold_bus.
  repeat (first [call_keeping_hdr | hoare_step]; fields; try absurd_branch).
  all: hdr_leaf.
Qed.

Lemma hdr_loop_range (dev : Device) (fuel : nat) (w : World) :
  hdr_in_range w ->
  hoare (hdr_loop dev fuel) w (fun _ w' => hdr_in_range w') hdr_in_range.
Proof.
  revert w. induction fuel as [|n IH]; intros w Hr; [exact Hr|].
  simpl hdr_loop. apply hoare_bind.
  eapply hoare_conseq; [apply (hdr_body_range dev w Hr) | | auto].
  intros [channels|] w' [h [Hh Hrange]]; cbv beta;
    assert (Hr' : hdr_in_range w')
      by (unfold hdr_in_range; rewrite Hh; exact Hrange).
  - apply hoare_ret. exact Hr'.
  - apply IH. exact Hr'.
Qed.

Lemma read_hdr_range {num : Type} {PN : PyNum num} (dev : Device) (fuel : nat)
  (autogain hdr raw : bool) (w : World) :
  hdr_in_range w ->
  hoare (read dev fuel autogain hdr raw) w (fun _ w' => hdr_in_range w')
    hdr_in_range.
Proof.
  intros Hr. unfold read. destruct hdr.
  - apply hoare_bind.
    eapply hoare_conseq; [apply (hdr_loop_range dev fuel w Hr) | | auto].
    intros [vnir ir] w1 Hr1. cbv beta iota.
    hoare_step. hoare_step. hoare_step.
    apply (hoare_stable (attribute_kept _hdr)); [apply lux_keeps_hdr | |].
    + intros a w2 K. hoare_step. unfold hdr_in_range, attribute_kept in *.
      fields. rewrite <- K. exact Hr1.
    + intros w2 K. unfold hdr_in_range, attribute_kept in *.
      fields. rewrite <- K. exact Hr1.
  - hoare_step. hoare_step. fields.
    apply (hoare_stable (attribute_kept _hdr)); [kept_by_body | |].
    + intros a w2 K. unfold hdr_in_range, attribute_kept in *.
      fields. rewrite <- K. exact I.
    + intros w2 K. unfold hdr_in_range, attribute_kept in *.
      fields. rewrite <- K. exact I.
Qed.

(** C9: started with the tier index unset or within 0..5, the HDR loop keeps
    it within 0..5: after any number of iterations (the loop run on a budget
    of [fuel] iterations stops after at most that many), however the loop
    ends and whatever the device answers; every iteration that completes
    leaves an index within 0..5; and every call of [read] ends with the
    index unset or within 0..5.  Tier 5 has no upper bound and tier 0 no
    lower bound ([hdr_lookup]), so the index is never moved past either. *)
Theorem hdr_index_in_range :
  forall (num : Type) (PN : PyNum num) (dev : Device) (fuel : nat) (w : World),
    hdr_in_range w ->
    hdr_in_range (snd (hdr_loop dev fuel w)) /\
    (forall r w', hdr_body dev w = (Ok r, w') ->
       exists h, _hdr (self w') = Some h /\ 0 <= h <= 5) /\
    (forall autogain hdr raw,
       hdr_in_range (snd (read dev fuel autogain hdr raw w))).
Proof.
  intros num PN dev fuel w Hr. split; [|split].
  - apply hoare_final. apply hdr_loop_range. exact Hr.
  - intros r w' E. exact (hoare_ok _ _ _ _ _ _ (hdr_body_range dev w Hr) E).
  - intros autogain hdr raw. apply hoare_final. apply read_hdr_range. exact Hr.
Qed.

Lemma settings_eq (s s' : TSL2561) :
  settings s' = settings s ->
  _hdr s' = _hdr s /\ _gain s' = _gain s /\
  _integration_time s' = _integration_time s /\ _LUX_SCALE s' = _LUX_SCALE s.
Proof. unfold settings. intros H. injection H as -> -> -> ->. auto. Qed.

(** At tier 0, with both channels at or below 62258, one iteration reads the
    device once and ends in [break]. *)
Lemma hdr_body_tier0 (dev : Device) (w : World) (t : Z) (p : profile) :
  _hdr (self w) = Some 0 ->
  _gain (self w) <> None ->
  _integration_time (self w) = Some t ->
  dict_get _INTEGRATION_TIME t = Some p ->
  (forall log, dev log CHANNEL0_WORD <= 62258 /\ dev log CHANNEL1_WORD <= 62258) ->
  hoare (hdr_body dev) w
    (fun r w' =>
       r <> None /\
       raw_reads (bus w') = S (raw_reads (bus w)) /\
       settings (self w') = settings (self w))
    (fun _ => False).
Proof.
  intros Hh Hg Ht Hp Hdev. unfold hdr_body.
  apply hoare_bind.
  eapply hoare_conseq; [apply (read_raw_spec dev w t p Hg Ht Hp) | | auto].
  intros [vnir ir] w1 (Hc & (l0 & l1 & Hv & Hi) & Hs & _). cbv beta.
  destruct (settings_eq _ _ Hs) as (Hh1 & _).
  rewrite Hh in Hh1.
  cbn [fst snd] in Hv, Hi.
  assert (Bv : vnir <= 62258) by (rewrite Hv; apply Hdev).
  assert (Bi : ir <= 62258) by (rewrite Hi; apply Hdev).
  hoare_step. hoare_step. rewrite Hh1.
  change (negb (0 =? 0)) with false. rewrite andb_false_r.
  hoare_step.
  change (getitem _HDR (Some 0)) with (ret (A := tier) (mkTier 16 402 None (Some 62258))).
  hoare_step. cbn [tier_max tier_min].
  assert (Hmax : (Z.max vnir ir >? 62258) = false).
  { rewrite Z.gtb_ltb. apply Z.ltb_ge. lia. }
  rewrite Hmax. hoare_step.
  repeat split; [discriminate | exact Hc | exact Hs].
Qed.

Lemma hoare_eq {A : Type} (c : M A) (w w' : World) (a : A)
  (Q : A -> World -> Prop) (E : World -> Prop) :
  c w = (Ok a, w') -> Q a w' -> hoare c w Q E.
Proof. intros Hc HQ. unfold hoare. rewrite Hc. exact HQ. Qed.

#[export] Instance eq_world_preorder : PreOrder (@eq World).
Proof. split; [intros w; reflexivity | intros a b c -> ->; reflexivity]. Qed.

Lemma lux_world {num : Type} {PN : PyNum num} (channels : Z * Z) :
  stable eq (_lux channels).
Proof. unfold _lux. stable_walk stable_leaf. Qed.

(** C4: an HDR read that starts at tier 0 ([_hdr] is 0 when [read] is
    called), on a device whose two channels always read at or below tier 0's
    maximum 62258, accepts the first reading: the loop returns the pair
    after one iteration, whatever budget beyond one it is given, having
    performed exactly one raw read and left the tier at 0; and the whole
    call [read(hdr=True)] performs exactly one raw read. *)
Theorem hdr_tier0_single_read :
  forall (num : Type) (PN : PyNum num) (dev : Device) (fuel : nat)
         (autogain raw : bool) (w : World) (t : Z) (p : profile),
    _hdr (self w) = Some 0 ->
    _gain (self w) <> None ->
    _integration_time (self w) = Some t ->
    dict_get _INTEGRATION_TIME t = Some p ->
    (forall log, dev log CHANNEL0_WORD <= 62258 /\ dev log CHANNEL1_WORD <= 62258) ->
    (exists vnir ir w',
        hdr_loop dev (S fuel) w = (Ok (vnir, ir), w') /\
        raw_reads (bus w') = S (raw_reads (bus w)) /\
        _hdr (self w') = Some 0) /\
    raw_reads (bus (snd (read dev (S fuel) autogain true raw w))) =
    S (raw_reads (bus w)).
Proof.
  intros num PN dev fuel autogain raw w t p Hh Hg Ht Hp Hdev.
  destruct (hoare_total _ _ _ (hdr_body_tier0 dev w t p Hh Hg Ht Hp Hdev))
    as (r & w' & E & Hr & Hc & Hs).
  destruct r as [[vnir ir]|]; [|contradiction].
  assert (L : hdr_loop dev (S fuel) w = (Ok (vnir, ir), w')).
  { simpl hdr_loop. rewrite (bind_ok _ _ _ _ _ E). reflexivity. }
  split.
  - exists vnir, ir, w'. repeat split; try assumption.
    destruct (settings_eq _ _ Hs) as (Hh' & _). rewrite Hh'. exact Hh.
  - apply (hoare_final _ _ (fun w0 => raw_reads (bus w0) = S (raw_reads (bus w)))).
    unfold read. apply hoare_bind. apply (hoare_eq _ _ _ _ _ _ L). cbv beta iota.
    hoare_step. hoare_step. fields. hoare_step.
    apply (hoare_stable eq); [apply lux_world | |].
    + intros a w0 <-. hoare_step. exact Hc.
    + intros w0 <-. exact Hc.
Qed.

Lemma hdr_tier0_single_read_witness :
  raw_reads (bus (snd (read (PN := float_num) (fixed_device 1000 500) 1 false
                         true false (driver_at TSL2561_LUX_SCALE (Some 0) 16 402)))) =
  S (raw_reads (bus (driver_at TSL2561_LUX_SCALE (Some 0) 16 402))).
Proof.
  refine (proj2 (hdr_tier0_single_read PrimFloat.float float_num
                   (fixed_device 1000 500) 0 false false
                   (driver_at TSL2561_LUX_SCALE (Some 0) 16 402) 402
                   (mkProfile 0x02 450 65000 500 63000 1024) _ _ _ _ _)).
  - reflexivity.
  - discriminate.
  - reflexivity.
  - reflexivity.
  - intros log. split; vm_compute; discriminate.
Defined.

(** From the uninitialized state the same device is read twice: the first
    iteration only sets the tier to 0 and applies its operating point. *)
Example hdr_fresh_start_two_reads :
  raw_reads (bus (snd (read (PN := float_num) (fixed_device 1000 500) 5 false
                         true false (driver_at TSL2561_LUX_SCALE None 16 402)))) = 2%nat.
Proof. vm_compute. reflexivity. Qed.

(** A device that always reads full scale drives the search from tier 0 up
    to tier 5, where it stays. *)
Example hdr_climbs_to_last_tier :
  _hdr (self (snd (hdr_loop (fixed_device 65535 65535) 10
                     (driver_at TSL2561_LUX_SCALE None 16 13)))) = Some 5.
Proof. vm_compute. reflexivity. Qed.

Lemma hdr_index_in_range_witness :
  hdr_in_range (snd (hdr_loop (fixed_device 65535 65535) 10
                       (driver_at TSL2561_LUX_SCALE None 16 13))).
Proof.
  exact (proj1 (hdr_index_in_range PrimFloat.float float_num
                  (fixed_device 65535 65535) 10
                  (driver_at TSL2561_LUX_SCALE None 16 13) I)).
Defined.

(** ** The HDR state across calls *)

(** The first thing an iteration does after its raw read is to test the
    index it finds: from the unset index it goes to tier 0 and round again;
    from tier [h] it applies the rule of tier [h]. *)
Lemma hdr_body_first (dev : Device) (w : World) :
  hoare (hdr_body dev) w
    (fun r w' =>
       match _hdr (self w) with
       | None => r = None /\ _hdr (self w') = Some 0
       | Some h =>
           (r <> None -> _hdr (self w') = Some h) /\
           (_hdr (self w') = Some h \/ _hdr (self w') = Some (h + 1) \/
            _hdr (self w') = Some (h - 1))
       end)
    (fun _ => True).
Proof.
  unfold hdr_body, hdr_update_range. unfold_bus.
  repeat (first [call_keeping_hdr | hoare_step]; fields; try absurd_branch).
  all: try exact I.
  all: fields; hdr_norm; cbv beta iota.
  all: try (split; [reflexivity | reflexivity]).
  all: try (split; [intros; reflexivity | auto]).
  all: try (split; [intros K; contradiction | auto]).
Qed.

Lemma plain_read_clears_hdr {num : Type} {PN : PyNum num} (dev : Device)
  (fuel : nat) (autogain raw : bool) (w : World) :
  _hdr (self (snd (read dev fuel autogain false raw w))) = None.
Proof.
  apply (hoare_final _ _ (fun w' => _hdr (self w') = None)). unfold read.
  hoare_step. hoare_step. fields.
  apply (hoare_stable (attribute_kept _hdr)); [kept_by_body | |].
  - intros a w2 K. unfold attribute_kept in K. fields. symmetry. exact K.
  - intros w2 K. unfold attribute_kept in K. fields. symmetry. exact K.
Qed.

(** C2, as stated, fails.  Were the HDR state reset when [read(hdr=True)]
    starts, the call would behave alike from a world and from the same world
    with the state unset.  It does not: with the index at 3 (gain 16,
    13 ms) and a device that reads (1000, 500), the call accepts the first
    reading at tier 3 and ends with the index at 3; from the unset state it
    goes to tier 0 and ends with the index at 0. *)
Lemma hdr_read_resumes_from_last_tier :
  ~ (forall (dev : Device) (fuel : nat) (w : World),
        snd (read (PN := float_num) dev fuel false true false w) =
        snd (read (PN := float_num) dev fuel false true false (reset_hdr w))).
Proof.
  intros H.
  specialize (H (fixed_device 1000 500) 5%nat
                (driver_at TSL2561_LUX_SCALE (Some 3) 16 13)).
  apply (f_equal (fun w => _hdr (self w))) in H.
  vm_compute in H. discriminate H.
Qed.

(** The amended statement needs the rule of one iteration and is proved with
    the HDR search below. *)

(** ** The auto-gain read *)

(** The gain setter with an accepted value returns, having recorded the
    value, with no raw read. *)
Lemma gain_set_spec (dev : Device) (x : Z) (w : World) :
  x = 1 \/ x = 16 ->
  hoare (gain dev (Some x)) w
    (fun _ w' => self w' = with_range (Some x) None (self w) /\ same_raw_reads w w')
    (fun _ => False).
Proof.
  intros Hx. unfold gain.
  assert (E : (x =? 1) || (x =? 16) = true)
    by (destruct Hx; subst; reflexivity).
  rewrite E. apply hoare_bind.
  eapply hoare_conseq; [apply (update_range_spec dev (Some x) None w) | | auto].
  - intros y Hy. injection Hy as <-. exact Hx.
  - intros y Hy. discriminate Hy.
  - intros y Hy. discriminate Hy.
  - intros [] w' H. cbv beta. apply hoare_ret. exact H.
Qed.

(** With a preset integration time and a gain that is not zero [_lux] returns
    (a number or "no reading") and leaves the world as it is. *)
Lemma lux_returns {num : Type} {PN : PyNum num} (w : World) (g t : Z)
  (p : profile) (channels : Z * Z) :
  _gain (self w) = Some g -> g <> 0 ->
  _integration_time (self w) = Some t -> t <> 0 ->
  dict_get _INTEGRATION_TIME t = Some p ->
  exists lux, _lux channels w = (Ok lux, w).
Proof.
  intros Hg Hgz Ht Hnz Hp. destruct channels as [vnir ir].
  unfold _lux, bind, get_self, getitem, as_int, ret, attr_eqb.
  rewrite Ht. apply Z.eqb_neq in Hnz. rewrite Hnz, Hp.
  destruct ((vnir >? p_clip p) || (ir >? p_clip p)); [eexists; reflexivity|].
  rewrite Hg. apply Z.eqb_neq in Hgz. rewrite Hgz.
  destruct (lux_scale_loop _ _) as [b m]. eexists; reflexivity.
Qed.

Lemma read_tail_spec {num : Type} {PN : PyNum num} (raw : bool) (v i : Z)
  (w : World) (g t : Z) (p : profile) (I : World -> Prop) :
  _gain (self w) = Some g ->
  _integration_time (self w) = Some t -> t <> 0 ->
  dict_get _INTEGRATION_TIME t = Some p ->
  I w ->
  hoare (if raw then ret (Counts v i)
         else bind (_lux (v, i)) (fun lux => ret (Lux lux))) w
    (fun _ w' => I w') (fun w' => I w' /\ g = 0 /\ raw = false).
Proof.
  intros Hg Ht Hnz Hp HI. destruct raw.
  - apply hoare_ret. exact HI.
  - apply hoare_bind. destruct (Z.eq_dec g 0) as [Hz | Hz].
    + apply (hoare_stable eq); [apply lux_world | |].
      * intros a w' <-. apply hoare_ret. exact HI.
      * intros w' <-. auto.
    + destruct (lux_returns w g t p (v, i) Hg Hz Ht Hnz Hp) as [lux El].
      apply (hoare_eq _ _ _ _ _ _ El). apply hoare_ret. exact HI.
Qed.

Lemma autogain_target_cases (p : profile) (g vnir : Z) :
  (if vnir <? p_min p then Some 16
   else if vnir >? p_max p then Some 1 else Some g) =
  Some (autogain_target p g vnir) /\
  (autogain_target p g vnir = g \/ autogain_target p g vnir = 1 \/
   autogain_target p g vnir = 16).
Proof.
  unfold autogain_target.
  destruct (vnir <? p_min p); [auto|].
  destruct (vnir >? p_max p); auto.
Qed.

Lemma autogain_read_spec {num : Type} {PN : PyNum num} (dev : Device)
  (fuel : nat) (raw : bool) (w w1 : World) (g t vnir ir : Z) (p : profile) :
  _gain (self w) = Some g ->
  _integration_time (self w) = Some t -> In t [13; 101; 402] ->
  dict_get _INTEGRATION_TIME t = Some p ->
  _read dev (reset_hdr w) = (Ok (vnir, ir), w1) ->
  hoare (read dev fuel true false raw) w
    (fun _ w' => autogain_done p g vnir w w')
    (fun w' => autogain_done p g vnir w w' /\ g = 0 /\ raw = false).
Proof.
  intros Hg Ht Hin Hp E1.
  assert (Hnz : t <> 0) by (apply preset_not_manual; exact Hin).
  assert (Hg0 : _gain (self (reset_hdr w)) <> None) by (simpl; congruence).
  pose proof (hoare_ok _ _ _ _ _ _
                (read_raw_spec dev (reset_hdr w) t p Hg0 Ht Hp) E1)
    as (Hc1 & _ & Hs1 & _).
  destruct (settings_eq _ _ Hs1) as (_ & Hg1 & Ht1 & _).
  simpl in Hg1, Ht1, Hc1. rewrite Hg in Hg1. rewrite Ht in Ht1.
  destruct (autogain_target_cases p g vnir) as [N Hcases].
  unfold read. hoare_step. hoare_step.
  hoare_step. apply (hoare_eq _ _ _ _ _ _ E1). cbv beta iota.
  hoare_step. hoare_step. hoare_step.
  rewrite Ht1, Hg1. unfold attr_eqb. apply Z.eqb_neq in Hnz. rewrite Hnz.
  apply Z.eqb_neq in Hnz.
  hoare_step. unfold getitem. rewrite Hp. hoare_step.
  rewrite N. cbn [opt_Z_eqb].
  destruct (autogain_target p g vnir =? g) eqn:Eq.
  - apply Z.eqb_eq in Eq. hoare_step. cbv iota.
    eapply hoare_conseq;
      [apply (read_tail_spec raw vnir ir w1 g t p
                (fun w' => autogain_done p g vnir w w') Hg1 Ht1 Hnz Hp) | auto | auto].
    unfold autogain_done. rewrite Eq, Z.eqb_refl. split; [exact Hg1|]. lia.
  - apply Z.eqb_neq in Eq.
    assert (Hx : autogain_target p g vnir = 1 \/ autogain_target p g vnir = 16)
      by (destruct Hcases as [? | [? | ?]]; [contradiction | auto | auto]).
    hoare_step.
    eapply hoare_conseq;
      [apply (gain_set_spec dev (autogain_target p g vnir) w1 Hx) | | intros ? []].
    intros a w2 (Hself & Hcnt). cbv beta.
    assert (Hg2 : _gain (self w2) = Some (autogain_target p g vnir))
      by (rewrite Hself; reflexivity).
    assert (Ht2 : _integration_time (self w2) = Some t)
      by (rewrite Hself; exact Ht1).
    assert (Hg2' : _gain (self w2) <> None) by congruence.
    eapply hoare_conseq;
      [apply (read_raw_spec dev w2 t p Hg2' Ht2 Hp) | | intros ? []].
    intros [v2 i2] w3 (Hc3 & _ & Hs3 & _). cbv beta iota.
    destruct (settings_eq _ _ Hs3) as (_ & Hg3 & Ht3 & _).
    rewrite Hg2 in Hg3. rewrite Ht2 in Ht3.
    eapply hoare_conseq;
      [apply (read_tail_spec raw v2 i2 w3 (autogain_target p g vnir) t p
                (fun w' => autogain_done p g vnir w w') Hg3 Ht3 Hnz Hp) | auto | ].
    + unfold autogain_done. apply Z.eqb_neq in Eq. rewrite Eq.
      split; [exact Hg3|]. unfold same_raw_reads in Hcnt. lia.
    + intros w' (_ & Hz & _). exfalso. destruct Hx; lia.
Qed.

(** C5: an auto-gain read ([read(autogain=True)], not HDR) with the gain set
    and a preset integration time of 13, 101 or 402 ms.  Its first raw read
    returns a pair (vnir, ir).  When the call ends, the gain is
    [autogain_target]: 16 if vnir is below the low threshold of the profile,
    1 if it is above the high threshold, the gain as it was otherwise.  The
    call performs exactly one raw read if that is the gain it started with
    and exactly two if the gain changed: there is no further iteration.
    The call returns (it can fail only in [_lux], on a gain of 0, which no
    setter accepts). *)
Theorem autogain_single_correction :
  forall (num : Type) (PN : PyNum num) (dev : Device) (fuel : nat) (raw : bool)
         (w : World) (g t : Z) (p : profile),
    _gain (self w) = Some g ->
    _integration_time (self w) = Some t -> In t [13; 101; 402] ->
    dict_get _INTEGRATION_TIME t = Some p ->
    exists vnir ir w1,
      _read dev (reset_hdr w) = (Ok (vnir, ir), w1) /\
      _gain (self (snd (read dev fuel true false raw w))) =
      Some (autogain_target p g vnir) /\
      raw_reads (bus (snd (read dev fuel true false raw w))) =
      (raw_reads (bus w) +
       (if (autogain_target p g vnir =? g)%Z then 1 else 2))%nat /\
      (g <> 0 \/ raw = true ->
       exists r, fst (read dev fuel true false raw w) = Ok r).
Proof.
  intros num PN dev fuel raw w g t p Hg Ht Hin Hp.
  assert (Hg0 : _gain (self (reset_hdr w)) <> None) by (simpl; congruence).
  destruct (hoare_total _ _ _ (read_raw_spec dev (reset_hdr w) t p Hg0 Ht Hp))
    as ([vnir ir] & w1 & E1 & _).
  exists vnir, ir, w1. split; [exact E1|].
  pose proof (autogain_read_spec dev fuel raw w w1 g t vnir ir p Hg Ht Hin Hp E1)
    as K.
  unfold hoare, autogain_done in K.
  destruct (read dev fuel true false raw w) as [[r|e|] w'];
    cbn [fst snd].
  - destruct K as [K1 K2]. repeat split; try assumption.
    intros _. exists r. reflexivity.
  - destruct K as ([K1 K2] & Hz & Hraw). repeat split; try assumption.
    intros [H | H]; [contradiction | congruence].
  - destruct K as ([K1 K2] & Hz & Hraw). repeat split; try assumption.
    intros [H | H]; [contradiction | congruence].
Qed.

Lemma autogain_single_correction_witness :
  exists vnir ir w1,
    _read (fixed_device 50 20)
      (reset_hdr (driver_at TSL2561_LUX_SCALE None 1 13)) = (Ok (vnir, ir), w1) /\
    _gain (self (snd (read (PN := float_num) (fixed_device 50 20) 0 true false
                        false (driver_at TSL2561_LUX_SCALE None 1 13)))) =
    Some (autogain_target (mkProfile 0x00 15 4900 100 4850 0x7517) 1 vnir) /\
    raw_reads (bus (snd (read (PN := float_num) (fixed_device 50 20) 0 true
                           false false (driver_at TSL2561_LUX_SCALE None 1 13)))) =
    (raw_reads (bus (driver_at TSL2561_LUX_SCALE None 1 13)) +
     (if (autogain_target (mkProfile 0x00 15 4900 100 4850 0x7517) 1 vnir =? 1)%Z
      then 1 else 2))%nat /\
    (1 <> 0 \/ false = true ->
     exists r, fst (read (PN := float_num) (fixed_device 50 20) 0 true false
                      false (driver_at TSL2561_LUX_SCALE None 1 13)) = Ok r).
Proof.
  apply (autogain_single_correction PrimFloat.float float_num
           (fixed_device 50 20) 0 false
           (driver_at TSL2561_LUX_SCALE None 1 13) 1 13
           (mkProfile 0x00 15 4900 100 4850 0x7517)).
  - reflexivity.
  - reflexivity.
  - simpl; auto.
  - reflexivity.
Defined.

Example autogain_raises_gain_once :
  _gain (self (snd (read (PN := float_num) (fixed_device 50 20) 0 true false
                      false (driver_at TSL2561_LUX_SCALE None 1 13)))) = Some 16 /\
  raw_reads (bus (snd (read (PN := float_num) (fixed_device 50 20) 0 true false
                         false (driver_at TSL2561_LUX_SCALE None 1 13)))) = 2%nat.
Proof. split; vm_compute; reflexivity. Qed.

(** ** What every constructed driver satisfies, whatever is called on it *)

Lemma gain_bits_lookup (k v : Z) :
  dict_get [(1, 0x00); (16, 0x10)] k = Some v -> k = 1 \/ k = 16.
Proof.
  unfold dict_get.
  destruct (1 =? k) eqn:E1; [apply Z.eqb_eq in E1; auto|].
  destruct (16 =? k) eqn:E2; [apply Z.eqb_eq in E2; auto|].
  intros H. discriminate H.
Qed.

Ltac operating_leaf :=
  match goal with
  | Hop : operating _ |- _ =>
      unfold operating in *; fields;
      destruct Hop as (? & (? & ? & ? & ?) & (? & ?))
  end;
  repeat match goal with
         | H : Some ?a = Some ?b |- _ => injection H as H; try subst b
         end;
  split; [|split];
  [ first [ assumption
          | match goal with
            | H : dict_get [(1, 0); (16, 16)] ?k = Some _ |- _ =>
                destruct (gain_bits_lookup _ _ H); subst; auto
            end ]
  | first [ eexists; eexists; split; eassumption
          | eexists; eexists; split; [reflexivity | eassumption] ]
  | first [ eexists; reflexivity | eexists; eassumption ] ].

Lemma update_range_operating (dev : Device) (g t : option Z) (w : World) :
  operating w ->
  hoare (_update_range dev g t) w (fun _ w' => operating w') operating.
Proof.
  intros Hop. destruct w as [s tr]. unfold _update_range. unfold_bus.
  hoare_run.
  all: operating_leaf.
Qed.

Lemma active_operating (v : option bool) (w : World) :
  operating w -> hoare (active v) w (fun _ w' => operating w') operating.
Proof.
  intros Hop. destruct w as [s tr]. destruct v as [b|]; hoare_run.
  all: operating_leaf.
Qed.

Lemma read_raw_operating (dev : Device) (w : World) :
  operating w -> hoare (_read dev) w (fun _ w' => operating w') operating.
Proof.
  intros Hop. destruct w as [s tr]. unfold _read. unfold_bus. hoare_run.
  all: operating_leaf.
Qed.

Lemma lux_operating {num : Type} {PN : PyNum num} (channels : Z * Z) (w : World) :
  operating w -> hoare (_lux channels) w (fun _ w' => operating w') operating.
Proof.
  intros Hop. apply (hoare_stable eq); [apply lux_world | |].
  - intros a w' <-. exact Hop.
  - intros w' <-. exact Hop.
Qed.

Ltac call_operating :=
  lazymatch goal with
  | |- hoare (_read _) _ _ _ =>
      eapply hoare_conseq; [apply read_raw_operating | intros [? ?] ? ? | auto]
  | |- hoare (_update_range _ _ _) _ _ _ =>
      eapply hoare_conseq; [apply update_range_operating | intros ? ? ? | auto]
  | |- hoare (_lux _) _ _ _ =>
      eapply hoare_conseq; [apply lux_operating | intros ? ? ? | auto]
  end; [try assumption | cbv beta].

Lemma gain_operating (dev : Device) (v : option Z) (w : World) :
  operating w -> hoare (gain dev v) w (fun _ w' => operating w') operating.
Proof.
  intros Hop. unfold gain.
  repeat (first [call_operating | hoare_step]); try assumption.
Qed.

Lemma integration_time_operating (dev : Device) (v : option Z) (w : World) :
  operating w ->
  hoare (integration_time dev v) w (fun _ w' => operating w') operating.
Proof.
  intros Hop. unfold integration_time.
  repeat (first [call_operating | hoare_step]); try assumption.
Qed.

Lemma threshold_operating (dev : Device) (c lo hi : option Z) (w : World) :
  operating w ->
  hoare (threshold dev c lo hi) w (fun _ w' => operating w') operating.
Proof.
  intros Hop. destruct w as [s tr]. unfold threshold. unfold_bus. hoare_run.
  all: operating_leaf.
Qed.

Lemma hdr_body_operating (dev : Device) (w : World) :
  operating w -> hoare (hdr_body dev) w (fun _ w' => operating w') operating.
Proof.
  intros Hop. unfold hdr_body, hdr_update_range. unfold_bus.
  repeat (first [call_operating | hoare_step]; fields); try assumption.
Qed.

Lemma hdr_loop_operating (dev : Device) (fuel : nat) (w : World) :
  operating w -> hoare (hdr_loop dev fuel) w (fun _ w' => operating w') operating.
Proof.
  revert w. induction fuel as [|n IH]; intros w Hop; [exact Hop|].
  simpl hdr_loop. apply hoare_bind.
  eapply hoare_conseq; [apply (hdr_body_operating dev w Hop) | | auto].
  intros [channels|] w' Hop'; cbv beta.
  - apply hoare_ret. exact Hop'.
  - apply IH. exact Hop'.
Qed.

Lemma read_operating {num : Type} {PN : PyNum num} (dev : Device) (fuel : nat)
  (autogain hdr raw : bool) (w : World) :
  operating w ->
  hoare (read dev fuel autogain hdr raw) w (fun _ w' => operating w') operating.
Proof.
  intros Hop. unfold read. destruct hdr.
  - apply hoare_bind.
    eapply hoare_conseq; [apply (hdr_loop_operating dev fuel w Hop) | | auto].
    intros [vnir ir] w1 Hop1. cbv beta iota.
    repeat (first [call_operating | hoare_step]; fields); try assumption.
  - repeat (first [call_operating | hoare_step]; fields); try assumption.
    all: try (eapply hoare_conseq;
              [apply gain_operating; assumption | intros ? ? ?; cbv beta | auto]).
    all: repeat (first [call_operating | hoare_step]; fields); try assumption.
Qed.

Lemma interrupt_operating (v : option bool) (w : World) :
  operating w -> hoare (interrupt v) w (fun _ w' => operating w') operating.
Proof.
  intros Hop. unfold interrupt. repeat (hoare_step; fields); assumption.
Qed.

Lemma sensor_id_operating (dev : Device) (w : World) :
  operating w -> hoare (sensor_id dev) w (fun _ w' => operating w') operating.
Proof.
  intros Hop. unfold sensor_id. unfold_bus. repeat (hoare_step; fields).
  assumption.
Qed.

Lemma init_operating (dev : Device) (powermode : Z) (w : World) :
  hoare (__init__ dev powermode) w
    (fun _ w' => operating w' /\ in_sync w' /\ _hdr (self w') = None)
    (fun _ => True).
Proof.
  unfold __init__, sensor_id. unfold_bus.
  hoare_run; try exact I.
  apply hoare_conseq with
    (Q := fun _ w' => (operating w' /\ (in_sync w')) /\ _hdr (self w') = None)
    (E := fun _ => True); [| | auto].
  - apply hoare_conseq with
      (Q := fun _ w' => (operating w' /\ in_sync w') /\ _hdr (self w') = None)
      (E := fun w' => (operating w' /\ True) /\ True); [| auto | auto].
    apply hoare_and; [apply hoare_and|].
    + apply update_range_operating. unfold operating. fields.
      split; [auto | split].
      * exists 402, (mkProfile 0x02 450 65000 500 63000 1024). split; reflexivity.
      * eexists; reflexivity.
    + apply (hoare_stable (keeps in_sync)); [apply update_range_in_sync | |].
      * intros a w' K. apply K. unfold in_sync. fields.
        rewrite device_power_snoc. cbn [power_command].
        rewrite Z.eqb_refl.
        destruct (powermode =? TSL2561_STANDARD); reflexivity.
      * auto.
    + apply (hoare_stable (attribute_kept _hdr)); [apply update_range_keeps_hdr | |].
      * intros a w' K. unfold attribute_kept in K. fields. symmetry. exact K.
      * auto.
  - intros [] w' ((Hop & Hs) & Hh). cbv beta. hoare_step. fields.
    split; [exact Hop | split; [exact Hs | exact Hh]].
Qed.

Lemma lux_in_sync {num : Type} {PN : PyNum num} (channels : Z * Z) :
  stable (keeps in_sync) (_lux channels).
Proof. unfold _lux. sync_by_body. Qed.

#[export] Hint Resolve lux_in_sync gain_in_sync : stable.

Lemma hdr_body_in_sync (dev : Device) : stable (keeps in_sync) (hdr_body dev).
Proof. unfold hdr_body, hdr_update_range. sync_by_body. Qed.

#[export] Hint Resolve hdr_body_in_sync : stable.

Lemma hdr_loop_in_sync (dev : Device) (fuel : nat) :
  stable (keeps in_sync) (hdr_loop dev fuel).
Proof. induction fuel as [|n IH]; simpl; sync_by_body. Qed.

#[export] Hint Resolve hdr_loop_in_sync : stable.

Lemma read_in_sync {num : Type} {PN : PyNum num} (dev : Device) (fuel : nat)
  (autogain hdr raw : bool) :
  stable (keeps in_sync) (read dev fuel autogain hdr raw).
Proof. unfold read. sync_by_body. Qed.

Lemma interrupt_in_sync (v : option bool) : stable (keeps in_sync) (interrupt v).
Proof. unfold interrupt. sync_by_body. Qed.

Lemma sensor_id_in_sync (dev : Device) : stable (keeps in_sync) (sensor_id dev).
Proof. unfold sensor_id. sync_by_body. Qed.

Lemma integration_time_keeps_hdr (dev : Device) (v : option Z) :
  stable (attribute_kept _hdr) (integration_time dev v).
Proof. unfold integration_time. kept_by_body. Qed.

Lemma threshold_keeps_hdr (dev : Device) (c lo hi : option Z) :
  stable (attribute_kept _hdr) (threshold dev c lo hi).
Proof. unfold threshold. kept_by_body. Qed.

Lemma interrupt_keeps_hdr (v : option bool) :
  stable (attribute_kept _hdr) (interrupt v).
Proof. unfold interrupt. kept_by_body. Qed.

Lemma sensor_id_keeps_hdr (dev : Device) :
  stable (attribute_kept _hdr) (sensor_id dev).
Proof. unfold sensor_id. kept_by_body. Qed.

Lemma hdr_range_kept (w w' : World) :
  attribute_kept _hdr w w' -> hdr_in_range w -> hdr_in_range w'.
Proof. unfold attribute_kept, hdr_in_range. intros <-. auto. Qed.

(** Every public method keeps a sound driver sound. *)
Lemma call_keeps_sound {num : Type} {PN : PyNum num} (dev : Device) (c : call)
  (w : World) :
  sound w -> sound (after_call dev c w).
Proof.
  intros (Hop & Hs & Hr & Hi). unfold sound.
  destruct c as [fuel autogain hdr raw | v | v | v | cy lo hi | v | ];
    cbn [after_call]; (split; [|split; [|split]]).
  - apply hoare_final. apply read_operating. exact Hop.
  - exact (read_in_sync dev fuel autogain hdr raw w Hs).
  - apply hoare_final. apply read_hdr_range. exact Hr.
  - rewrite <- Hi. symmetry. exact (read_keeps_i2c dev fuel autogain hdr raw w).
  - apply hoare_final. apply gain_operating. exact Hop.
  - exact (gain_in_sync dev v w Hs).
  - exact (hdr_range_kept _ _ (gain_keeps_hdr dev v w) Hr).
  - rewrite <- Hi. symmetry. exact (gain_keeps_i2c dev v w).
  - apply hoare_final. apply integration_time_operating. exact Hop.
  - exact (integration_time_in_sync dev v w Hs).
  - exact (hdr_range_kept _ _ (integration_time_keeps_hdr dev v w) Hr).
  - rewrite <- Hi. symmetry. exact (integration_time_keeps_i2c dev v w).
  - apply hoare_final. apply active_operating. exact Hop.
  - exact (sync_active v w Hs).
  - exact (hdr_range_kept _ _ (active_keeps_hdr v w) Hr).
  - rewrite <- Hi. symmetry. exact (active_keeps_i2c v w).
  - apply hoare_final. apply threshold_operating. exact Hop.
  - exact (threshold_in_sync dev cy lo hi w Hs).
  - exact (hdr_range_kept _ _ (threshold_keeps_hdr dev cy lo hi w) Hr).
  - rewrite <- Hi. symmetry. exact (threshold_keeps_i2c dev cy lo hi w).
  - apply hoare_final. apply interrupt_operating. exact Hop.
  - exact (interrupt_in_sync v w Hs).
  - exact (hdr_range_kept _ _ (interrupt_keeps_hdr v w) Hr).
  - rewrite <- Hi. symmetry. exact (interrupt_keeps_i2c v w).
  - apply hoare_final. apply sensor_id_operating. exact Hop.
  - exact (sensor_id_in_sync dev w Hs).
  - exact (hdr_range_kept _ _ (sensor_id_keeps_hdr dev w) Hr).
  - rewrite <- Hi. symmetry. exact (sensor_id_keeps_i2c dev w).
Qed.

(** A constructed driver is sound, and stays sound through any sequence of
    calls of its public methods, whatever the device answers: the gain is 1
    or 16, the integration time is a key of the profile table, the power
    state is a boolean that matches the last power command, the tier index
    is unset or within 0..5, and there is no attribute [i2c]. *)
Lemma constructed_driver_sound {num : Type} {PN : PyNum num} (dev : Device)
  (table : lux_table) (powermode address : Z) (w : World) (calls : list call) :
  construct dev table powermode address = Ok w ->
  sound (after_calls dev calls w).
Proof.
  intros H.
  assert (S0 : sound w).
  { pose proof (constructed_without_i2c dev table powermode address w H) as Hi.
    unfold construct in H.
    pose proof (init_operating dev powermode (mkWorld (blank table address) []))
      as K.
    unfold hoare in K.
    destruct (__init__ dev powermode (mkWorld (blank table address) []))
      as [[u|e|] w']; try discriminate H.
    injection H as <-. destruct K as (Hop & Hs & Hh).
    repeat split; try assumption; try apply Hop.
    unfold hdr_in_range. rewrite Hh. exact I. }
  clear H. revert w S0. unfold after_calls.
  induction calls as [|c rest IH]; intros w S0; [exact S0|].
  simpl. apply IH. apply call_keeps_sound. exact S0.
Qed.

(** ** The HDR iteration never fails

    The specification worries that the search could run off the end of the
    tier table.  It cannot: on a sound driver an iteration always returns. *)

Lemma hdr_keys (h : Z) : 0 <= h <= 5 -> exists v, dict_get _HDR h = Some v.
Proof.
  intros Hh.
  assert (C : h = 0 \/ h = 1 \/ h = 2 \/ h = 3 \/ h = 4 \/ h = 5) by lia.
  destruct C as [-> | [-> | [-> | [-> | [-> | ->]]]]]; eexists; reflexivity.
Qed.

Lemma hdr_update_range_returns (dev : Device) (w : World) (h : Z) :
  operating w -> _hdr (self w) = Some h -> 0 <= h <= 5 ->
  hoare (hdr_update_range dev) w (fun _ _ => True) (fun _ => False).
Proof.
  intros (Hgain & (t0 & p0 & Ht0 & Hp0) & _) Hh Hrange.
  destruct (hdr_keys h Hrange) as [v Hv].
  destruct (hdr_lookup h v Hv) as (_ & _ & _ & Hg & Ht).
  unfold hdr_update_range. hoare_step. hoare_step. hoare_step.
  unfold getitem. rewrite Hh, Hv. hoare_step.
  eapply hoare_conseq;
    [apply (update_range_spec dev (Some (tier_gain v)) (Some (tier_time v)) w)
    | auto | auto].
  - intros x Hx. injection Hx as <-. exact Hg.
  - intros y Hy. injection Hy as <-. exact Ht.
  - intros y _. exists t0, p0. split; assumption.
Qed.

Lemma hdr_body_returns (dev : Device) (w : World) :
  operating w -> hdr_in_range w ->
  hoare (hdr_body dev) w (fun _ _ => True) (fun _ => False).
Proof.
  intros Hop Hr.
  pose proof Hop as (Hgain & (t0 & p0 & Ht0 & Hp0) & _).
  assert (Hg0 : _gain (self w) <> None) by (destruct Hgain; congruence).
  unfold hdr_body. unfold_bus. apply hoare_bind.
  apply hoare_conseq with
    (Q := fun _ w' => (True /\ operating w') /\ attribute_kept _hdr w w')
    (E := fun w' => (False /\ operating w') /\ attribute_kept _hdr w w').
  - apply hoare_and; [apply hoare_and|].
    + eapply hoare_conseq; [apply (read_raw_spec dev w t0 p0 Hg0 Ht0 Hp0) | auto | auto].
    + apply read_raw_operating. exact Hop.
    + apply (hoare_stable (attribute_kept _hdr)); [apply read_raw_keeps_hdr | auto | auto].
  - intros [vnir ir] w1 ((_ & Hop1) & K). cbv beta iota.
    unfold attribute_kept in K. unfold hdr_in_range in Hr. rewrite K in Hr.
    hoare_step. hoare_step.
    destruct (_hdr (self w1)) as [h|] eqn:Eh.
    + hoare_step.
      * hoare_step. hoare_step. fields. hoare_step.
        eapply hoare_conseq;
          [apply (hdr_update_range_returns dev _ h)
          | intros; cbv beta; hoare_step; exact I | auto]; assumption.
      * destruct (hdr_keys h Hr) as [v Hv].
        hoare_step. unfold getitem. rewrite Hv. hoare_step.
        destruct (hdr_lookup h v Hv) as (_ & Hmax & Hmin & _).
        hoare_step; [|hoare_step].
        -- assert (tier_max v <> None)
             by (destruct (tier_max v); [discriminate | discriminate Heqb0]).
           hoare_step. hoare_step. fields. hoare_step.
           eapply hoare_conseq;
             [apply (hdr_update_range_returns dev _ (h + 1))
             | intros; cbv beta; hoare_step; exact I | auto];
             [assumption | reflexivity | specialize (Hmax H); lia].
        -- assert (tier_min v <> None)
             by (destruct (tier_min v); [discriminate | discriminate Heqb1]).
           hoare_step. hoare_step. fields. hoare_step.
           eapply hoare_conseq;
             [apply (hdr_update_range_returns dev _ (h - 1))
             | intros; cbv beta; hoare_step; exact I | auto];
             [assumption | reflexivity | specialize (Hmin H); lia].
        -- exact I.
    + hoare_step. hoare_step. fields. hoare_step.
      eapply hoare_conseq;
        [apply (hdr_update_range_returns dev _ 0)
        | intros; cbv beta; hoare_step; exact I | auto];
        [assumption | reflexivity | lia].
  - intros w' (([] & _) & _).
Qed.

(** ** Clearing the interrupt *)

(** C8, on the code: [interrupt] reaches its write through [self.i2c], an
    attribute that no statement of the class assigns ([__init__] keeps the
    bus object in [self._device]).  On every constructed driver, fresh or
    after any sequence of calls of its public methods, the call with a false
    value ends in [AttributeError]; the world is unchanged, so no clear
    command reached the bus. *)
Theorem interrupt_clear_raises :
  forall (num : Type) (PN : PyNum num) (dev : Device) (table : lux_table)
         (powermode address : Z) (w : World) (calls : list call),
    construct dev table powermode address = Ok w ->
    interrupt (Some false) (after_calls dev calls w) =
    (Raise AttributeError, after_calls dev calls w).
Proof.
  intros num PN dev table powermode address w calls H.
  destruct (constructed_driver_sound dev table powermode address w calls H)
    as (_ & _ & _ & Hi).
  unfold interrupt, bind, get_self. simpl. rewrite Hi. reflexivity.
Qed.

Lemma interrupt_clear_raises_witness :
  exists w : World,
    construct (fixed_device 1000 500) TSL2561_LUX_SCALE TSL2561_STANDARD
      TSL2561_ADDR_FLOAT = Ok w /\
    interrupt (Some false) w = (Raise AttributeError, w).
Proof.
  eexists. split.
  - vm_compute. reflexivity.
  - apply (interrupt_clear_raises PrimFloat.float float_num
             (fixed_device 1000 500) TSL2561_LUX_SCALE
             TSL2561_STANDARD TSL2561_ADDR_FLOAT _ []).
    vm_compute. reflexivity.
Defined.

(** Had the instance an attribute [i2c], the call would issue the clear
    command: one write of [_CLEAR_BIT | _REGISTER_CONTROL]. *)
Lemma interrupt_with_i2c (w : World) (handle : Z) :
  i2c (self w) = Some handle ->
  interrupt (Some false) w =
  (Ok tt, mkWorld (self w)
            (bus w ++ [WritetoMem (address (self w)) 0x40 [0x00]])).
Proof.
  intros H. unfold interrupt, bind, get_self. simpl. rewrite H. reflexivity.
Qed.

(** * Further properties of the driver *)

(** ** Construction, identification and the setters *)

Lemma bind_raise {A B : Type} (c : M A) (k : A -> M B) (w w' : World) (e : exn) :
  c w = (Raise e, w') -> bind c k w = (Raise e, w').
Proof. intros H. unfold bind. rewrite H. reflexivity. Qed.

Lemma init_checks (dev : Device) (powermode : Z) (w : World) :
  let data := dev (bus w) (Z.lor _REGISTER_ID _COMMAND_BIT) in
  (Z.land (Z.shiftr data 4) 0x01 = 0 ->
   fst (__init__ dev powermode w) = Raise RuntimeError) /\
  (Z.land (Z.shiftr data 4) 0x01 <> 0 ->
   powermode <> TSL2561_LOWPOWER -> powermode <> TSL2561_STANDARD ->
   fst (__init__ dev powermode w) = Raise ValueError).
Proof.
  intros data.
  assert (E : sensor_id dev w =
              (Ok (Z.shiftr data 4, Z.land data 0x0f),
               mkWorld (self w) (bus w ++ [ReadU8 (Z.lor _REGISTER_ID _COMMAND_BIT) data])))
    by reflexivity.
  split.
  - intros Hid. unfold __init__. rewrite (bind_ok _ _ _ _ _ E). cbv beta iota.
    unfold bind at 1. unfold modify at 1.
    apply Z.eqb_eq in Hid. rewrite Hid. reflexivity.
  - intros Hid H0 H1. unfold __init__. rewrite (bind_ok _ _ _ _ _ E). cbv beta iota.
    unfold bind at 1. unfold modify at 1.
    apply Z.eqb_neq in Hid. rewrite Hid.
    apply Z.eqb_neq in H0. apply Z.eqb_neq in H1. rewrite H0, H1. reflexivity.
Qed.

(** X1: the constructor never loops and fails in two ways only.  It raises
    [RuntimeError] exactly when the part number read from the ID register
    (the high nibble, read on an empty bus) is even; with an odd part number
    it raises [ValueError] exactly when [powermode] is neither
    [TSL2561_LOWPOWER] nor [TSL2561_STANDARD]; otherwise it returns. *)
Theorem construct_outcome :
  forall (dev : Device) (table : lux_table) (powermode address : Z),
    let part := Z.shiftr (dev [] (Z.lor _REGISTER_ID _COMMAND_BIT)) 4 in
    match construct dev table powermode address with
    | Ok _ =>
        Z.land part 0x01 <> 0 /\
        (powermode = TSL2561_LOWPOWER \/ powermode = TSL2561_STANDARD)
    | Raise e =>
        (e = RuntimeError /\ Z.land part 0x01 = 0) \/
        (e = ValueError /\ Z.land part 0x01 <> 0 /\
         powermode <> TSL2561_LOWPOWER /\ powermode <> TSL2561_STANDARD)
    | OutOfFuel => False
    end.
Proof.
  intros dev table powermode address part.
  destruct (init_checks dev powermode (mkWorld (blank table address) []))
    as [Hrt Hve].
  cbn [bus] in Hrt, Hve. fold part in Hrt, Hve.
  destruct (Z.eq_dec (Z.land part 0x01) 0) as [Hid | Hid].
  - specialize (Hrt Hid). unfold construct.
    destruct (__init__ dev powermode _) as [[u|e|] w']; cbn [fst] in Hrt;
      try discriminate Hrt.
    injection Hrt as ->. left. split; [reflexivity | exact Hid].
  - destruct (Z.eq_dec powermode TSL2561_LOWPOWER) as [H0 | H0];
      [|destruct (Z.eq_dec powermode TSL2561_STANDARD) as [H1 | H1]].
    + destruct (construct_succeeds dev table powermode address Hid (or_introl H0))
        as [w E]. rewrite E. auto.
    + destruct (construct_succeeds dev table powermode address Hid (or_intror H1))
        as [w E]. rewrite E. auto.
    + specialize (Hve Hid H0 H1). unfold construct.
      destruct (__init__ dev powermode _) as [[u|e|] w']; cbn [fst] in Hve;
        try discriminate Hve.
      injection Hve as ->. right. repeat split; assumption.
Qed.

Lemma init_state (dev : Device) (powermode : Z) (table : lux_table) (address : Z) :
  hoare (__init__ dev powermode) (mkWorld (blank table address) [])
    (fun _ w' =>
       self w' =
       mkTSL2561 table address None
         (Z.shiftr (dev [] (Z.lor _REGISTER_ID _COMMAND_BIT)) 4)
         (Z.land (dev [] (Z.lor _REGISTER_ID _COMMAND_BIT)) 0x0f)
         powermode (Some (powermode =? TSL2561_STANDARD)) None (Some 16) (Some 13)
         None None)
    (fun _ => True).
Proof.
  unfold __init__, sensor_id. unfold_bus.
  hoare_run; try exact I.
  eapply hoare_conseq; [apply update_range_self | | intros; exact I].
  intros [] w2 Hself; cbv beta. hoare_step. fields. rewrite Hself.
  subst v. reflexivity.
Qed.

(** X2: every attribute of a freshly constructed driver.  The part and
    revision numbers are the two nibbles of the ID byte, [_powermode] is the
    argument, [_active] is [True] in standard mode and [False] in low-power
    mode, the HDR state and the last counts are unset, the operating point is
    gain 16 at 13 ms, and the last power command sent to the device agrees
    with [_active]. *)
Theorem constructed_state :
  forall (dev : Device) (table : lux_table) (powermode address : Z) (w : World),
    construct dev table powermode address = Ok w ->
    self w =
    mkTSL2561 table address None
      (Z.shiftr (dev [] (Z.lor _REGISTER_ID _COMMAND_BIT)) 4)
      (Z.land (dev [] (Z.lor _REGISTER_ID _COMMAND_BIT)) 0x0f)
      powermode (Some (powermode =? TSL2561_STANDARD)) None (Some 16) (Some 13)
      None None /\
    device_power (bus w) = Some (powermode =? TSL2561_STANDARD).
Proof.
  intros dev table powermode address w H. unfold construct in H.
  pose proof (init_state dev powermode table address) as K.
  pose proof (init_operating dev powermode (mkWorld (blank table address) [])) as S.
  unfold hoare in K, S.
  destruct (__init__ dev powermode (mkWorld (blank table address) []))
    as [[u|e|] w']; try discriminate H.
  injection H as <-. split; [exact K|].
  destruct S as (_ & Hs & _). unfold in_sync in Hs. rewrite Hs, K. reflexivity.
Qed.

Lemma constructed_state_witness :
  exists w : World,
    construct (fixed_device 1000 500) TSL2561_LUX_SCALE TSL2561_LOWPOWER
      TSL2561_ADDR_HIGH = Ok w /\
    self w =
    mkTSL2561 TSL2561_LUX_SCALE TSL2561_ADDR_HIGH None 5 0 TSL2561_LOWPOWER
      (Some false) None (Some 16) (Some 13) None None /\
    device_power (bus w) = Some false.
Proof.
  eexists. split; [vm_compute; reflexivity|].
  apply (constructed_state (fixed_device 1000 500) TSL2561_LUX_SCALE
           TSL2561_LOWPOWER TSL2561_ADDR_HIGH).
  vm_compute. reflexivity.
Defined.

(** X3: the invariant of a driver in use.  After construction and any
    sequence of public calls, with any arguments and however each call ends,
    the recorded gain is 1 or 16, the recorded integration time is a key of
    [_INTEGRATION_TIME], [_active] is a boolean equal to the last power
    command written to the control register, and the HDR index is unset or
    within 0..5. *)
Theorem driver_stays_sound :
  forall (num : Type) (PN : PyNum num) (dev : Device) (table : lux_table)
         (powermode address : Z) (w : World) (calls : list call),
    construct dev table powermode address = Ok w ->
    let w' := after_calls dev calls w in
    (_gain (self w') = Some 1 \/ _gain (self w') = Some 16) /\
    (exists t p, _integration_time (self w') = Some t /\
                 dict_get _INTEGRATION_TIME t = Some p) /\
    (exists b, _active (self w') = Some b /\ device_power (bus w') = Some b) /\
    hdr_in_range w'.
Proof.
  intros num PN dev table powermode address w calls H w'.
  destruct (constructed_driver_sound dev table powermode address w calls H)
    as ((Hg & Ht & (b & Hb)) & Hs & Hr & _).
  fold w' in Hg, Ht, Hb, Hs, Hr.
  repeat split; try assumption.
  exists b. split; [exact Hb|]. unfold in_sync in Hs. rewrite Hs. exact Hb.
Qed.

Lemma driver_stays_sound_witness :
  exists w : World,
    construct (fixed_device 65535 65535) TSL2561_LUX_SCALE TSL2561_LOWPOWER
      TSL2561_ADDR_FLOAT = Ok w /\
    hdr_in_range
      (after_calls (PN := float_num) (fixed_device 65535 65535)
         [call_read 10 false true false; call_integration_time (Some 0);
          call_gain (Some 1); call_read 0 true false true] w).
Proof.
  eexists. split; [vm_compute; reflexivity|].
  apply (driver_stays_sound PrimFloat.float float_num (fixed_device 65535 65535)
           TSL2561_LUX_SCALE TSL2561_LOWPOWER TSL2561_ADDR_FLOAT).
  vm_compute. reflexivity.
Defined.

Lemma id_byte_recomposed (data : Z) :
  Z.lor (Z.shiftl (Z.shiftr data 4) 4) (Z.land data 0x0f) = data.
Proof.
  apply Z.bits_inj'. intros n Hn.
  rewrite Z.lor_spec, Z.land_spec.
  destruct (Z.lt_ge_cases n 4) as [Hlt | Hge].
  - rewrite Z.shiftl_spec_low by exact Hlt. cbn [orb].
    assert (C : n = 0 \/ n = 1 \/ n = 2 \/ n = 3) by lia.
    destruct C as [-> | [-> | [-> | ->]]]; cbn [Z.testbit];
      rewrite andb_true_r; reflexivity.
  - rewrite Z.shiftl_spec by exact Hn.
    rewrite Z.shiftr_spec by lia.
    replace (n - 4 + 4) with n by lia.
    change 0x0f with (Z.ones 4).
    rewrite Z.ones_spec_high by lia.
    rewrite andb_false_r, orb_false_r. reflexivity.
Qed.

(** X4: [sensor_id] splits the ID byte without loss: [part << 4 | rev] is
    the byte the device answered, [rev] is within 0..15, and the call is one
    byte read of the ID register that leaves the driver object alone. *)
Theorem sensor_id_splits_the_byte :
  forall (dev : Device) (w w' : World) (part rev : Z),
    sensor_id dev w = (Ok (part, rev), w') ->
    Z.lor (Z.shiftl part 4) rev = dev (bus w) (Z.lor _REGISTER_ID _COMMAND_BIT) /\
    0 <= rev <= 15 /\
    self w' = self w /\
    bus w' =
    bus w ++ [ReadU8 (Z.lor _REGISTER_ID _COMMAND_BIT)
                (dev (bus w) (Z.lor _REGISTER_ID _COMMAND_BIT))].
Proof.
  intros dev w w' part rev H.
  unfold sensor_id, _register8_read, readU8, bind, ret in H.
  injection H as <- <- <-.
  split; [apply id_byte_recomposed|].
  split; [|split; reflexivity].
  change 0x0f with (Z.ones 4). rewrite Z.land_ones by (intros C; discriminate C).
  change (2 ^ 4) with 16.
  pose proof (Z.mod_pos_bound
                (dev (bus w) (Z.lor _REGISTER_ID _COMMAND_BIT)) 16 eq_refl) as B.
  change (Z.lor _REGISTER_ID _COMMAND_BIT) with 138 in B.
  change (Z.ones 4) with 15. lia.
Qed.

Lemma sensor_id_splits_the_byte_witness :
  Z.lor (Z.shiftl 5 4) 0 =
  fixed_device 1000 500 (bus (driver_at TSL2561_LUX_SCALE None 16 13))
    (Z.lor _REGISTER_ID _COMMAND_BIT) /\
  0 <= 0 <= 15.
Proof.
  destruct (sensor_id_splits_the_byte (fixed_device 1000 500)
              (driver_at TSL2561_LUX_SCALE None 16 13)
              (mkWorld (self (driver_at TSL2561_LUX_SCALE None 16 13))
                 [ReadU8 0x8A 0x50]) 5 0 eq_refl) as (A & B & _).
  split; [exact A | exact B].
Defined.

Lemma gain_set_returns (dev : Device) (x : Z) (w : World) :
  x = 1 \/ x = 16 ->
  exists w1,
    gain dev (Some x) w = (Ok None, w1) /\
    self w1 = with_range (Some x) None (self w).
Proof.
  intros Hx.
  assert (K : hoare (gain dev (Some x)) w
                (fun r w' => r = None /\ self w' = with_range (Some x) None (self w))
                (fun _ => False)).
  { unfold gain.
    assert (E : (x =? 1) || (x =? 16) = true) by (destruct Hx; subst; reflexivity).
    rewrite E. apply hoare_bind.
    eapply hoare_conseq; [apply (update_range_spec dev (Some x) None w) | | auto].
    - intros y Hy. injection Hy as <-. exact Hx.
    - intros y Hy. discriminate Hy.
    - intros y Hy. discriminate Hy.
    - intros [] w' [H _]. cbv beta. apply hoare_ret. split; [reflexivity | exact H]. }
  destruct (hoare_total _ _ _ K) as (r & w1 & E & -> & Hs).
  exists w1. split; assumption.
Qed.

Lemma integration_time_set_returns (dev : Device) (t : Z) (p : profile) (w : World) :
  operating w ->
  dict_get _INTEGRATION_TIME t = Some p ->
  exists w1,
    integration_time dev (Some t) w = (Ok None, w1) /\
    self w1 = with_range None (Some t) (self w).
Proof.
  intros (_ & (t0 & p0 & Ht0 & Hp0) & _) Hp.
  assert (K : hoare (integration_time dev (Some t)) w
                (fun r w' => r = None /\ self w' = with_range None (Some t) (self w))
                (fun _ => False)).
  { unfold integration_time. rewrite Hp. cbn [is_none]. apply hoare_bind.
    eapply hoare_conseq; [apply (update_range_spec dev None (Some t) w) | | auto].
    - intros y Hy. discriminate Hy.
    - intros y Hy. injection Hy as <-. rewrite Hp. discriminate.
    - intros y _. exists t0, p0. split; assumption.
    - intros [] w' [H _]. cbv beta. apply hoare_ret. split; [reflexivity | exact H]. }
  destruct (hoare_total _ _ _ K) as (r & w1 & E & -> & Hs).
  exists w1. split; assumption.
Qed.

(** X5: the setters and getters of gain and integration time round-trip.
    On a driver with a valid operating point, setting a gain of 1 or 16, or an
    integration time that is a key of the table, returns; the getter then
    reads the value back, the other setting and the power state are as before.
    Any other gain, and any other integration time, is rejected with
    [ValueError] before anything is sent or changed. *)
Theorem setters_round_trip :
  forall (dev : Device) (w : World),
    operating w ->
    (forall x, x = 1 \/ x = 16 ->
       exists w1,
         gain dev (Some x) w = (Ok None, w1) /\
         gain dev None w1 = (Ok (Some x), w1) /\
         integration_time dev None w1 = (Ok (_integration_time (self w)), w1) /\
         _active (self w1) = _active (self w)) /\
    (forall t p, dict_get _INTEGRATION_TIME t = Some p ->
       exists w1,
         integration_time dev (Some t) w = (Ok None, w1) /\
         integration_time dev None w1 = (Ok (Some t), w1) /\
         gain dev None w1 = (Ok (_gain (self w)), w1) /\
         _active (self w1) = _active (self w)) /\
    (forall x, x <> 1 -> x <> 16 -> gain dev (Some x) w = (Raise ValueError, w)) /\
    (forall t, dict_get _INTEGRATION_TIME t = None ->
       integration_time dev (Some t) w = (Raise ValueError, w)).
Proof.
  intros dev w Hop. split; [|split; [|split]].
  - intros x Hx. destruct (gain_set_returns dev x w Hx) as (w1 & E & Hs).
    exists w1. split; [exact E|].
    unfold gain, integration_time, bind, get_self, ret. rewrite Hs.
    repeat split.
  - intros t p Hp.
    destruct (integration_time_set_returns dev t p w Hop Hp) as (w1 & E & Hs).
    exists w1. split; [exact E|].
    unfold gain, integration_time, bind, get_self, ret. rewrite Hs.
    repeat split.
  - intros x H1 H16. unfold gain.
    apply Z.eqb_neq in H1. apply Z.eqb_neq in H16. rewrite H1, H16. reflexivity.
  - intros t Ht. unfold integration_time. rewrite Ht. reflexivity.
Qed.

Lemma setters_round_trip_witness :
  exists w1,
    integration_time (fixed_device 1000 500) (Some 402)
      (driver_at TSL2561_LUX_SCALE None 16 13) = (Ok None, w1) /\
    integration_time (fixed_device 1000 500) None w1 = (Ok (Some 402), w1) /\
    gain (fixed_device 1000 500) None w1 = (Ok (Some 16), w1) /\
    _active (self w1) = Some true.
Proof.
  refine (proj1 (proj2 (setters_round_trip (fixed_device 1000 500)
                          (driver_at TSL2561_LUX_SCALE None 16 13) _))
            402 (mkProfile 0x02 450 65000 500 63000 1024) eq_refl).
  split; [right; reflexivity|].
  split; [exists 13, (mkProfile 0x00 15 4900 100 4850 0x7517); split; reflexivity|].
  exists true. reflexivity.
Defined.

(** ** Bus traces of the raw read and of the setters *)

Ltac flatten_log := repeat rewrite <- app_assoc; cbn [app].

Ltac known_lookups :=
  repeat match goal with
         | H : Some ?a = Some ?k |- _ => is_var k; injection H as H; subst k
         | H : ?x = Some ?t, H' : ?x = Some ?k |- _ =>
             is_var k; rewrite H in H'; injection H' as H'; subst k
         | H : dict_get ?d ?t = Some ?p, H' : dict_get ?d ?t = Some ?v |- _ =>
             is_var v; rewrite H in H'; injection H' as H'; subst v
         end.

Ltac same_world :=
  known_lookups;
  apply (f_equal2 mkWorld);
  [first [reflexivity | self_eq] | flatten_log; reflexivity].

(** X6: the bus traffic of a raw read.  With the device on, [_read] is the
    two word reads of channel 0 and channel 1, in that order, and nothing
    else.  With the device off it is power on, a wait of the current
    profile's integration delay, the two reads, power off.  The pair returned
    is the pair read and the driver object ends as it started. *)
Theorem raw_read_trace :
  forall (dev : Device) (w : World) (t : Z) (p : profile) (b : bool),
    _gain (self w) <> None ->
    _integration_time (self w) = Some t ->
    dict_get _INTEGRATION_TIME t = Some p ->
    _active (self w) = Some b ->
    exists vnir ir,
      _read dev w =
      (Ok (vnir, ir),
       mkWorld (self w)
         (bus w ++
          (if b then [] else [Write8 (Z.lor _REGISTER_CONTROL _COMMAND_BIT)
                                _CONTROL_POWERON; Sleep (p_wait p)]) ++
          [ReadU16 CHANNEL0_WORD vnir; ReadU16 CHANNEL1_WORD ir] ++
          (if b then [] else [Write8 (Z.lor _REGISTER_CONTROL _COMMAND_BIT)
                                _CONTROL_POWEROFF]))).
Proof.
  intros dev w t p b Hg Ht Hp Hb.
  assert (K : hoare (_read dev) w
                (fun r w' =>
                   w' =
                   mkWorld (self w)
                     (bus w ++
                      (if b then [] else [Write8 (Z.lor _REGISTER_CONTROL _COMMAND_BIT)
                                            _CONTROL_POWERON; Sleep (p_wait p)]) ++
                      [ReadU16 CHANNEL0_WORD (fst r); ReadU16 CHANNEL1_WORD (snd r)] ++
                      (if b then [] else [Write8 (Z.lor _REGISTER_CONTROL _COMMAND_BIT)
                                            _CONTROL_POWEROFF])))
                (fun _ => False)).
  { destruct w as [s tr]. fields. destruct b.
    all: unfold _read; unfold_bus; hoare_run.
    all: try match goal with
             | H : forall k v, _ = Some k -> dict_get _ k <> Some v |- False =>
                 exact (H t p Ht Hp)
             end.
    all: try (rewrite Ht in *; destruct (_gain s); [discriminate | contradiction]).
    all: cbn [fst snd].
    all: same_world. }
  destruct (hoare_total _ _ _ K) as ([vnir ir] & w' & E & ->).
  exists vnir, ir. exact E.
Qed.

Lemma raw_read_trace_witness :
  exists vnir ir,
    _read (fixed_device 1000 500) (standby (driver_at TSL2561_LUX_SCALE None 16 13)) =
    (Ok (vnir, ir),
     mkWorld (self (standby (driver_at TSL2561_LUX_SCALE None 16 13)))
       [Write8 (Z.lor _REGISTER_CONTROL _COMMAND_BIT) _CONTROL_POWERON; Sleep 15;
        ReadU16 CHANNEL0_WORD vnir; ReadU16 CHANNEL1_WORD ir;
        Write8 (Z.lor _REGISTER_CONTROL _COMMAND_BIT) _CONTROL_POWEROFF]).
Proof.
  apply (raw_read_trace (fixed_device 1000 500)
           (standby (driver_at TSL2561_LUX_SCALE None 16 13)) 13
           (mkProfile 0x00 15 4900 100 4850 0x7517) false).
  - discriminate.
  - reflexivity.
  - reflexivity.
  - reflexivity.
Defined.

(** X7: the bus traffic of a change of gain.  Setting a gain of 1 or 16
    that differs from the recorded one reads the timing register, writes it
    back with the two integration bits kept and the gain bit 0x10 set for 16
    and clear for 1, and reads it once more; when the device is on, the three
    accesses are bracketed by power off and power on.  Only the recorded gain
    changes in the driver object. *)
Theorem gain_change_trace :
  forall (dev : Device) (w : World) (g x : Z) (b : bool),
    _gain (self w) = Some g ->
    x = 1 \/ x = 16 -> x <> g ->
    _active (self w) = Some b ->
    exists v v',
      gain dev (Some x) w =
      (Ok None,
       mkWorld (set_gain (Some x) (self w))
         (bus w ++
          (if b then [Write8 (Z.lor _REGISTER_CONTROL _COMMAND_BIT)
                        _CONTROL_POWEROFF] else []) ++
          [ReadU8 (Z.lor _REGISTER_TIMING _COMMAND_BIT) v;
           Write8 (Z.lor _REGISTER_TIMING _COMMAND_BIT)
             (Z.lor (Z.land v 0x03) (if x =? 16 then 0x10 else 0x00));
           ReadU8 (Z.lor _REGISTER_TIMING _COMMAND_BIT) v'] ++
          (if b then [Write8 (Z.lor _REGISTER_CONTROL _COMMAND_BIT)
                        _CONTROL_POWERON] else []))).
Proof.
  intros dev w g x b Hg Hx Hne Hb.
  assert (K : hoare (gain dev (Some x)) w
                (fun r w' =>
                   r = None /\
                   exists v v',
                     w' =
                     mkWorld (set_gain (Some x) (self w))
                       (bus w ++
                        (if b then [Write8 (Z.lor _REGISTER_CONTROL _COMMAND_BIT)
                                      _CONTROL_POWEROFF] else []) ++
                        [ReadU8 (Z.lor _REGISTER_TIMING _COMMAND_BIT) v;
                         Write8 (Z.lor _REGISTER_TIMING _COMMAND_BIT)
                           (Z.lor (Z.land v 0x03) (if x =? 16 then 0x10 else 0x00));
                         ReadU8 (Z.lor _REGISTER_TIMING _COMMAND_BIT) v'] ++
                        (if b then [Write8 (Z.lor _REGISTER_CONTROL _COMMAND_BIT)
                                      _CONTROL_POWERON] else [])))
                (fun _ => False)).
  { destruct w as [s tr]. fields.
    assert (Hneq : attr_eqb (_gain s) x = false).
    { rewrite Hg. simpl. apply Z.eqb_neq. congruence. }
    destruct b; (destruct Hx as [-> | ->]);
      unfold gain; cbn [Z.eqb Pos.eqb orb]; unfold _update_range; unfold_bus;
      hoare_run.
    all: try match goal with
             | H : attr_eqb _ _ = true |- _ => rewrite Hneq in H; discriminate H
             end.
    all: try match goal with
             | H : forall k v, Some ?z = Some k -> dict_get _ k <> Some v |- False =>
                 first [exact (H 1 0 eq_refl eq_refl) | exact (H 16 16 eq_refl eq_refl)]
             end.
    all: repeat match goal with
                | H : Some _ = Some ?k |- _ => is_var k; injection H as <-
                end.
    all: cbn [dict_get Z.eqb Pos.eqb] in *.
    all: repeat match goal with
                | H : Some _ = Some ?k |- _ => is_var k; injection H as <-
                end.
    all: split; [reflexivity|]; do 2 eexists; same_world. }
  destruct (hoare_total _ _ _ K) as (r & w' & E & -> & v & v' & ->).
  exists v, v'. exact E.
Qed.

Lemma gain_change_trace_witness :
  exists v v',
    gain (fixed_device 1000 500) (Some 1) (driver_at TSL2561_LUX_SCALE None 16 13) =
    (Ok None,
     mkWorld (set_gain (Some 1) (self (driver_at TSL2561_LUX_SCALE None 16 13)))
       [Write8 (Z.lor _REGISTER_CONTROL _COMMAND_BIT) _CONTROL_POWEROFF;
        ReadU8 (Z.lor _REGISTER_TIMING _COMMAND_BIT) v;
        Write8 (Z.lor _REGISTER_TIMING _COMMAND_BIT) (Z.lor (Z.land v 0x03) 0x00);
        ReadU8 (Z.lor _REGISTER_TIMING _COMMAND_BIT) v';
        Write8 (Z.lor _REGISTER_CONTROL _COMMAND_BIT) _CONTROL_POWERON]).
Proof.
  apply (gain_change_trace (fixed_device 1000 500)
           (driver_at TSL2561_LUX_SCALE None 16 13) 16 1 true).
  - reflexivity.
  - left. reflexivity.
  - discriminate.
  - reflexivity.
Defined.

(** X8: the bus traffic of a change of integration time.  Setting a time
    that is in the table and differs from the recorded one reads the timing
    register, writes it back with the gain bit kept and the code of the new
    time in the low bits, reads it once more and then waits for the longer of
    the old and the new integration delay; the power state is not touched. *)
Theorem integration_time_change_trace :
  forall (dev : Device) (w : World) (t0 t : Z) (p0 p : profile),
    _integration_time (self w) = Some t0 ->
    dict_get _INTEGRATION_TIME t0 = Some p0 ->
    dict_get _INTEGRATION_TIME t = Some p ->
    t <> t0 ->
    exists v v',
      integration_time dev (Some t) w =
      (Ok None,
       mkWorld (set_integration_time (Some t) (self w))
         (bus w ++
          [ReadU8 (Z.lor _REGISTER_TIMING _COMMAND_BIT) v;
           Write8 (Z.lor _REGISTER_TIMING _COMMAND_BIT)
             (Z.lor (Z.land v 0x10) (p_hex p));
           ReadU8 (Z.lor _REGISTER_TIMING _COMMAND_BIT) v';
           Sleep (Z.max (p_wait p0) (p_wait p))])).
Proof.
  intros dev w t0 t p0 p Ht0 Hp0 Hp Hne.
  assert (K : hoare (integration_time dev (Some t)) w
                (fun r w' =>
                   r = None /\
                   exists v v',
                     w' =
                     mkWorld (set_integration_time (Some t) (self w))
                       (bus w ++
                        [ReadU8 (Z.lor _REGISTER_TIMING _COMMAND_BIT) v;
                         Write8 (Z.lor _REGISTER_TIMING _COMMAND_BIT)
                           (Z.lor (Z.land v 0x10) (p_hex p));
                         ReadU8 (Z.lor _REGISTER_TIMING _COMMAND_BIT) v';
                         Sleep (Z.max (p_wait p0) (p_wait p))]))
                (fun _ => False)).
  { destruct w as [s tr]. fields.
    assert (Hneq : attr_eqb (_integration_time s) t = false).
    { rewrite Ht0. simpl. apply Z.eqb_neq. congruence. }
    unfold integration_time. rewrite Hp. cbn [is_none].
    unfold _update_range; unfold_bus; hoare_run.
    all: try match goal with
             | H : attr_eqb _ _ = true |- _ => rewrite Hneq in H; discriminate H
             end.
    all: try match goal with
             | H : forall k v, Some ?z = Some k -> dict_get _ k <> Some v |- False =>
                 exact (H _ _ eq_refl Hp)
             | H : forall k v, _integration_time _ = Some k -> _ <> Some v |- False =>
                 exact (H _ _ Ht0 Hp0)
             end.
    all: split; [reflexivity|]; do 2 eexists; same_world. }
  destruct (hoare_total _ _ _ K) as (r & w' & E & -> & v & v' & ->).
  exists v, v'. exact E.
Qed.

Lemma integration_time_change_trace_witness :
  exists v v',
    integration_time (fixed_device 1000 500) (Some 402)
      (driver_at TSL2561_LUX_SCALE None 16 13) =
    (Ok None,
     mkWorld
       (set_integration_time (Some 402)
          (self (driver_at TSL2561_LUX_SCALE None 16 13)))
       [ReadU8 (Z.lor _REGISTER_TIMING _COMMAND_BIT) v;
        Write8 (Z.lor _REGISTER_TIMING _COMMAND_BIT) (Z.lor (Z.land v 0x10) 0x02);
        ReadU8 (Z.lor _REGISTER_TIMING _COMMAND_BIT) v';
        Sleep 450]).
Proof.
  apply (integration_time_change_trace (fixed_device 1000 500)
           (driver_at TSL2561_LUX_SCALE None 16 13) 13 402
           (mkProfile 0x00 15 4900 100 4850 0x7517)
           (mkProfile 0x02 450 65000 500 63000 1024)).
  - reflexivity.
  - reflexivity.
  - reflexivity.
  - discriminate.
Defined.

(** ** The conversion and the manual integration time *)

Lemma lux_manual {num : Type} {PN : PyNum num} (channels : Z * Z) (w : World) :
  _integration_time (self w) = Some 0 ->
  _lux channels w = (Raise ValueError, w).
Proof.
  intros Ht. unfold _lux, bind, get_self. rewrite Ht. reflexivity.
Qed.

(** X9: the outcomes of [_lux], in any arithmetic.  With the manual
    integration time 0 it raises [ValueError].  With a preset integration time
    and a gain that is not 0 it always returns, also for a zero channel 0,
    without touching the driver or the bus, and the result is [None] exactly
    when one of the two counts exceeds the clip level of the profile. *)
Theorem lux_outcomes :
  forall (num : Type) (PN : PyNum num) (w : World) (channels : Z * Z),
    (_integration_time (self w) = Some 0 ->
     _lux channels w = (Raise ValueError, w)) /\
    (forall g t p,
        _gain (self w) = Some g -> g <> 0 ->
        _integration_time (self w) = Some t -> t <> 0 ->
        dict_get _INTEGRATION_TIME t = Some p ->
        exists lux, _lux channels w = (Ok lux, w) /\
                    (lux = None <-> fst channels > p_clip p \/ snd channels > p_clip p)).
Proof.
  intros num PN w [vnir ir]. split; [apply lux_manual|].
  intros g t p Hg Hgz Ht Hnz Hp. cbn [fst snd].
  unfold _lux, bind, get_self, getitem, as_int, ret, attr_eqb.
  rewrite Ht. apply Z.eqb_neq in Hnz. rewrite Hnz, Hp.
  destruct ((vnir >? p_clip p) || (ir >? p_clip p)) eqn:Hc.
  - eexists; split; [reflexivity|]. split; [intros _|reflexivity].
    apply orb_true_iff in Hc. destruct Hc as [Hc | Hc]; apply Z.gtb_lt in Hc; lia.
  - rewrite Hg. apply Z.eqb_neq in Hgz. rewrite Hgz.
    destruct (lux_scale_loop _ _) as [b m]. eexists; split; [reflexivity|].
    split; [discriminate|]. intros Hs. exfalso.
    apply orb_false_iff in Hc. destruct Hc as [C1 C2].
    rewrite Z.gtb_ltb in C1, C2. apply Z.ltb_ge in C1, C2. lia.
Qed.

Lemma lux_outcomes_witness :
  exists lux,
    _lux (PN := float_num) (0, 0) (driver_at TSL2561_LUX_SCALE None 16 13) =
    (Ok lux, driver_at TSL2561_LUX_SCALE None 16 13) /\
    (lux = None <-> 0 > 4900 \/ 0 > 4900).
Proof.
  apply (proj2 (lux_outcomes PrimFloat.float float_num
                  (driver_at TSL2561_LUX_SCALE None 16 13) (0, 0))
           16 13 (mkProfile 0x00 15 4900 100 4850 0x7517)).
  - reflexivity.
  - discriminate.
  - reflexivity.
  - discriminate.
  - reflexivity.
Defined.

(** X10: reading with the manual integration time (0).  A plain read
    performs its raw read in every case; with [raw=True] it returns the
    counts; without it the conversion raises [ValueError] after the read; and
    with [autogain=True] the call raises [ValueError] after the read whatever
    [raw] is. *)
Theorem read_in_manual_mode :
  forall (num : Type) (PN : PyNum num) (dev : Device) (fuel : nat) (w : World),
    _gain (self w) <> None ->
    _integration_time (self w) = Some 0 ->
    exists vnir ir w1,
      _read dev (reset_hdr w) = (Ok (vnir, ir), w1) /\
      read dev fuel false false true w = (Ok (Counts vnir ir), w1) /\
      read dev fuel false false false w = (Raise ValueError, w1) /\
      (forall raw, read dev fuel true false raw w = (Raise ValueError, w1)).
Proof.
  intros num PN dev fuel w Hg Ht.
  assert (Hg0 : _gain (self (reset_hdr w)) <> None) by exact Hg.
  assert (Ht0 : _integration_time (self (reset_hdr w)) = Some 0) by exact Ht.
  pose proof (read_raw_spec dev (reset_hdr w) 0 (mkProfile 0x03 0 0 0 0 0)
                Hg0 Ht0 eq_refl) as K.
  destruct (hoare_total _ _ _ K) as ([vnir ir] & w1 & E1 & _ & _ & Hs & _).
  destruct (settings_eq _ _ Hs) as (_ & _ & Ht1 & _).
  rewrite Ht0 in Ht1.
  exists vnir, ir, w1. split; [exact E1|].
  assert (R : forall autogain raw,
             read dev fuel autogain false raw w =
             bind (_read dev)
               (fun x => let (vnir, ir) := x in
                  bind (if autogain then
                          bind get_self (fun s =>
                            if attr_eqb (_integration_time s) 0 then raise ValueError
                            else bind (getitem _INTEGRATION_TIME (_integration_time s))
                                   (fun p =>
                                      let new_gain :=
                                        if vnir <? p_min p then Some 16
                                        else if vnir >? p_max p then Some 1
                                        else _gain s in
                                      if opt_Z_eqb new_gain (_gain s) then ret (vnir, ir)
                                      else bind (gain dev new_gain) (fun _ => _read dev)))
                        else ret (vnir, ir))
                    (fun y => let (vnir, ir) := y in
                       if raw then ret (Counts vnir ir)
                       else bind (_lux (vnir, ir)) (fun lux => ret (Lux lux))))
               (reset_hdr w)) by reflexivity.
  split; [|split].
  - rewrite R, (bind_ok _ _ _ _ _ E1). reflexivity.
  - rewrite R, (bind_ok _ _ _ _ _ E1). cbv beta iota.
    unfold bind at 1. unfold ret at 1. cbv beta iota.
    apply bind_raise. apply lux_manual. exact Ht1.
  - intros raw. rewrite R, (bind_ok _ _ _ _ _ E1). cbv beta iota.
    apply bind_raise. unfold bind, get_self. rewrite Ht1. reflexivity.
Qed.

Lemma read_in_manual_mode_witness :
  exists vnir ir w1,
    _read (fixed_device 1000 500)
      (reset_hdr (driver_at TSL2561_LUX_SCALE (Some 2) 16 0)) = (Ok (vnir, ir), w1) /\
    read (PN := float_num) (fixed_device 1000 500) 1 false false true
      (driver_at TSL2561_LUX_SCALE (Some 2) 16 0) = (Ok (Counts vnir ir), w1) /\
    read (PN := float_num) (fixed_device 1000 500) 1 false false false
      (driver_at TSL2561_LUX_SCALE (Some 2) 16 0) = (Raise ValueError, w1) /\
    (forall raw,
        read (PN := float_num) (fixed_device 1000 500) 1 true false raw
          (driver_at TSL2561_LUX_SCALE (Some 2) 16 0) = (Raise ValueError, w1)).
Proof.
  apply (read_in_manual_mode PrimFloat.float float_num (fixed_device 1000 500) 1
           (driver_at TSL2561_LUX_SCALE (Some 2) 16 0)).
  - discriminate.
  - reflexivity.
Defined.

(** ** Thresholds *)

Lemma persistence_range (byte : Z) : -1 <= persistence byte <= 15.
Proof.
  unfold persistence. destruct (_ =? 0); [lia|].
  change (Z.land byte 0x0f) with (Z.land byte (Z.ones 4)).
  rewrite Z.land_ones by lia.
  pose proof (Z.mod_pos_bound byte 16 eq_refl) as B.
  change (2 ^ 4) with 16. lia.
Qed.

(** X11: [threshold()] without arguments only reads.  It reads the low
    threshold word, the high threshold word and the interrupt byte, in that
    order, writes nothing, leaves the driver object and the power state alone,
    and reports a persistence of -1 when the level bit 0x10 of the byte is
    clear and the low nibble otherwise: a value within -1..15. *)
Theorem threshold_get :
  forall (dev : Device) (w : World),
    exists lo hi byte,
      threshold dev None None None w =
      (Ok (Some (persistence byte, lo, hi)),
       mkWorld (self w)
         (bus w ++
          [ReadU16 (Z.lor _REGISTER_THRESHHOLD_MIN (Z.lor _COMMAND_BIT _WORD_BIT)) lo;
           ReadU16 (Z.lor _REGISTER_THRESHHOLD_MAX (Z.lor _COMMAND_BIT _WORD_BIT)) hi;
           ReadU8 (Z.lor _REGISTER_INTERRUPT _COMMAND_BIT) byte])) /\
      -1 <= persistence byte <= 15.
Proof.
  intros dev w.
  assert (K : hoare (threshold dev None None None) w
                (fun r w' =>
                   exists lo hi byte,
                     r = Some (persistence byte, lo, hi) /\
                     w' =
                     mkWorld (self w)
                       (bus w ++
                        [ReadU16 (Z.lor _REGISTER_THRESHHOLD_MIN
                                    (Z.lor _COMMAND_BIT _WORD_BIT)) lo;
                         ReadU16 (Z.lor _REGISTER_THRESHHOLD_MAX
                                    (Z.lor _COMMAND_BIT _WORD_BIT)) hi;
                         ReadU8 (Z.lor _REGISTER_INTERRUPT _COMMAND_BIT) byte]))
                (fun _ => False)).
  { destruct w as [s tr]. unfold threshold. cbn [is_none andb]. unfold_bus.
    hoare_run.
    all: do 3 eexists; (split; [unfold persistence; try rewrite Heqb; reflexivity|]).
    all: same_world. }
  destruct (hoare_total _ _ _ K) as (r & w' & E & lo & hi & byte & -> & ->).
  exists lo, hi, byte. split; [exact E | apply persistence_range].
Qed.

Lemma threshold_set_eq :
  forall (dev : Device) (w : World) (b : bool) (cycles min_value max_value : option Z),
    _active (self w) = Some b ->
    (cycles <> None \/ min_value <> None \/ max_value <> None) ->
    threshold dev cycles min_value max_value w =
    (Ok None,
     mkWorld (self w)
       (bus w ++
        (if b then [] else [Write8 (Z.lor _REGISTER_CONTROL _COMMAND_BIT)
                              _CONTROL_POWERON]) ++
        threshold_writes cycles min_value max_value ++
        (if b then [] else [Write8 (Z.lor _REGISTER_CONTROL _COMMAND_BIT)
                              _CONTROL_POWEROFF]))).
Proof.
  intros dev w b c lo hi Hb Hset.
  assert (K : hoare (threshold dev c lo hi) w
                (fun r w' =>
                   r = None /\
                   w' =
                   mkWorld (self w)
                     (bus w ++
                      (if b then [] else [Write8 (Z.lor _REGISTER_CONTROL _COMMAND_BIT)
                                            _CONTROL_POWERON]) ++
                      threshold_writes c lo hi ++
                      (if b then [] else [Write8 (Z.lor _REGISTER_CONTROL _COMMAND_BIT)
                                            _CONTROL_POWEROFF])))
                (fun _ => False)).
  { destruct w as [s tr]. fields.
    destruct lo as [lo|], hi as [hi|], c as [c|];
      try (exfalso; destruct Hset as [H | [H | H]]; congruence); clear Hset.
    all: unfold threshold; cbn [is_none andb].
    all: destruct b; unfold_bus; unfold threshold_writes, interrupt_byte; hoare_run.
    all: split; [reflexivity|].
    all: same_world. }
  destruct (hoare_total _ _ _ K) as (r & w' & E & -> & ->). exact E.
Qed.

Lemma threshold_get_eq (dev : Device) (w : World) :
  threshold dev None None None w =
  let lo := dev (bus w) (Z.lor _REGISTER_THRESHHOLD_MIN (Z.lor _COMMAND_BIT _WORD_BIT)) in
  let log1 := bus w ++ [ReadU16 (Z.lor _REGISTER_THRESHHOLD_MIN
                                   (Z.lor _COMMAND_BIT _WORD_BIT)) lo] in
  let hi := dev log1 (Z.lor _REGISTER_THRESHHOLD_MAX (Z.lor _COMMAND_BIT _WORD_BIT)) in
  let log2 := log1 ++ [ReadU16 (Z.lor _REGISTER_THRESHHOLD_MAX
                                  (Z.lor _COMMAND_BIT _WORD_BIT)) hi] in
  let byte := dev log2 (Z.lor _REGISTER_INTERRUPT _COMMAND_BIT) in
  (Ok (Some (persistence byte, lo, hi)),
   mkWorld (self w) (log2 ++ [ReadU8 (Z.lor _REGISTER_INTERRUPT _COMMAND_BIT) byte])).
Proof. reflexivity. Qed.

Lemma last_written_app (register : Z) (l l' : list event) :
  last_written register (l ++ l') =
  match last_written register l' with
  | Some v => Some v
  | None => last_written register l
  end.
Proof.
  induction l as [|e l IH]; cbn [app last_written].
  - destruct (last_written register l'); reflexivity.
  - rewrite IH. destruct (last_written register l'); reflexivity.
Qed.

Lemma persistence_interrupt_byte (c : Z) :
  persistence (interrupt_byte c) = if c =? -1 then -1 else Z.min 15 (Z.max 0 c).
Proof.
  unfold interrupt_byte. destruct (c =? -1); [reflexivity|].
  remember (Z.min 15 (Z.max 0 c)) as m eqn:Hm.
  assert (B : 0 <= m <= 15) by lia. clear Hm.
  assert (C : m = 0 \/ m = 1 \/ m = 2 \/ m = 3 \/ m = 4 \/ m = 5 \/ m = 6 \/ m = 7 \/
              m = 8 \/ m = 9 \/ m = 10 \/ m = 11 \/ m = 12 \/ m = 13 \/ m = 14 \/
              m = 15) by lia.
  repeat (destruct C as [-> | C]; [reflexivity|]). subst m. reflexivity.
Qed.

(** X12: the bus traffic of [threshold] in set mode.  With the power state
    known, the call writes the arguments that are given, in the order low
    threshold, high threshold, interrupt byte, bracketed by power on and power
    off when the device was off, and leaves the driver object as it was.  The
    interrupt byte is 0 for a persistence of -1 and otherwise the persistence
    clamped to 0..15 with the level bit: a value within 0x10..0x1F. *)
Theorem threshold_set_trace :
  forall (dev : Device) (w : World) (b : bool) (cycles min_value max_value : option Z),
    _active (self w) = Some b ->
    (cycles <> None \/ min_value <> None \/ max_value <> None) ->
    threshold dev cycles min_value max_value w =
    (Ok None,
     mkWorld (self w)
       (bus w ++
        (if b then [] else [Write8 (Z.lor _REGISTER_CONTROL _COMMAND_BIT)
                              _CONTROL_POWERON]) ++
        threshold_writes cycles min_value max_value ++
        (if b then [] else [Write8 (Z.lor _REGISTER_CONTROL _COMMAND_BIT)
                              _CONTROL_POWEROFF]))) /\
    (forall c, cycles = Some c ->
               interrupt_byte c = 0 \/ 16 <= interrupt_byte c <= 31).
Proof.
  intros dev w b c lo hi Hb Hset. split.
  - exact (threshold_set_eq dev w b c lo hi Hb Hset).
  - intros v _. unfold interrupt_byte. destruct (v =? -1); [left; reflexivity|].
    right. remember (Z.min 15 (Z.max 0 v)) as m eqn:Hm.
    assert (C : m = 0 \/ m = 1 \/ m = 2 \/ m = 3 \/ m = 4 \/ m = 5 \/ m = 6 \/ m = 7 \/
                m = 8 \/ m = 9 \/ m = 10 \/ m = 11 \/ m = 12 \/ m = 13 \/ m = 14 \/
                m = 15) by lia.
    clear Hm.
    repeat (destruct C as [-> | C]; [vm_compute; split; discriminate|]).
    subst m. vm_compute; split; discriminate.
Qed.

Lemma threshold_set_trace_witness :
  threshold (fixed_device 1000 500) (Some 20) (Some 100) None
    (standby (driver_at TSL2561_LUX_SCALE None 16 13)) =
  (Ok None,
   mkWorld (self (standby (driver_at TSL2561_LUX_SCALE None 16 13)))
     [Write8 (Z.lor _REGISTER_CONTROL _COMMAND_BIT) _CONTROL_POWERON;
      WriteU16 (Z.lor _REGISTER_THRESHHOLD_MIN (Z.lor _COMMAND_BIT _WORD_BIT)) 100;
      Write8 (Z.lor _REGISTER_INTERRUPT _COMMAND_BIT) 0x1F;
      Write8 (Z.lor _REGISTER_CONTROL _COMMAND_BIT) _CONTROL_POWEROFF]).
Proof.
  refine (proj1 (threshold_set_trace (fixed_device 1000 500)
                   (standby (driver_at TSL2561_LUX_SCALE None 16 13)) false
                   (Some 20) (Some 100) None _ _)).
  - reflexivity.
  - left. discriminate.
Defined.

Lemma register_file_echoes : echoes register_file.
Proof. intros log r v H. unfold register_file. rewrite H. reflexivity. Qed.

(** X13: thresholds round-trip on a device that reads back what was
    written.  After [threshold] in set mode, [threshold()] returns the low and
    high thresholds that were given, and for a persistence [c] that was given
    it returns -1 when [c] is -1 and [c] clamped to 0..15 otherwise. *)
Theorem threshold_round_trip :
  forall (dev : Device) (w : World) (b : bool) (cycles min_value max_value : option Z),
    echoes dev ->
    _active (self w) = Some b ->
    (cycles <> None \/ min_value <> None \/ max_value <> None) ->
    exists w1 c lo hi w2,
      threshold dev cycles min_value max_value w = (Ok None, w1) /\
      threshold dev None None None w1 = (Ok (Some (c, lo, hi)), w2) /\
      (forall v, min_value = Some v -> lo = v) /\
      (forall v, max_value = Some v -> hi = v) /\
      (forall v, cycles = Some v -> c = if v =? -1 then -1 else Z.min 15 (Z.max 0 v)) /\
      self w2 = self w.
Proof.
  intros dev w b c lo hi Hdev Hb Hset.
  eexists. do 4 eexists.
  split; [exact (threshold_set_eq dev w b c lo hi Hb Hset)|].
  split; [rewrite threshold_get_eq; cbv zeta; reflexivity|].
  cbn [bus self].
  split; [|split; [|split; [|reflexivity]]].
  - intros v ->. apply Hdev.
    repeat rewrite last_written_app.
    destruct b; repeat match goal with o : option Z |- _ => destruct o end;
      reflexivity.
  - intros v ->. apply Hdev.
    repeat rewrite last_written_app.
    destruct b; repeat match goal with o : option Z |- _ => destruct o end;
      reflexivity.
  - intros v ->. rewrite <- persistence_interrupt_byte. f_equal. apply Hdev.
    repeat rewrite last_written_app.
    destruct b; repeat match goal with o : option Z |- _ => destruct o end;
      reflexivity.
Qed.

Lemma threshold_round_trip_witness :
  exists w1 w2,
    threshold register_file (Some 3) (Some 100) (Some 2000)
      (driver_at TSL2561_LUX_SCALE None 16 13) = (Ok None, w1) /\
    threshold register_file None None None w1 = (Ok (Some (3, 100, 2000)), w2).
Proof.
  destruct (threshold_round_trip register_file
              (driver_at TSL2561_LUX_SCALE None 16 13) true
              (Some 3) (Some 100) (Some 2000) register_file_echoes eq_refl
              (or_introl (fun H => eq_ind (Some 3) (fun o => match o with
                                                             | Some _ => True
                                                             | None => False
                                                             end) I None H)))
    as (w1 & c & lo & hi & w2 & A & B & Hlo & Hhi & Hc & _).
  rewrite (Hlo 100 eq_refl), (Hhi 2000 eq_refl), (Hc 3 eq_refl) in B.
  exists w1, w2. split; [exact A | exact B].
Defined.


(** ** The HDR search *)


Lemma hdr_retune (dev : Device) (w : World) (h : Z) :
  operating w -> _hdr (self w) = Some h -> 0 <= h <= 5 ->
  hoare (bind (hdr_update_range dev) (fun _ => ret (@None (Z * Z)))) w
    (fun r w' =>
       r = None /\ at_tier w' /\ _hdr (self w') = Some h /\ same_raw_reads w w' /\
       operating w')
    (fun _ => False).
Proof.
  intros (Hgain & (t0 & p0 & Ht0 & Hp0) & (b & Hb)) Hh Hrange.
  destruct (hdr_keys h Hrange) as [v Hv].
  destruct (hdr_lookup h v Hv) as (_ & _ & _ & Hg & Ht).
  apply hoare_bind.
  unfold hdr_update_range. hoare_step. hoare_step. hoare_step.
  unfold getitem. rewrite Hh, Hv. hoare_step.
  eapply hoare_conseq;
    [apply (update_range_spec dev (Some (tier_gain v)) (Some (tier_time v)) w)
    | | auto].
  - intros x Hx. injection Hx as <-. exact Hg.
  - intros y Hy. injection Hy as <-. exact Ht.
  - intros y _. exists t0, p0. split; assumption.
  - intros _ w' (Hs & Hc). cbv beta. apply hoare_ret.
    assert (Hh' : _hdr (self w') = Some h) by (rewrite Hs; exact Hh).
    split; [reflexivity|]. split; [|split; [exact Hh' | split; [exact Hc|]]].
    + exists h, v. rewrite Hs. repeat split; try assumption.
    + unfold operating. rewrite Hs. fields. split; [|split].
      * destruct Hg as [-> | ->]; auto.
      * destruct (dict_get _INTEGRATION_TIME (tier_time v)) as [p|] eqn:Ep;
          [|contradiction].
        exists (tier_time v), p. auto.
      * exists b. exact Hb.
Qed.

Lemma hdr_body_moves (dev : Device) (w : World) :
  operating w -> hdr_in_range w ->
  hoare (hdr_body dev) w
    (fun r w' =>
       raw_reads (bus w') = S (raw_reads (bus w)) /\
       match r with
       | None => at_tier w'
       | Some _ => settings (self w') = settings (self w) /\ _hdr (self w) <> None
       end)
    (fun _ => False).
Proof.
  intros Hop Hr.
  pose proof Hop as (Hgain & (t0 & p0 & Ht0 & Hp0) & _).
  assert (Hg0 : _gain (self w) <> None) by (destruct Hgain; congruence).
  unfold hdr_body. apply hoare_bind.
  apply hoare_conseq with
    (Q := fun r w' =>
            (raw_reads (bus w') = S (raw_reads (bus w)) /\
             (exists log0 log1,
                 fst r = dev log0 CHANNEL0_WORD /\ snd r = dev log1 CHANNEL1_WORD) /\
             settings (self w') = settings (self w) /\
             (forall b, _active (self w) = Some b -> self w' = self w)) /\
            operating w')
    (E := fun w' => False /\ operating w').
  - apply hoare_and.
    + apply (read_raw_spec dev w t0 p0 Hg0 Ht0 Hp0).
    + apply read_raw_operating. exact Hop.
  - intros [vnir ir] w1 ((Hc & _ & Hs & _) & Hop1). cbv beta iota.
    destruct (settings_eq _ _ Hs) as (Hh1 & _).
    unfold hdr_in_range in Hr. rewrite <- Hh1 in Hr.
    hoare_step. hoare_step.
    destruct (_hdr (self w1)) as [h|] eqn:Eh.
    + hoare_step.
      * unfold_bus. hoare_step. hoare_step.
        eapply hoare_conseq;
          [apply (hdr_retune dev _ h); [exact Hop1 | exact Eh | exact Hr] | | auto].
        intros r w' (-> & Hat & _ & Hsame & _). cbn [bus] in Hsame |- *.
        unfold same_raw_reads in Hsame. cbn [bus] in Hsame.
        rewrite raw_reads_snoc in Hsame. cbn [is_raw_read] in Hsame.
        split; [lia | exact Hat].
      * destruct (hdr_keys h Hr) as [v Hv].
        hoare_step. unfold getitem. rewrite Hv. hoare_step.
        destruct (hdr_lookup h v Hv) as (_ & Hmax & Hmin & _).
        hoare_step; [|hoare_step].
        -- assert (tier_max v <> None)
             by (destruct (tier_max v); [discriminate | discriminate Heqb0]).
           hoare_step. hoare_step.
           eapply hoare_conseq;
             [apply (hdr_retune dev _ (h + 1));
              [exact Hop1 | reflexivity | specialize (Hmax H); lia] | | auto].
           intros r w' (-> & Hat & _ & Hsame & _).
           unfold same_raw_reads in Hsame. cbn [bus] in Hsame.
           split; [lia | exact Hat].
        -- assert (tier_min v <> None)
             by (destruct (tier_min v); [discriminate | discriminate Heqb1]).
           hoare_step. hoare_step.
           eapply hoare_conseq;
             [apply (hdr_retune dev _ (h - 1));
              [exact Hop1 | reflexivity | specialize (Hmin H); lia] | | auto].
           intros r w' (-> & Hat & _ & Hsame & _).
           unfold same_raw_reads in Hsame. cbn [bus] in Hsame.
           split; [lia | exact Hat].
        -- hoare_step. split; [exact Hc|]. split; [exact Hs|].
           rewrite <- Hh1. discriminate.
    + hoare_step. hoare_step.
      eapply hoare_conseq;
        [apply (hdr_retune dev _ 0); [exact Hop1 | reflexivity | lia] | | auto].
      intros r w' (-> & Hat & _ & Hsame & _).
      unfold same_raw_reads in Hsame. cbn [bus] in Hsame.
      split; [lia | exact Hat].
  - intros w' [[] _].
Qed.

Lemma bind_out_of_fuel {A B : Type} (c : M A) (k : A -> M B) (w w' : World) :
  c w = (OutOfFuel, w') -> bind c k w = (OutOfFuel, w').
Proof. intros H. unfold bind. rewrite H. reflexivity. Qed.


Lemma at_tier_settings (w w' : World) :
  settings (self w') = settings (self w) -> at_tier w -> at_tier w'.
Proof.
  intros Hs (h & t & Hh & Ht & Hg & Hi).
  destruct (settings_eq _ _ Hs) as (A & B & C & _).
  exists h, t. rewrite A, B, C. auto.
Qed.

Lemma hdr_body_total (dev : Device) (w : World) :
  operating w -> hdr_in_range w ->
  exists r w1,
    hdr_body dev w = (Ok r, w1) /\ operating w1 /\ hdr_in_range w1 /\
    raw_reads (bus w1) = S (raw_reads (bus w)) /\
    match r with
    | None => at_tier w1
    | Some _ => settings (self w1) = settings (self w) /\ _hdr (self w) <> None
    end.
Proof.
  intros Hop Hr.
  assert (K : hoare (hdr_body dev) w
                (fun r w1 =>
                   (raw_reads (bus w1) = S (raw_reads (bus w)) /\
                    match r with
                    | None => at_tier w1
                    | Some _ => settings (self w1) = settings (self w) /\
                                _hdr (self w) <> None
                    end) /\ operating w1 /\ hdr_in_range w1)
                (fun _ => False)).
  { eapply hoare_conseq.
    - apply hoare_and; [apply (hdr_body_moves dev w Hop Hr)|].
      apply hoare_and; [apply (hdr_body_operating dev w Hop)|].
      apply (hdr_body_range dev w Hr).
    - intros r w1 (A & B & (h & Hh & Hrange)). split; [exact A|].
      split; [exact B|]. unfold hdr_in_range. rewrite Hh. exact Hrange.
    - intros w1 [[] _]. }
  destruct (hoare_total _ _ _ K) as (r & w1 & E & (A & B) & C & D).
  exists r, w1. auto.
Qed.

Lemma hdr_loop_outcome (dev : Device) (fuel : nat) (w : World) :
  operating w -> hdr_in_range w ->
  match hdr_loop dev fuel w with
  | (Ok _, w') =>
      operating w' /\
      (S (raw_reads (bus w)) <= raw_reads (bus w') <= raw_reads (bus w) + fuel)%nat /\
      (_hdr (self w) = None \/ at_tier w -> at_tier w') /\
      (_hdr (self w) = None -> (raw_reads (bus w) + 2 <= raw_reads (bus w'))%nat)
  | (Raise _, _) => False
  | (OutOfFuel, _) => True
  end.
Proof.
  revert w. induction fuel as [|n IH]; intros w Hop Hr; [exact I|].
  destruct (hdr_body_total dev w Hop Hr) as (r & w1 & E & Hop1 & Hr1 & Hc & Hm).
  cbn [hdr_loop]. rewrite (bind_ok _ _ _ _ _ E).
  destruct r as [channels|].
  - unfold ret. destruct Hm as (Hs & Hn).
    split; [exact Hop1|]. split; [lia|]. split.
    + intros [Hnone | Hat]; [contradiction|]. exact (at_tier_settings _ _ Hs Hat).
    + intros Hnone. contradiction.
  - specialize (IH w1 Hop1 Hr1).
    destruct (hdr_loop dev n w1) as [[a|e|] w2]; [|exact IH|exact I].
    destruct IH as (Hop2 & Hb & Hat & _).
    split; [exact Hop2|]. split; [lia|]. split.
    + intros _. apply Hat. right. exact Hm.
    + intros _. lia.
Qed.

Lemma ror_ret {A : Type} (a : A) : returns_or_raises (ret a).
Proof. intros w. discriminate. Qed.

Lemma ror_raise {A : Type} (e : exn) : returns_or_raises (@raise A e).
Proof. intros w. discriminate. Qed.

Lemma ror_get_self : returns_or_raises get_self.
Proof. intros w. discriminate. Qed.

Lemma ror_bind {A B : Type} (c : M A) (k : A -> M B) :
  returns_or_raises c -> (forall a, returns_or_raises (k a)) ->
  returns_or_raises (bind c k).
Proof.
  intros Hc Hk w. unfold bind. specialize (Hc w).
  destruct (c w) as [[a|e|] w']; cbn [fst] in *.
  - apply Hk.
  - discriminate.
  - exfalso. apply Hc. reflexivity.
Qed.

Lemma ror_getitem {V : Type} (d : list (Z * V)) (key : option Z) :
  returns_or_raises (getitem d key).
Proof.
  unfold getitem. destruct key as [k|]; [|apply ror_raise].
  destruct (dict_get d k); [apply ror_ret | apply ror_raise].
Qed.

Lemma ror_as_int (v : option Z) : returns_or_raises (as_int v).
Proof. destruct v; [apply ror_ret | apply ror_raise]. Qed.

Lemma lux_returns_or_raises {num : Type} {PN : PyNum num} (channels : Z * Z) :
  returns_or_raises (_lux channels).
Proof.
  unfold _lux.
  repeat (intros; cbv zeta;
          lazymatch goal with
          | |- returns_or_raises (bind _ _) => apply ror_bind
          | |- returns_or_raises (if ?b then _ else _) => destruct b
          | |- returns_or_raises (match ?x with _ => _ end) => destruct x
          | |- returns_or_raises _ =>
              first [ apply ror_ret | apply ror_raise | apply ror_get_self
                    | apply ror_getitem | apply ror_as_int ]
          end).
Qed.


(** What [read(hdr=True)] does after its loop: it records the counts and
    converts them; the bus and the settings are as the loop left them, and
    the budget of iterations plays no part. *)
Lemma read_hdr_tail {num : Type} {PN : PyNum num} (vnir ir : Z) (w : World) :
  let (o, w') :=
    bind (modify (set_last (Some vnir) (Some ir)))
      (fun _ => bind (_lux (vnir, ir)) (fun lux => ret (Lux lux))) w in
  o <> OutOfFuel /\ bus w' = bus w /\ settings (self w') = settings (self w) /\
  last_vnir (self w') = Some vnir /\ last_ir (self w') = Some ir.
Proof.
  set (w2 := mkWorld (set_last (Some vnir) (Some ir) (self w)) (bus w)).
  assert (R : bind (modify (set_last (Some vnir) (Some ir)))
                (fun _ => bind (_lux (vnir, ir)) (fun lux => ret (Lux lux))) w =
              bind (_lux (vnir, ir)) (fun lux => ret (Lux lux)) w2) by reflexivity.
  rewrite R. clear R.
  pose proof (lux_world (vnir, ir) w2) as L. cbv beta in L.
  pose proof (lux_returns_or_raises (vnir, ir) w2) as N.
  unfold bind. destruct (_lux (vnir, ir) w2) as [[lux|e|] w3]; cbn [snd fst] in L, N.
  - subst w3. unfold ret. repeat split. discriminate.
  - subst w3. repeat split. discriminate.
  - contradiction.
Qed.

Lemma hdr_body_rule (dev : Device) (w : World) :
  operating w -> hdr_in_range w ->
  exists vnir ir w1 r w',
    _read dev w = (Ok (vnir, ir), w1) /\
    (exists log0 log1, vnir = dev log0 CHANNEL0_WORD /\ ir = dev log1 CHANNEL1_WORD) /\
    hdr_body dev w = (Ok r, w') /\
    raw_reads (bus w') = S (raw_reads (bus w)) /\
    operating w' /\
    match _hdr (self w) with
    | None => r = None /\ _hdr (self w') = Some 0 /\ at_tier w'
    | Some h =>
        exists t, dict_get _HDR h = Some t /\
        match hdr_rule h t vnir ir with
        | Some h' => r = None /\ _hdr (self w') = Some h' /\ at_tier w'
        | None => r = Some (vnir, ir) /\ settings (self w') = settings (self w)
        end
    end.
Proof.
  intros Hop Hr.
  pose proof Hop as (Hgain & (t0 & p0 & Ht0 & Hp0) & _).
  assert (Hg0 : _gain (self w) <> None) by (destruct Hgain; congruence).
  assert (K1 : hoare (_read dev) w
                 (fun r w' =>
                    (raw_reads (bus w') = S (raw_reads (bus w)) /\
                     (exists log0 log1,
                         fst r = dev log0 CHANNEL0_WORD /\
                         snd r = dev log1 CHANNEL1_WORD) /\
                     settings (self w') = settings (self w) /\
                     (forall b, _active (self w) = Some b -> self w' = self w)) /\
                    operating w')
                 (fun _ => False)).
  { eapply hoare_conseq.
    - apply hoare_and.
      + apply (read_raw_spec dev w t0 p0 Hg0 Ht0 Hp0).
      + apply read_raw_operating. exact Hop.
    - auto.
    - intros w' [[] _]. }
  destruct (hoare_total _ _ _ K1)
    as ([vnir ir] & w1 & E1 & (Hc & (l0 & l1 & Hv & Hi) & Hs & _) & Hop1).
  cbn [fst snd] in Hv, Hi.
  destruct (settings_eq _ _ Hs) as (Hh1 & _).
  exists vnir, ir, w1.
  assert (K : hoare (hdr_body dev) w
                (fun r w' =>
                   raw_reads (bus w') = S (raw_reads (bus w)) /\
                   operating w' /\
                   match _hdr (self w) with
                   | None => r = None /\ _hdr (self w') = Some 0 /\ at_tier w'
                   | Some h =>
                       exists t, dict_get _HDR h = Some t /\
                       match hdr_rule h t vnir ir with
                       | Some h' => r = None /\ _hdr (self w') = Some h' /\ at_tier w'
                       | None => r = Some (vnir, ir) /\
                                 settings (self w') = settings (self w)
                       end
                   end)
                (fun _ => False)).
  { unfold hdr_body. apply hoare_bind. unfold hoare at 1. rewrite E1.
    cbv beta iota. unfold hdr_in_range in Hr. rewrite <- Hh1 in Hr |- *.
    hoare_step. hoare_step.
    destruct (_hdr (self w1)) as [h|] eqn:Eh.
    - destruct (hdr_keys h Hr) as [v Hv'].
      destruct (hdr_lookup h v Hv') as (_ & Hmax & Hmin & _).
      hoare_step.
      + unfold_bus. hoare_step. hoare_step.
        eapply hoare_conseq;
          [apply (hdr_retune dev _ h); [exact Hop1 | exact Eh | exact Hr] | | auto].
        intros r w' (-> & Hat & Hh' & Hsame & Hop').
        unfold same_raw_reads in Hsame. cbn [bus] in Hsame.
        rewrite raw_reads_snoc in Hsame. cbn [is_raw_read] in Hsame.
        split; [lia|]. split; [exact Hop'|].
        exists v. split; [first [exact Hv' | reflexivity]|]. unfold hdr_rule. rewrite Heqb. auto.
      + hoare_step. unfold getitem. rewrite Hv'. hoare_step.
        hoare_step; [|hoare_step].
        * assert (tier_max v <> None)
            by (destruct (tier_max v); [discriminate | discriminate Heqb0]).
          hoare_step. hoare_step.
          eapply hoare_conseq;
            [apply (hdr_retune dev _ (h + 1));
             [exact Hop1 | reflexivity | specialize (Hmax H); lia] | | auto].
          intros r w' (-> & Hat & Hh' & Hsame & Hop').
          unfold same_raw_reads in Hsame. cbn [bus] in Hsame.
          split; [lia|]. split; [exact Hop'|].
          exists v. split; [first [exact Hv' | reflexivity]|]. unfold hdr_rule. rewrite Heqb, Heqb0. auto.
        * assert (tier_min v <> None)
            by (destruct (tier_min v); [discriminate | discriminate Heqb1]).
          hoare_step. hoare_step.
          eapply hoare_conseq;
            [apply (hdr_retune dev _ (h - 1));
             [exact Hop1 | reflexivity | specialize (Hmin H); lia] | | auto].
          intros r w' (-> & Hat & Hh' & Hsame & Hop').
          unfold same_raw_reads in Hsame. cbn [bus] in Hsame.
          split; [lia|]. split; [exact Hop'|].
          exists v. split; [first [exact Hv' | reflexivity]|].
          unfold hdr_rule. rewrite Heqb, Heqb0, Heqb1. auto.
        * hoare_step. split; [exact Hc|]. split; [exact Hop1|].
          exists v. split; [first [exact Hv' | reflexivity]|].
          unfold hdr_rule. rewrite Heqb, Heqb0, Heqb1. auto.
    - hoare_step. hoare_step.
      eapply hoare_conseq;
        [apply (hdr_retune dev _ 0); [exact Hop1 | reflexivity | lia] | | auto].
      intros r w' (-> & Hat & Hh' & Hsame & Hop').
      unfold same_raw_reads in Hsame. cbn [bus] in Hsame.
      split; [lia|]. auto. }
  destruct (hoare_total _ _ _ K) as (r & w' & E & A & B & C).
  exists r, w'. split; [exact E1|]. split; [exists l0, l1; auto|].
  split; [exact E|]. auto.
Qed.

Lemma hdr_loop_accepted (dev : Device) (fuel : nat) (w w' : World) (channels : Z * Z) :
  hdr_body dev w = (Ok (Some channels), w') ->
  hdr_loop dev (S fuel) w = (Ok channels, w').
Proof. intros E. cbn [hdr_loop]. rewrite (bind_ok _ _ _ _ _ E). reflexivity. Qed.

Lemma hdr_loop_round (dev : Device) (fuel : nat) (w w' : World) :
  hdr_body dev w = (Ok None, w') ->
  hdr_loop dev (S fuel) w = hdr_loop dev fuel w'.
Proof. intros E. cbn [hdr_loop]. rewrite (bind_ok _ _ _ _ _ E). reflexivity. Qed.

Lemma read_hdr_unfold {num : Type} {PN : PyNum num} (dev : Device) (fuel : nat)
  (autogain raw : bool) (w : World) :
  read dev fuel autogain true raw w =
  bind (hdr_loop dev fuel)
    (fun x => let (vnir, ir) := x in
       bind (modify (set_last (Some vnir) (Some ir)))
         (fun _ => bind (_lux (vnir, ir)) (fun lux => ret (Lux lux)))) w.
Proof. reflexivity. Qed.

(** C2, amended: every call of [read] with [hdr=False] sets the HDR state to
    the uninitialized one (before its raw read, so also when the call ends
    in an exception).  A call of [read] with [hdr=True] does not reset it.
    Given the budget of one iteration, on a driver with a valid operating
    point, the call performs one raw read and then: from the uninitialized
    state it has set the index to 0 and has not returned (the loop goes round
    and reads again); from tier [h], left by an earlier HDR read, it has
    applied the rule of tier [h] to the counts read, so the index is where
    the rule puts it (at [h] while waiting, one up, one down) and the loop
    goes round, or the counts are accepted, the index is still [h] and the
    loop is over.  And with any budget, on a device whose counts the rule of
    tier [h] accepts, the call that starts at tier [h] ends after exactly one
    raw read with the index at [h] and the gain and the integration time it
    started with. *)
Theorem hdr_state_cleared_by_plain_read_only :
  forall (num : Type) (PN : PyNum num) (dev : Device) (w : World),
    (forall fuel autogain raw,
        _hdr (self (snd (read dev fuel autogain false raw w))) = None) /\
    (operating w -> hdr_in_range w ->
     forall autogain raw,
     exists vnir ir w1,
       _read dev w = (Ok (vnir, ir), w1) /\
       let (o, w') := read dev 1 autogain true raw w in
       raw_reads (bus w') = S (raw_reads (bus w)) /\
       match _hdr (self w) with
       | None => o = OutOfFuel /\ _hdr (self w') = Some 0
       | Some h =>
           exists t, dict_get _HDR h = Some t /\
           match hdr_rule h t vnir ir with
           | Some h' => o = OutOfFuel /\ _hdr (self w') = Some h'
           | None => o <> OutOfFuel /\ _hdr (self w') = Some h
           end
       end) /\
    (operating w ->
     forall h t,
       _hdr (self w) = Some h -> dict_get _HDR h = Some t ->
       (forall log0 log1,
           hdr_rule h t (dev log0 CHANNEL0_WORD) (dev log1 CHANNEL1_WORD) = None) ->
       forall fuel autogain raw,
         let (o, w') := read dev (S fuel) autogain true raw w in
         o <> OutOfFuel /\
         raw_reads (bus w') = S (raw_reads (bus w)) /\
         _hdr (self w') = Some h /\
         _gain (self w') = _gain (self w) /\
         _integration_time (self w') = _integration_time (self w)).
Proof.
  intros num PN dev w. split; [|split].
  - intros fuel autogain raw. apply plain_read_clears_hdr.
  - intros Hop Hr autogain raw.
    destruct (hdr_body_rule dev w Hop Hr)
      as (vnir & ir & w1 & r & w' & E1 & _ & E & Hc & _ & Hm).
    exists vnir, ir, w1. split; [exact E1|].
    rewrite read_hdr_unfold.
    destruct (_hdr (self w)) as [h|] eqn:Hh.
    + destruct Hm as (t & Ht & Hm).
      destruct (hdr_rule h t vnir ir) as [h'|] eqn:Hrule.
      * destruct Hm as (-> & Hh' & _).
        rewrite (bind_out_of_fuel _ _ w w');
          [|rewrite (hdr_loop_round dev 0 w w' E); reflexivity].
        split; [exact Hc|]. exists t. split; [exact Ht|]. rewrite Hrule. auto.
      * destruct Hm as (-> & Hs).
        rewrite (bind_ok _ _ _ _ _ (hdr_loop_accepted dev 0 w w' (vnir, ir) E)).
        pose proof (read_hdr_tail vnir ir w') as T.
        destruct (bind (modify (set_last (Some vnir) (Some ir)))
                    (fun _ => bind (_lux (vnir, ir)) (fun lux => ret (Lux lux))) w')
          as [o w2].
        destruct T as (To & Tb & Ts & _).
        destruct (settings_eq _ _ Ts) as (A & _).
        destruct (settings_eq _ _ Hs) as (B & _).
        split; [rewrite Tb; exact Hc|]. exists t. split; [exact Ht|].
        rewrite Hrule. split; [exact To|]. rewrite A, B. exact Hh.
    + destruct Hm as (-> & Hh' & _).
      rewrite (bind_out_of_fuel _ _ w w');
        [|rewrite (hdr_loop_round dev 0 w w' E); reflexivity].
      auto.
  - intros Hop h t Hh Ht Hdev fuel autogain raw.
    assert (Hr : hdr_in_range w).
    { unfold hdr_in_range. rewrite Hh. apply (hdr_lookup h t Ht). }
    destruct (hdr_body_rule dev w Hop Hr)
      as (vnir & ir & w1 & r & w' & E1 & (l0 & l1 & Hv & Hi) & E & Hc & _ & Hm).
    rewrite Hh in Hm. destruct Hm as (t' & Ht' & Hm).
    rewrite Ht in Ht'. injection Ht' as <-.
    rewrite Hv, Hi, Hdev in Hm. destruct Hm as (-> & Hs).
    rewrite read_hdr_unfold.
    rewrite (bind_ok _ _ _ _ _ (hdr_loop_accepted dev fuel w w' _ E)).
    pose proof (read_hdr_tail (dev l0 CHANNEL0_WORD) (dev l1 CHANNEL1_WORD) w') as T.
    destruct (bind (modify (set_last (Some (dev l0 CHANNEL0_WORD))
                              (Some (dev l1 CHANNEL1_WORD))))
                (fun _ => bind (_lux (dev l0 CHANNEL0_WORD, dev l1 CHANNEL1_WORD))
                            (fun lux => ret (Lux lux))) w')
      as [o w2].
    destruct T as (To & Tb & Ts & _).
    destruct (settings_eq _ _ Ts) as (A1 & A2 & A3 & _).
    destruct (settings_eq _ _ Hs) as (B1 & B2 & B3 & _).
    split; [exact To|]. split; [rewrite Tb; exact Hc|].
    rewrite A1, A2, A3, B1, B2, B3. auto.
Qed.

Lemma hdr_state_cleared_by_plain_read_only_witness :
  let (o, w') :=
    read (PN := float_num) (fixed_device 1000 500) 5 false true false
      (driver_at TSL2561_LUX_SCALE (Some 3) 16 13) in
  o <> OutOfFuel /\
  raw_reads (bus w') = S (raw_reads (bus (driver_at TSL2561_LUX_SCALE (Some 3) 16 13))) /\
  _hdr (self w') = Some 3 /\
  _gain (self w') = _gain (self (driver_at TSL2561_LUX_SCALE (Some 3) 16 13)) /\
  _integration_time (self w') =
  _integration_time (self (driver_at TSL2561_LUX_SCALE (Some 3) 16 13)).
Proof.
  refine (proj2 (proj2 (hdr_state_cleared_by_plain_read_only PrimFloat.float
                          float_num (fixed_device 1000 500)
                          (driver_at TSL2561_LUX_SCALE (Some 3) 16 13)))
            _ 3 (mkTier 16 13 (Some 252) (Some 4876)) _ _ _ 4%nat false false).
  - split; [right; reflexivity|].
    split; [exists 13, (mkProfile 0x00 15 4900 100 4850 0x7517); split; reflexivity|].
    exists true. reflexivity.
  - reflexivity.
  - reflexivity.
  - intros log0 log1. reflexivity.
Defined.





(** X15: the cost of an HDR read that returns.  It performs one raw read per
    iteration: at least one, at most as many as its budget of iterations, and
    at least two when the HDR state was uninitialized, since the first
    iteration only selects tier 0. *)
Theorem hdr_read_raw_reads :
  forall (num : Type) (PN : PyNum num) (dev : Device) (fuel : nat)
         (autogain raw : bool) (w : World) (r : reading) (w' : World),
    operating w -> hdr_in_range w ->
    read dev fuel autogain true raw w = (Ok r, w') ->
    (S (raw_reads (bus w)) <= raw_reads (bus w') <= raw_reads (bus w) + fuel)%nat /\
    (_hdr (self w) = None -> (raw_reads (bus w) + 2 <= raw_reads (bus w'))%nat).
Proof.
  intros num PN dev fuel autogain raw w r w' Hop Hr.
  pose proof (hdr_loop_outcome dev fuel w Hop Hr) as K.
  unfold read.
  destruct (hdr_loop dev fuel w) as [[[vnir ir]|e|] w1] eqn:E.
  - rewrite (bind_ok _ _ _ _ _ E).
    destruct K as (_ & Hb & _ & H2).
    set (w2 := mkWorld (set_last (Some vnir) (Some ir) (self w1)) (bus w1)).
    assert (R : bind (modify (set_last (Some vnir) (Some ir)))
                  (fun _ => bind (_lux (vnir, ir)) (fun lux => ret (Lux lux))) w1 =
                bind (_lux (vnir, ir)) (fun lux => ret (Lux lux)) w2) by reflexivity.
    rewrite R. intros Hread.
    assert (Hw : bus w' = bus w1).
    { pose proof (lux_world (vnir, ir) w2) as L. cbv beta in L.
      unfold bind in Hread.
      destruct (_lux (vnir, ir) w2) as [[lux|e|] w3]; cbn [snd] in L;
        [|discriminate Hread|discriminate Hread].
      unfold ret in Hread. injection Hread as _ <-. rewrite <- L. reflexivity. }
    rewrite Hw. split; assumption.
  - rewrite (bind_raise _ _ _ _ _ E). discriminate.
  - rewrite (bind_out_of_fuel _ _ _ _ E). discriminate.
Qed.

Lemma hdr_read_raw_reads_witness :
  exists r w',
    read (PN := float_num) (fixed_device 1000 500) 5 false true false
      (driver_at TSL2561_LUX_SCALE None 16 402) = (Ok r, w') /\
    (raw_reads (bus (driver_at TSL2561_LUX_SCALE None 16%Z 402%Z)) + 2 <=
     raw_reads (bus w'))%nat.
Proof.
  eexists. eexists. split; [vm_compute; reflexivity|].
  refine (proj2 (hdr_read_raw_reads PrimFloat.float float_num
                   (fixed_device 1000 500) 5 false false
                   (driver_at TSL2561_LUX_SCALE None 16 402) _ _ _ _ _) _).
  - split; [right; reflexivity|].
    split; [exists 402, (mkProfile 0x02 450 65000 500 63000 1024); split; reflexivity|].
    exists true. reflexivity.
  - exact I.
  - vm_compute. reflexivity.
  - reflexivity.
Defined.

Lemma hdr_body_thaw (dev : Device) (w : World) (h : Z) :
  operating w -> _hdr (self w) = Some h -> 1 <= h <= 5 ->
  (forall log, dev log CHANNEL0_WORD = 0 /\ dev log CHANNEL1_WORD = 0) ->
  hoare (hdr_body dev) w
    (fun r w' =>
       r = None /\ operating w' /\ _hdr (self w') = Some h /\
       raw_reads (bus w') = S (raw_reads (bus w)))
    (fun _ => False).
Proof.
  intros Hop Hh Hrange Hdev.
  pose proof Hop as (Hgain & (t0 & p0 & Ht0 & Hp0) & _).
  assert (Hg0 : _gain (self w) <> None) by (destruct Hgain; congruence).
  unfold hdr_body. apply hoare_bind.
  apply hoare_conseq with
    (Q := fun r w' =>
            (raw_reads (bus w') = S (raw_reads (bus w)) /\
             (exists log0 log1,
                 fst r = dev log0 CHANNEL0_WORD /\ snd r = dev log1 CHANNEL1_WORD) /\
             settings (self w') = settings (self w) /\
             (forall b, _active (self w) = Some b -> self w' = self w)) /\
            operating w')
    (E := fun w' => False /\ operating w').
  - apply hoare_and.
    + apply (read_raw_spec dev w t0 p0 Hg0 Ht0 Hp0).
    + apply read_raw_operating. exact Hop.
  - intros [vnir ir] w1 ((Hc & (l0 & l1 & Hv & Hi) & Hs & _) & Hop1).
    cbv beta iota. cbn [fst snd] in Hv, Hi.
    rewrite (proj1 (Hdev l0)) in Hv. rewrite (proj2 (Hdev l1)) in Hi. subst vnir ir.
    destruct (settings_eq _ _ Hs) as (Hh1 & _). rewrite Hh in Hh1.
    hoare_step. hoare_step. rewrite Hh1.
    assert (Hnz : (0 =? 0) && (0 =? 0) && negb (h =? 0) = true).
    { cbn [Z.eqb andb]. apply negb_true_iff. apply Z.eqb_neq. lia. }
    rewrite Hnz. unfold_bus. hoare_step. hoare_step.
    eapply hoare_conseq;
      [apply (hdr_retune dev _ h); [exact Hop1 | exact Hh1 | lia] | | auto].
    intros r w' (-> & Hat & Hh' & Hsame & Hop').
    unfold same_raw_reads in Hsame. cbn [bus] in Hsame.
    rewrite raw_reads_snoc in Hsame. cbn [is_raw_read] in Hsame.
    split; [reflexivity|]. split; [exact Hop'|]. split; [exact Hh'|]. lia.
  - intros w' [[] _].
Qed.

Lemma hdr_loop_thaw (dev : Device) (fuel : nat) (w : World) (h : Z) :
  operating w -> _hdr (self w) = Some h -> 1 <= h <= 5 ->
  (forall log, dev log CHANNEL0_WORD = 0 /\ dev log CHANNEL1_WORD = 0) ->
  exists w',
    hdr_loop dev fuel w = (OutOfFuel, w') /\
    raw_reads (bus w') = (raw_reads (bus w) + fuel)%nat /\
    _hdr (self w') = Some h.
Proof.
  intros Hop Hh Hrange Hdev. revert w Hop Hh.
  induction fuel as [|n IH]; intros w Hop Hh.
  - exists w. split; [reflexivity|]. split; [lia | exact Hh].
  - destruct (hoare_total _ _ _ (hdr_body_thaw dev w h Hop Hh Hrange Hdev))
      as (r & w1 & E & -> & Hop1 & Hh1 & Hc).
    destruct (IH w1 Hop1 Hh1) as (w' & El & Hc' & Hh').
    exists w'. cbn [hdr_loop]. rewrite (bind_ok _ _ _ _ _ E).
    split; [exact El|]. split; [lia | exact Hh'].
Qed.

(** X16: the HDR loop does not end on a device that keeps reading zero on
    both channels while the tier is not 0.  Every iteration takes the waiting
    branch, which leaves the tier where it is, so whatever the budget of
    iterations the call uses it up: one raw read per iteration and no
    result. *)
Theorem hdr_waits_forever_on_zero_counts :
  forall (num : Type) (PN : PyNum num) (dev : Device) (w : World) (h : Z),
    operating w -> _hdr (self w) = Some h -> 1 <= h <= 5 ->
    (forall log, dev log CHANNEL0_WORD = 0 /\ dev log CHANNEL1_WORD = 0) ->
    forall (fuel : nat) (autogain raw : bool),
    exists w',
      read dev fuel autogain true raw w = (OutOfFuel, w') /\
      raw_reads (bus w') = (raw_reads (bus w) + fuel)%nat /\
      _hdr (self w') = Some h.
Proof.
  intros num PN dev w h Hop Hh Hrange Hdev fuel autogain raw.
  destruct (hdr_loop_thaw dev fuel w h Hop Hh Hrange Hdev) as (w' & E & Hc & Hh').
  exists w'. unfold read. rewrite (bind_out_of_fuel _ _ _ _ E). auto.
Qed.

Lemma hdr_waits_forever_on_zero_counts_witness :
  exists w',
    read (PN := float_num) (fixed_device 0 0) 7 false true false
      (driver_at TSL2561_LUX_SCALE (Some 3) 16 101) = (OutOfFuel, w') /\
    raw_reads (bus w') =
    (raw_reads (bus (driver_at TSL2561_LUX_SCALE (Some 3%Z) 16%Z 101%Z)) + 7)%nat /\
    _hdr (self w') = Some 3.
Proof.
  refine (hdr_waits_forever_on_zero_counts PrimFloat.float float_num
            (fixed_device 0 0) (driver_at TSL2561_LUX_SCALE (Some 3) 16 101) 3
            _ _ _ _ 7%nat false false).
  - split; [right; reflexivity|].
    split; [exists 101, (mkProfile 0x01 120 37000 200 36000 0x0fe7); split; reflexivity|].
    exists true. reflexivity.
  - reflexivity.
  - lia.
  - intros log. split; reflexivity.
Defined.

(** X17: the precondition of X14 is needed.  At tier 0 with the manual
    integration time set by hand, an HDR read accepts the first counts (at or
    below 62258) and then fails in the conversion: the call raises
    [ValueError] after one raw read, with the last counts already recorded. *)
Theorem hdr_read_with_manual_time_raises :
  forall (num : Type) (PN : PyNum num) (dev : Device) (w : World)
         (fuel : nat) (autogain raw : bool),
    _hdr (self w) = Some 0 ->
    _gain (self w) <> None ->
    _integration_time (self w) = Some 0 ->
    (forall log, dev log CHANNEL0_WORD <= 62258 /\ dev log CHANNEL1_WORD <= 62258) ->
    exists w',
      read dev (S fuel) autogain true raw w = (Raise ValueError, w') /\
      raw_reads (bus w') = S (raw_reads (bus w)) /\
      last_vnir (self w') <> None.
Proof.
  intros num PN dev w fuel autogain raw Hh Hg Ht Hdev.
  destruct (hoare_total _ _ _
              (hdr_body_tier0 dev w 0 (mkProfile 0x03 0 0 0 0 0) Hh Hg Ht eq_refl Hdev))
    as (r & w1 & E & Hr & Hc & Hs).
  destruct r as [[vnir ir]|]; [|contradiction].
  destruct (settings_eq _ _ Hs) as (_ & _ & Ht1 & _). rewrite Ht in Ht1.
  set (w2 := mkWorld (set_last (Some vnir) (Some ir) (self w1)) (bus w1)).
  exists w2. split; [|split; [exact Hc | discriminate]].
  unfold read. cbn [hdr_loop].
  assert (El : hdr_loop dev (S fuel) w = (Ok (vnir, ir), w1)).
  { cbn [hdr_loop]. rewrite (bind_ok _ _ _ _ _ E). reflexivity. }
  rewrite (bind_ok _ _ _ _ _ El).
  assert (R : bind (modify (set_last (Some vnir) (Some ir)))
                (fun _ => bind (_lux (vnir, ir)) (fun lux => ret (Lux lux))) w1 =
              bind (_lux (vnir, ir)) (fun lux => ret (Lux lux)) w2) by reflexivity.
  rewrite R. apply bind_raise. apply lux_manual. exact Ht1.
Qed.

Lemma hdr_read_with_manual_time_raises_witness :
  exists w',
    read (PN := float_num) (fixed_device 1000 500) 1 false true false
      (driver_at TSL2561_LUX_SCALE (Some 0) 16 0) = (Raise ValueError, w') /\
    raw_reads (bus w') =
    S (raw_reads (bus (driver_at TSL2561_LUX_SCALE (Some 0) 16 0))) /\
    last_vnir (self w') <> None.
Proof.
  refine (hdr_read_with_manual_time_raises PrimFloat.float float_num
            (fixed_device 1000 500) (driver_at TSL2561_LUX_SCALE (Some 0) 16 0)
            0 false false _ _ _ _).
  - reflexivity.
  - discriminate.
  - reflexivity.
  - intros log. split; vm_compute; discriminate.
Defined.

(** ** The register map *)

Lemma access_emit (e : event) :
  register_access e = true -> stable (keeps on_register_map) (emit e).
Proof.
  intros H w Hw. unfold on_register_map in *.
  unfold emit, readU8, readU16. cbn [snd bus].
  rewrite forallb_app, Hw. cbn [forallb andb]. rewrite H. reflexivity.
Qed.

Lemma access_readU8 (dev : Device) (r : Z) :
  (forall v, register_access (ReadU8 r v) = true) ->
  stable (keeps on_register_map) (readU8 dev r).
Proof.
  intros H w Hw. unfold on_register_map in *.
  unfold emit, readU8, readU16. cbn [snd bus].
  rewrite forallb_app, Hw. cbn [forallb andb]. rewrite H. reflexivity.
Qed.

Lemma access_readU16 (dev : Device) (r : Z) :
  (forall v, register_access (ReadU16 r v) = true) ->
  stable (keeps on_register_map) (readU16 dev r).
Proof.
  intros H w Hw. unfold on_register_map in *.
  unfold emit, readU8, readU16. cbn [snd bus].
  rewrite forallb_app, Hw. cbn [forallb andb]. rewrite H. reflexivity.
Qed.

Lemma access_modify (f : TSL2561 -> TSL2561) :
  stable (keeps on_register_map) (modify f).
Proof. intros w H. exact H. Qed.

Ltac access_leaf :=
  first
    [ apply stable_ret | apply stable_raise | apply stable_out_of_fuel
    | apply stable_get_self | apply stable_getitem | apply stable_as_int
    | apply access_emit; reflexivity
    | apply access_readU8; intros; reflexivity
    | apply access_readU16; intros; reflexivity
    | apply access_modify
    | solve [auto with stable] ].

Ltac access_by_body := unfold_bus; stable_walk access_leaf.

Lemma active_access (v : option bool) : stable (keeps on_register_map) (active v).
Proof. destruct v as [[|]|]; unfold active; access_by_body. Qed.

#[export] Hint Resolve active_access : stable.

Lemma read_raw_access (dev : Device) : stable (keeps on_register_map) (_read dev).
Proof. unfold _read. access_by_body. Qed.

Lemma update_range_access (dev : Device) (g t : option Z) :
  stable (keeps on_register_map) (_update_range dev g t).
Proof. unfold _update_range. access_by_body. Qed.

#[export] Hint Resolve read_raw_access update_range_access : stable.

Lemma gain_access (dev : Device) (v : option Z) :
  stable (keeps on_register_map) (gain dev v).
Proof. unfold gain. access_by_body. Qed.

Lemma integration_time_access (dev : Device) (v : option Z) :
  stable (keeps on_register_map) (integration_time dev v).
Proof. unfold integration_time. access_by_body. Qed.

Lemma sensor_id_access (dev : Device) : stable (keeps on_register_map) (sensor_id dev).
Proof. unfold sensor_id. access_by_body. Qed.

Lemma threshold_access (dev : Device) (c lo hi : option Z) :
  stable (keeps on_register_map) (threshold dev c lo hi).
Proof. unfold threshold. access_by_body. Qed.

Lemma interrupt_access (v : option bool) : stable (keeps on_register_map) (interrupt v).
Proof. unfold interrupt. access_by_body. Qed.

Lemma lux_access {num : Type} {PN : PyNum num} (channels : Z * Z) :
  stable (keeps on_register_map) (_lux channels).
Proof. intros w. rewrite <- (lux_world channels w). intros H; exact H. Qed.

#[export] Hint Resolve gain_access sensor_id_access lux_access : stable.

Lemma hdr_body_access (dev : Device) : stable (keeps on_register_map) (hdr_body dev).
Proof. unfold hdr_body, hdr_update_range. access_by_body. Qed.

#[export] Hint Resolve hdr_body_access : stable.

Lemma hdr_loop_access (dev : Device) (fuel : nat) :
  stable (keeps on_register_map) (hdr_loop dev fuel).
Proof. induction fuel as [|n IH]; simpl hdr_loop; access_by_body. Qed.

#[export] Hint Resolve hdr_loop_access : stable.

Lemma read_access {num : Type} {PN : PyNum num} (dev : Device) (fuel : nat)
  (autogain hdr raw : bool) :
  stable (keeps on_register_map) (read dev fuel autogain hdr raw).
Proof. unfold read. access_by_body. Qed.

Lemma init_access (dev : Device) (powermode : Z) :
  stable (keeps on_register_map) (__init__ dev powermode).
Proof. unfold __init__. access_by_body. Qed.

Lemma call_access {num : Type} {PN : PyNum num} (dev : Device) (c : call) (w : World) :
  on_register_map w -> on_register_map (after_call dev c w).
Proof.
  destruct c as [fuel autogain hdr raw | v | v | v | cy lo hi | v | ];
    cbn [after_call].
  - apply read_access.
  - apply gain_access.
  - apply integration_time_access.
  - apply active_access.
  - apply threshold_access.
  - apply interrupt_access.
  - apply sensor_id_access.
Qed.

(** X18: every bus access of a driver, from its construction on, is on the
    register map.  Byte reads go to the ID, timing and interrupt registers;
    byte writes to the control register (values 0x03 and 0x00 only), the
    timing register and the interrupt register; word reads to the channel and
    threshold registers; word writes to the threshold registers; the only
    other command is the interrupt clear.  The ID and channel registers are
    never written. *)
Theorem bus_traffic_on_register_map :
  forall (num : Type) (PN : PyNum num) (dev : Device) (table : lux_table)
         (powermode address : Z) (w : World) (calls : list call),
    construct dev table powermode address = Ok w ->
    forall e, In e (bus (after_calls dev calls w)) -> register_access e = true.
Proof.
  intros num PN dev table powermode address w calls H.
  assert (K : on_register_map (after_calls dev calls w)).
  { assert (K0 : on_register_map w).
    { unfold construct in H.
      pose proof (init_access dev powermode (mkWorld (blank table address) [])) as K.
      destruct (__init__ dev powermode (mkWorld (blank table address) []))
        as [[u|e|] w0]; try discriminate H.
      injection H as <-. apply K. reflexivity. }
    clear H. revert w K0. unfold after_calls.
    induction calls as [|c rest IH]; intros w K0; [exact K0|].
    simpl. apply IH. apply call_access. exact K0. }
  unfold on_register_map in K. rewrite forallb_forall in K. exact K.
Qed.

Lemma bus_traffic_on_register_map_witness :
  exists w : World,
    construct (fixed_device 65535 65535) TSL2561_LUX_SCALE TSL2561_LOWPOWER
      TSL2561_ADDR_FLOAT = Ok w /\
    forallb register_access
      (bus (after_calls (PN := float_num) (fixed_device 65535 65535)
              [call_read 10 false true false; call_threshold (Some 2) (Some 10) None;
               call_gain (Some 1); call_sensor_id] w)) = true.
Proof.
  eexists. split; [vm_compute; reflexivity|].
  apply forallb_forall.
  apply (bus_traffic_on_register_map PrimFloat.float float_num
           (fixed_device 65535 65535) TSL2561_LUX_SCALE TSL2561_LOWPOWER
           TSL2561_ADDR_FLOAT).
  vm_compute. reflexivity.
Defined.

(** ** The timing register *)

Lemma last_written_snoc (register : Z) (log : list event) (e : event) :
  last_written register (log ++ [e]) =
  match written register e with
  | Some v => Some v
  | None => last_written register log
  end.
Proof.
  rewrite last_written_app. cbn [last_written]. destruct (written register e); reflexivity.
Qed.

Lemma gain_bits_value (k v : Z) :
  dict_get [(1, 0x00); (16, 0x10)] k = Some v -> v = 0 \/ v = 16.
Proof.
  unfold dict_get.
  destruct (1 =? k); [intros H; injection H as <-; auto|].
  destruct (16 =? k); [intros H; injection H as <-; auto|].
  intros H. discriminate H.
Qed.

Lemma profile_code (t : Z) (p : profile) :
  dict_get _INTEGRATION_TIME t = Some p ->
  p_hex p = 0 \/ p_hex p = 1 \/ p_hex p = 2 \/ p_hex p = 3.
Proof.
  unfold _INTEGRATION_TIME, dict_get. intros H.
  repeat match type of H with
         | (if ?k =? t then _ else _) = _ =>
             destruct (k =? t); [injection H as <-; cbn; auto | ]
         end.
  discriminate H.
Qed.

Lemma timing_fields (b x : Z) :
  b = 0 \/ b = 16 -> x = 0 \/ x = 1 \/ x = 2 \/ x = 3 ->
  Z.land (Z.lor b x) 0x03 = x /\ Z.land (Z.lor b x) 0x10 = b.
Proof.
  intros [-> | ->] [-> | [-> | [-> | ->]]]; split; reflexivity.
Qed.

Lemma timing_gain_step (v b : Z) :
  b = 0 \/ b = 16 -> Z.land (Z.lor (Z.land v 0x03) b) 0x10 = b.
Proof.
  intros Hb. rewrite Z.land_lor_distr_l.
  rewrite <- Z.land_assoc. change (Z.land 3 16) with 0. rewrite Z.land_0_r.
  destruct Hb as [-> | ->]; reflexivity.
Qed.

Section Echo.

Variable dev : Device.
Hypothesis dev_echoes : echoes dev.

Lemma timing_emit (e : event) :
  written (Z.lor _REGISTER_TIMING _COMMAND_BIT) e = None ->
  stable (keeps timing_in_sync) (emit e).
Proof.
  intros H w (g & t & v & A & B & C & D). exists g, t, v.
  unfold emit. cbn [snd self bus]. rewrite last_written_snoc, H. auto.
Qed.

Lemma timing_readU8 (r : Z) : stable (keeps timing_in_sync) (readU8 dev r).
Proof.
  intros w (g & t & v & A & B & C & D). exists g, t, v.
  unfold readU8. cbn [snd self bus]. rewrite last_written_snoc. auto.
Qed.

Lemma timing_readU16 (r : Z) : stable (keeps timing_in_sync) (readU16 dev r).
Proof.
  intros w (g & t & v & A & B & C & D). exists g, t, v.
  unfold readU16. cbn [snd self bus]. rewrite last_written_snoc. auto.
Qed.

Lemma timing_modify (f : TSL2561 -> TSL2561) :
  (forall s, _gain (f s) = _gain s) ->
  (forall s, _integration_time (f s) = _integration_time s) ->
  stable (keeps timing_in_sync) (modify f).
Proof.
  intros Hg Ht w (g & t & v & A & B & C & D). exists g, t, v.
  unfold modify. cbn [snd self bus]. rewrite Hg, Ht. auto.
Qed.

Ltac timing_leaf :=
  first
    [ apply stable_ret | apply stable_raise | apply stable_out_of_fuel
    | apply stable_get_self | apply stable_getitem | apply stable_as_int
    | apply timing_emit; reflexivity
    | apply timing_readU8 | apply timing_readU16
    | apply timing_modify; intros; reflexivity
    | solve [auto with stable] ].

Ltac timing_by_body := unfold_bus; stable_walk timing_leaf.

Lemma active_timing (v : option bool) : stable (keeps timing_in_sync) (active v).
Proof. destruct v as [[|]|]; unfold active; timing_by_body. Qed.

#[local] Hint Resolve active_timing : stable.

Lemma read_raw_timing : stable (keeps timing_in_sync) (_read dev).
Proof. unfold _read. timing_by_body. Qed.

Lemma sensor_id_timing : stable (keeps timing_in_sync) (sensor_id dev).
Proof. unfold sensor_id. timing_by_body. Qed.

Lemma threshold_timing (c lo hi : option Z) :
  stable (keeps timing_in_sync) (threshold dev c lo hi).
Proof. unfold threshold. timing_by_body. Qed.

Lemma interrupt_timing (v : option bool) : stable (keeps timing_in_sync) (interrupt v).
Proof. unfold interrupt. timing_by_body. Qed.

Lemma lux_timing {num : Type} {PN : PyNum num} (channels : Z * Z) :
  stable (keeps timing_in_sync) (_lux channels).
Proof. intros w. rewrite <- (lux_world channels w). intros H; exact H. Qed.


Ltac echo_reads :=
  repeat match goal with
         | H : ?v = dev ?log ?r, L : last_written _ _ = Some _ |- _ =>
             let K := fresh "K" in
             pose proof (dev_echoes log r) as K;
             repeat rewrite last_written_snoc in K;
             cbn [written] in K;
             repeat match type of K with
                    | context [?a =? ?b] =>
                        let c := eval vm_compute in (a =? b) in
                        change (a =? b) with c in K
                    end;
             cbv iota in K;
             try rewrite L in K;
             specialize (K _ eq_refl);
             rewrite K in H; clear K
         end.

Lemma update_range_timing (g t : option Z) (w : World) :
  timing_in_sync w ->
  hoare (_update_range dev g t) w (fun _ w' => timing_in_sync w') timing_in_sync.
Proof.
  intros (g0 & t0 & v0 & Hg0 & Ht0 & Hv0 & Hlw).
  unfold timing_byte in Hv0.
  destruct (dict_get [(1, 0x00); (16, 0x10)] g0) as [b0|] eqn:Hb0; [|discriminate].
  destruct (dict_get _INTEGRATION_TIME t0) as [p0|] eqn:Hp0; [|discriminate].
  injection Hv0 as <-.
  pose proof (gain_bits_value _ _ Hb0) as Bb0.
  pose proof (profile_code _ _ Hp0) as Bp0.
  destruct (timing_fields _ _ Bb0 Bp0) as (F3 & F16).
  destruct w as [s tr]. fields.
  unfold _update_range. unfold_bus. hoare_run.
  all: try match goal with
           | Hx : forall k v, _integration_time _ = Some k -> _ <> Some v |- _ =>
               exfalso; exact (Hx _ _ Ht0 Hp0)
           end.
  all: echo_reads.
  all: repeat match goal with
              | Hx : attr_eqb _ _ = true |- _ => apply attr_eqb_eq in Hx
              end.
  all: known_lookups.
  all: unfold timing_in_sync; fields.
  all: do 3 eexists.
  all: (split; [first [eassumption | reflexivity]|]).
  all: (split; [first [eassumption | reflexivity]|]).
  all: unfold timing_byte.
  all: repeat match goal with
              | Hx : dict_get _ _ = Some _ |- _ => rewrite Hx
              end.
  all: (split; [reflexivity|]).
  all: repeat rewrite last_written_snoc; cbn [written].
  all: repeat match goal with
              | |- context [?a =? ?b] =>
                  let c := eval vm_compute in (a =? b) in
                  change (a =? b) with c
              end; cbv iota.
  all: try exact Hlw.
  all: f_equal; subst.
  all: repeat match goal with
              | Hx : dict_get [(1, 0x00); (16, 0x10)] _ = Some _ |- _ =>
                  apply gain_bits_value in Hx
              end.
  all: rewrite ?timing_gain_step by assumption.
  all: rewrite ?F16, ?F3.
  all: first [reflexivity | apply Z.lor_comm].
Qed.


Lemma hoare_keeps {A : Type} (I : World -> Prop) (c : M A) (w : World) :
  stable (keeps I) c -> I w -> hoare c w (fun _ w' => I w') I.
Proof.
  intros Hs Hw. apply (hoare_stable (keeps I)); [exact Hs | |]; intros; auto.
Qed.

Ltac call_timing :=
  lazymatch goal with
  | |- hoare (_read _) _ _ _ =>
      eapply hoare_conseq;
      [apply (hoare_keeps timing_in_sync); [apply read_raw_timing|]
      | intros [? ?] ? ? | auto]
  | |- hoare (_update_range _ _ _) _ _ _ =>
      eapply hoare_conseq; [apply update_range_timing | intros ? ? ? | auto]
  | |- hoare (_lux _) _ _ _ =>
      eapply hoare_conseq;
      [apply (hoare_keeps timing_in_sync); [apply lux_timing|]
      | intros ? ? ? | auto]
  | |- hoare (time_sleep _) _ _ _ =>
      eapply hoare_conseq;
      [apply (hoare_keeps timing_in_sync); [apply timing_emit; reflexivity|]
      | intros ? ? ? | auto]
  end; [try assumption | cbv beta].

Lemma gain_timing (v : option Z) (w : World) :
  timing_in_sync w ->
  hoare (gain dev v) w (fun _ w' => timing_in_sync w') timing_in_sync.
Proof.
  intros Hw. unfold gain.
  repeat (first [call_timing | hoare_step]); try assumption.
Qed.

Lemma integration_time_timing (v : option Z) (w : World) :
  timing_in_sync w ->
  hoare (integration_time dev v) w (fun _ w' => timing_in_sync w') timing_in_sync.
Proof.
  intros Hw. unfold integration_time.
  repeat (first [call_timing | hoare_step]); try assumption.
Qed.

Lemma hdr_body_timing (w : World) :
  timing_in_sync w ->
  hoare (hdr_body dev) w (fun _ w' => timing_in_sync w') timing_in_sync.
Proof.
  intros Hw. unfold hdr_body, hdr_update_range.
  repeat (first [call_timing | hoare_step]; fields); try assumption.
Qed.

Lemma hdr_loop_timing (fuel : nat) (w : World) :
  timing_in_sync w ->
  hoare (hdr_loop dev fuel) w (fun _ w' => timing_in_sync w') timing_in_sync.
Proof.
  revert w. induction fuel as [|n IH]; intros w Hw; [exact Hw|].
  simpl hdr_loop. apply hoare_bind.
  eapply hoare_conseq; [apply (hdr_body_timing w Hw) | | auto].
  intros [channels|] w' Hw'; cbv beta.
  - apply hoare_ret. exact Hw'.
  - apply IH. exact Hw'.
Qed.

Lemma read_timing {num : Type} {PN : PyNum num} (fuel : nat)
  (autogain hdr raw : bool) (w : World) :
  timing_in_sync w ->
  hoare (read dev fuel autogain hdr raw) w (fun _ w' => timing_in_sync w')
    timing_in_sync.
Proof.
  intros Hw. unfold read. destruct hdr.
  - apply hoare_bind.
    eapply hoare_conseq; [apply (hdr_loop_timing fuel w Hw) | | auto].
    intros [vnir ir] w1 Hw1. cbv beta iota.
    repeat (first [call_timing | hoare_step]; fields); try assumption.
  - repeat (first [call_timing | hoare_step]; fields); try assumption.
    all: try (eapply hoare_conseq;
              [apply gain_timing; assumption | intros ? ? ? | auto]; cbv beta).
    all: repeat (first [call_timing | hoare_step]; fields); try assumption.
Qed.

Lemma call_timing_kept {num : Type} {PN : PyNum num} (c : call) (w : World) :
  timing_in_sync w -> timing_in_sync (after_call dev c w).
Proof.
  intros Hw.
  destruct c as [fuel autogain hdr raw | v | v | v | cy lo hi | v | ];
    cbn [after_call].
  - apply hoare_final. apply read_timing. exact Hw.
  - apply hoare_final. apply gain_timing. exact Hw.
  - apply hoare_final. apply integration_time_timing. exact Hw.
  - exact (active_timing v w Hw).
  - exact (threshold_timing cy lo hi w Hw).
  - exact (interrupt_timing v w Hw).
  - exact (sensor_id_timing w Hw).
Qed.

Lemma update_range_power_up (w : World) :
  _gain (self w) = Some 1 -> _integration_time (self w) = Some 402 ->
  hoare (_update_range dev (Some 16) (Some 13)) w
    (fun _ w' => timing_in_sync w') (fun _ => True).
Proof.
  destruct w as [s tr]. fields. intros Hg Ht.
  unfold _update_range. unfold_bus. hoare_run.
  all: try exact I.
  all: repeat match goal with
              | Hx : attr_eqb _ _ = true |- _ =>
                  apply attr_eqb_eq in Hx; fields; congruence
              end.
  all: known_lookups.
  all: repeat match goal with
              | Hx : dict_get _ _ = Some ?v |- _ =>
                  is_var v; cbn in Hx; injection Hx as Hx; subst v
              end.
  all: repeat match goal with
              | H : ?v = dev ?log ?r |- _ =>
                  let K := fresh "K" in
                  pose proof (dev_echoes log r) as K;
                  repeat rewrite last_written_snoc in K;
                  cbn [written] in K;
                  repeat match type of K with
                         | context [?a =? ?b] =>
                             let c := eval vm_compute in (a =? b) in
                             change (a =? b) with c in K
                         end;
                  cbv iota in K;
                  first [ specialize (K _ eq_refl); rewrite K in H; clear K
                        | clear K; revert H ]
              end; intros.
  all: unfold timing_in_sync; fields.
  all: exists 16, 13, 16.
  all: (split; [reflexivity|]); (split; [reflexivity|]); (split; [reflexivity|]).
  all: repeat rewrite last_written_snoc; cbn [written].
  all: repeat match goal with
              | |- context [?a =? ?b] =>
                  let c := eval vm_compute in (a =? b) in
                  change (a =? b) with c
              end; cbv iota.
  all: f_equal; subst.
  all: rewrite timing_gain_step by (right; reflexivity).
  all: reflexivity.
Qed.

Lemma init_timing (powermode : Z) (w : World) :
  hoare (__init__ dev powermode) w (fun _ w' => timing_in_sync w') (fun _ => True).
Proof.
  unfold __init__, sensor_id. unfold_bus.
  hoare_run; try exact I.
  eapply hoare_conseq; [apply update_range_power_up; reflexivity | | auto].
  intros [] w' Hw'. cbv beta. hoare_step. exact Hw'.
Qed.

End Echo.

(** X19: on a device that reads back what was written, the timing register
    follows the driver.  After construction and any sequence of public calls,
    the timing register holds the gain bit of the recorded gain or-ed with
    the code of the recorded integration time. *)
Theorem timing_register_tracks_the_driver :
  forall (num : Type) (PN : PyNum num) (dev : Device) (table : lux_table)
         (powermode address : Z) (w : World) (calls : list call),
    echoes dev ->
    construct dev table powermode address = Ok w ->
    let w' := after_calls dev calls w in
    exists g t v,
      _gain (self w') = Some g /\ _integration_time (self w') = Some t /\
      timing_byte g t = Some v /\
      dev (bus w') (Z.lor _REGISTER_TIMING _COMMAND_BIT) = v.
Proof.
  intros num PN dev table powermode address w calls Hdev H w'.
  assert (K : timing_in_sync w').
  { assert (K0 : timing_in_sync w).
    { unfold construct in H.
      pose proof (init_timing dev Hdev powermode (mkWorld (blank table address) []))
        as K.
      unfold hoare in K.
      destruct (__init__ dev powermode (mkWorld (blank table address) []))
        as [[u|e|] w0]; try discriminate H.
      injection H as <-. exact K. }
    clear H. subst w'. revert w K0. unfold after_calls.
    induction calls as [|c rest IH]; intros w K0; [exact K0|].
    simpl. apply IH. apply call_timing_kept; assumption. }
  destruct K as (g & t & v & Hg & Ht & Hv & Hlw).
  exists g, t, v. repeat split; try assumption.
  apply Hdev. exact Hlw.
Qed.

Lemma timing_register_tracks_the_driver_witness :
  exists w : World,
    construct register_file TSL2561_LUX_SCALE TSL2561_STANDARD
      TSL2561_ADDR_FLOAT = Ok w /\
    exists g t v,
      _gain (self (after_calls (PN := float_num) register_file
                     [call_gain (Some 1); call_integration_time (Some 101)] w)) =
      Some g /\
      _integration_time
        (self (after_calls (PN := float_num) register_file
                 [call_gain (Some 1); call_integration_time (Some 101)] w)) =
      Some t /\
      timing_byte g t = Some v /\
      register_file
        (bus (after_calls (PN := float_num) register_file
                [call_gain (Some 1); call_integration_time (Some 101)] w))
        (Z.lor _REGISTER_TIMING _COMMAND_BIT) = v.
Proof.
  eexists. split; [vm_compute; reflexivity|].
  apply (timing_register_tracks_the_driver PrimFloat.float float_num register_file
           TSL2561_LUX_SCALE TSL2561_STANDARD TSL2561_ADDR_FLOAT _
           [call_gain (Some 1); call_integration_time (Some 101)]
           register_file_echoes).
  vm_compute. reflexivity.
Defined.

(** ** The rounding offset *)

(** With a zero factor the two products of the formula are zeros or not
    numbers, whatever the coefficients: their difference is not above 0.
    (From the specification of the binary64 operations.) *)
Lemma zero_products_not_positive (B M : PrimFloat.float) :
  PrimFloat.ltb 0%float
    (PrimFloat.sub (PrimFloat.mul 0%float B) (PrimFloat.mul 0%float M)) = false.
Proof.
  rewrite FloatAxioms.ltb_spec, FloatAxioms.sub_spec, !FloatAxioms.mul_spec.
  change (FloatOps.Prim2SF 0%float) with (SpecFloat.S754_zero false).
  destruct (FloatOps.Prim2SF B) as [sb|sb| |sb mb eb],
           (FloatOps.Prim2SF M) as [sm|sm| |sm mm em];
    try reflexivity.
  all: try (destruct sb; reflexivity).
  all: try (destruct sm; reflexivity).
  all: destruct sb, sm; reflexivity.
Qed.

(** X20: in binary64, the arithmetic of the interpreter, a dark reading
    (both counts 0) converts to exactly 0.5 lux, for gain 1 and gain 16, for
    each preset integration time and for every table of coefficients (of
    63-bit entries, which the model converts as the interpreter does; the
    proof does not depend on it): the scaled channels are 0.0, whichever row
    the loop selects its products are zeros, [max] returns its first argument
    0, and what is left is the rounding offset 8192 / 16384. *)
Theorem dark_reading_is_half_a_lux :
  forall (w : World) (g t : Z),
    _gain (self w) = Some g -> g = 1 \/ g = 16 ->
    _integration_time (self w) = Some t -> In t [13; 101; 402] ->
    table_in_range (_LUX_SCALE (self w)) = true ->
    _lux (PN := float_num) (0, 0) w = (Ok (Some 0.5%float), w).
Proof.
  intros w g t Hg Hgv Ht Htv _.
  unfold _lux, bind, get_self, getitem, as_int, ret, attr_eqb.
  rewrite Ht, Hg.
  assert (C : (g = 1 \/ g = 16) /\ (t = 13 \/ t = 101 \/ t = 402)).
  { split; [exact Hgv|]. simpl in Htv. intuition. }
  clear Hgv Htv Hg Ht.
  destruct C as [[-> | ->] [-> | [-> | ->]]].
  all: cbn [Z.eqb Pos.eqb dict_get _INTEGRATION_TIME p_clip p_scale Z.gtb Z.compare
            Pos.compare Pos.compare_cont orb].
  all: cbv beta iota zeta.
  all: cbn [of_int num_add num_sub num_mul num_div num_le num_gt num_bool float_num].
  all: match goal with
       | |- context [lux_scale_loop ?r ?tb] => destruct (lux_scale_loop r tb) as [b m]
       end.
  all: unfold max0.
  all: cbn [of_int num_add num_sub num_mul num_div num_le num_gt num_bool float_num].
  all: match goal with
       | |- context [PrimFloat.mul ?c (float_of_int _)] =>
           replace c with 0%float by (vm_compute; reflexivity)
       end.
  all: rewrite zero_products_not_positive.
  all: vm_compute; reflexivity.
Qed.

Lemma dark_reading_is_half_a_lux_witness :
  _lux (PN := float_num) (0, 0) (driver_at TSL2561CS_LUX_SCALE None 16 101) =
  (Ok (Some 0.5%float), driver_at TSL2561CS_LUX_SCALE None 16 101).
Proof.
  apply (dark_reading_is_half_a_lux (driver_at TSL2561CS_LUX_SCALE None 16 101)
           16 101).
  - reflexivity.
  - right. reflexivity.
  - reflexivity.
  - right. left. reflexivity.
  - reflexivity.
Defined.
